(** * gofasta real-time server: ETA tracking cycle, ETA smoothing and
      polyline decoding

    Shallow embedding of [computeBusETA] and its helpers from
    [src/index.js] (the first of the two versions of the server that the
    file holds), of [smoothETA] and its helpers from
    [src/utils/smoothing.js], and of the two [decodePolyline] functions
    ([src/index.js] and [src/utils/googleMaps.js]).

    Numbers.  JavaScript numbers are IEEE doubles.  Timestamps
    ([Date.now()], [getTime()]) are integral milliseconds and are modelled
    by [Z]; every other number is modelled by an exact rational [Q], with
    [NaN] made explicit where the code can meet it.  Arithmetic is exact,
    and a decimal literal is the fraction it spells; the one exception is
    the [1e-5] of the second decoder, which is the double it denotes, so
    that [n * 1e-5] and [n / 1e5] stay apart.  The 32-bit integer
    operators of the polyline decoder ([|=], [&], [<<], [>>], [~]) are
    modelled on [Z] with the wrap-around written out ([toInt32]). *)

From Stdlib Require Import ZArith QArith Qabs Qround Lqa Lia.
From Stdlib Require Import String Ascii List.
From stdpp Require Import base option gmap strings.
Import ListNotations.

Local Open Scope Z_scope.
Local Open Scope Q_scope.

(** ** JavaScript values and numbers *)

(** A JavaScript number: [NaN] or a finite value. *)
Inductive JsNum : Type :=
| NaN
| Fin (q : Q).

(** The JSON values a device record can carry in a field. *)
Inductive JsValue : Type :=
| JsUndefined
| JsNull
| JsNumber (n : JsNum)
| JsString (s : string).

(** [a < b] on rationals, as a boolean. *)
Definition Qlt_bool (a b : Q) : bool := negb (Qle_bool b a).

(** [!x] for a number held as a rational: only [0] is falsy. *)
Definition isZero (q : Q) : bool := Qeq_bool q 0.

(** [Math.max(a, b)] and [Math.min(a, b)] on finite numbers. *)
Definition Math_max (a b : Q) : Q := if Qle_bool a b then b else a.
Definition Math_min (a b : Q) : Q := if Qle_bool a b then a else b.

(** [Math.round(x)]: the nearest integer, ties towards [+Infinity]. *)
Definition Math_round (x : Q) : Z := Qfloor (x + (1 # 2)).

(** ** Data of the tracking cycle *)

Record Position : Type := { lat : Q; lng : Q }.

(** One raw device record, as delivered by the device API or by
    [getDummyDevice]. *)
Module Device.
Record t : Type := {
  device_id : option string;
  id : option string;
  plate_number : option string;
  last_lat : JsValue;
  last_lon : JsValue;
  last_speed : JsValue;
  last_update : string
}.
End Device.

(** The key of [etaCache]: [device.device_id || device.id], which is
    [undefined] ([None]) when both are missing. *)
Abbreviation BusId := (option string).

(** The result of [getGoogleRouteData] on success. *)
Record GoogleResult : Type := {
  durationSeconds : Q;
  routePoints : list Position
}.

(** One value of [etaCache].  A field is [None] when the object has no
    such property (or holds [undefined]). *)
Module Cache.
Record t : Type := {
  etaSeconds : option Q;
  route : option (list Position);
  lastEtaUpdate : option Z;
  previousEta : option Q
}.
(** [{}] *)
Definition empty : t :=
  {| etaSeconds := None; route := None;
     lastEtaUpdate := None; previousEta := None |}.
End Cache.

Inductive Status : Type := offline | arrived | normal | traffic | faster.

(** The payload returned by [computeBusETA]; [eta] is [None] for
    [null]. *)
Record Payload : Type := {
  busId : BusId;
  plateNumber : string;
  position : Position;
  eta : option Z;
  etaSeconds : Q;
  status : Status;
  message : string;
  speed : JsValue;
  lastUpdate : string;
  route : list Position
}.

(** ** Constants of [src/index.js] *)

Definition ETA_REFRESH_MS : Z := 30000.
Definition ARRIVAL_DISTANCE_M : Q := 50.
Definition STALE_DEVICE_MS : Z := (10 * 60 * 1000)%Z.
Definition DESTINATION : Position :=
  {| lat := - (19683524 # 10000000); lng := 300890925 # 10000000 |}.

(** ** Helpers of [src/index.js] *)

(** [applyCountdown(etaSeconds, lastUpdate, now)]. *)
Definition applyCountdown (etaSeconds : option Q) (lastUpdate : option Z)
    (now : Z) : Q :=
  match etaSeconds, lastUpdate with
  | Some e, Some t =>
      if isZero e || (t =? 0)%Z then 0
      else
        let elapsed := inject_Z (now - t) / 1000 in
        Math_max 0 (e - elapsed)
  | _, _ => 0
  end.

(** [x || y] for string-valued properties: [undefined] and the empty
    string are falsy. *)
Definition orElse (x y : option string) : option string :=
  match x with
  | Some s => if String.eqb s "" then y else x
  | None => y
  end.

(** The text a template literal produces for a bus id. *)
Definition showId (b : BusId) : string :=
  match b with
  | Some s => s
  | None => "undefined"
  end.

(** ** The tracking cycle *)

(** What one invocation of the async function [computeBusETA] does: it
    either returns without suspending, or suspends once on
    [await getGoogleRouteData(start, end)] and resumes with the provider's
    answer ([None] is the [null] that [getGoogleRouteData] returns when the
    request throws, times out or is answered with a status other than OK)
    and with [etaCache] as it is at that moment. *)
Inductive Cycle : Type :=
| Return (result : option Payload) (etaCache' : gmap BusId Cache.t)
| Await (start dest : Position)
        (resume : option GoogleResult -> gmap BusId Cache.t ->
                  option Payload * gmap BusId Cache.t).

Section TrackingCycle.

(** The numeric library functions the cycle relies on are parameters:
    the haversine distance of [distanceMeters] is built from [Math.sin],
    [Math.cos], [Math.sqrt] and [Math.atan2]; [StringToNumber] is what
    [Number] does on a string, [DateGetTime] is
    [new Date(text).getTime()], with [None] for [NaN]. *)
Variable distanceMeters : Position -> Position -> Q.
Variable StringToNumber : string -> JsNum.
Variable DateGetTime : string -> option Z.

(** [Number(v)]. *)
Definition Number (v : JsValue) : JsNum :=
  match v with
  | JsUndefined => NaN
  | JsNull => Fin 0
  | JsNumber n => n
  | JsString s => StringToNumber s
  end.

(** The guard [!lat || !lng || isNaN(lat) || isNaN(lng)]. *)
Definition falsyNum (n : JsNum) : bool :=
  match n with
  | NaN => true
  | Fin q => isZero q
  end.

Definition isNaN (n : JsNum) : bool :=
  match n with
  | NaN => true
  | Fin _ => false
  end.

Definition invalidCoordinates (lat lng : JsNum) : bool :=
  falsyNum lat || falsyNum lng || isNaN lat || isNaN lng.

(** [now - lastUpdate > STALE_DEVICE_MS]; a comparison with [NaN] is
    false. *)
Definition isStale (now : Z) (lastUpdate : option Z) : bool :=
  match lastUpdate with
  | Some t => (STALE_DEVICE_MS <? now - t)%Z
  | None => false
  end.

(** [!cache.lastEtaUpdate || (now - cache.lastEtaUpdate >= ETA_REFRESH_MS)] *)
Definition shouldRefresh (now : Z) (cache : Cache.t) : bool :=
  match Cache.lastEtaUpdate cache with
  | None => true
  | Some t => (t =? 0)%Z || (ETA_REFRESH_MS <=? now - t)%Z
  end.

(** [cache.etaSeconds || 0] and [cache.route || []]. *)
Definition cachedEta (cache : Cache.t) : Q :=
  match Cache.etaSeconds cache with
  | Some e => if isZero e then 0 else e
  | None => 0
  end.

Definition cachedRoute (cache : Cache.t) : list Position :=
  match Cache.route cache with
  | Some r => r
  | None => []
  end.

(** Section D of [computeBusETA]: the status and its message. *)
Definition statusOf (cache : Cache.t) (etaSeconds : Q) : Status * string :=
  let isTraffic :=
    match Cache.previousEta cache with
    | Some p => negb (isZero p) && Qle_bool 90 (etaSeconds - p)
    | None => false
    end in
  let isFaster :=
    match Cache.previousEta cache with
    | Some p => Qlt_bool etaSeconds (p - 60)
    | None => false
    end in
  if isTraffic then (traffic, "Delayed by traffic"%string)
  else if isFaster then (faster, "Moving quickly"%string)
  else (normal, "On the way"%string).

(** Sections D and E: the payload of a tracking cycle. *)
Definition finalPayload (device : Device.t) (busId : BusId)
    (plate : string) (position : Position) (cache : Cache.t)
    (etaSeconds : Q) (currentRoute : list Position) : Payload :=
  let '(status, message) := statusOf cache etaSeconds in
  let finalEtaMin := Math_round (etaSeconds / 60) in
  {| busId := busId;
     plateNumber := plate;
     position := position;
     eta := Some finalEtaMin;
     etaSeconds := etaSeconds;
     status := status;
     message := message;
     lastUpdate := Device.last_update device;
     speed := Device.last_speed device;
     route := currentRoute |}.

(** [device.device_id || device.id] *)
Definition busIdOf (device : Device.t) : BusId :=
  orElse (Device.device_id device) (Device.id device).

(** [device.plate_number || `Bus ${busId}`] *)
Definition plateOf (device : Device.t) : string :=
  match orElse (Device.plate_number device) None with
  | Some p => p
  | None => ("Bus " ++ showId (busIdOf device))%string
  end.

(** [computeBusETA(device)], with [Date.now()] and the global [etaCache]
    passed in. *)
Definition computeBusETA (now : Z) (device : Device.t)
    (etaCache : gmap BusId Cache.t) : Cycle :=
  let busId := busIdOf device in
  let plate := plateOf device in
  let lat := Number (Device.last_lat device) in
  let lng := Number (Device.last_lon device) in
  let lastUpdate := DateGetTime (Device.last_update device) in
  (* basic validation *)
  if invalidCoordinates lat lng then Return None etaCache
  else
    match lat, lng with
    | NaN, _ | _, NaN => Return None etaCache (* excluded by the guard *)
    | Fin latq, Fin lngq =>
        let position := {| lat := latq; lng := lngq |} in
        (* A. offline check *)
        if isStale now lastUpdate then
          Return (Some {| busId := busId;
                          plateNumber := plate;
                          position := position;
                          eta := None;
                          etaSeconds := 0;
                          status := offline;
                          message := "Device offline";
                          speed := Device.last_speed device;
                          lastUpdate := Device.last_update device;
                          route := [] |}) etaCache
        else
          let cache := default Cache.empty (etaCache !! busId) in
          (* B. arrival check *)
          let dist := distanceMeters position DESTINATION in
          if Qle_bool dist ARRIVAL_DISTANCE_M then
            Return (Some {| busId := busId;
                            plateNumber := plate;
                            position := position;
                            eta := Some 0%Z;
                            etaSeconds := 0;
                            speed := Device.last_speed device;
                            status := arrived;
                            message := "Arrived at destination";
                            route := [];
                            lastUpdate := Device.last_update device |})
                   (<[busId := {| Cache.etaSeconds := Some 0;
                                  Cache.lastEtaUpdate := Some now;
                                  Cache.route := Some [];
                                  Cache.previousEta :=
                                    Cache.previousEta cache |}]> etaCache)
          else
            (* C. refresh decision *)
            if shouldRefresh now cache then
              Await position DESTINATION
                (fun googleResult etaCacheNow =>
                   match googleResult with
                   | Some g =>
                       let etaSeconds := durationSeconds g in
                       let currentRoute := routePoints g in
                       (Some (finalPayload device busId plate position
                                cache etaSeconds currentRoute),
                        <[busId := {| Cache.etaSeconds := Some etaSeconds;
                                      Cache.route := Some currentRoute;
                                      Cache.lastEtaUpdate := Some now;
                                      Cache.previousEta :=
                                        Cache.etaSeconds cache |}]>
                          etaCacheNow)
                   | None =>
                       (Some (finalPayload device busId plate position
                                cache (cachedEta cache)
                                (cachedRoute cache)),
                        etaCacheNow)
                   end)
            else
              (* local countdown *)
              let etaSeconds :=
                applyCountdown (Cache.etaSeconds cache)
                               (Cache.lastEtaUpdate cache) now in
              Return (Some (finalPayload device busId plate position
                              cache etaSeconds (cachedRoute cache)))
                     etaCache
    end.

(** Does the cycle call the routing provider? *)
Definition callsProvider (c : Cycle) : bool :=
  match c with
  | Return _ _ => false
  | Await _ _ _ => true
  end.

(** One whole cycle, run to its end against a provider [google], with
    no other cycle interleaved at the [await]. *)
Definition runCycle (google : Position -> Position -> option GoogleResult)
    (now : Z) (device : Device.t) (etaCache : gmap BusId Cache.t)
    : option Payload * gmap BusId Cache.t :=
  match computeBusETA now device etaCache with
  | Return result etaCache' => (result, etaCache')
  | Await start dest resume => resume (google start dest) etaCache
  end.

(** *** Vocabulary for the statements about a cycle *)

(** The cache entry a cycle works on: [etaCache.get(busId) || {}]. *)
Definition entryOf (etaCache : gmap BusId Cache.t) (device : Device.t)
    : Cache.t :=
  default Cache.empty (etaCache !! busIdOf device).

(** The fix carries the usable coordinates [pos]: both are numbers, and
    neither is [NaN] or [0]. *)
Definition usableFix (device : Device.t) (pos : Position) : Prop :=
  Number (Device.last_lat device) = Fin (lat pos)
  /\ Number (Device.last_lon device) = Fin (lng pos)
  /\ ~ lat pos == 0 /\ ~ lng pos == 0.

(** The observation time of the fix is older than the stale threshold. *)
Definition staleFix (now : Z) (device : Device.t) : Prop :=
  exists t, DateGetTime (Device.last_update device) = Some t
            /\ (STALE_DEVICE_MS < now - t)%Z.

(** The fix is within the arrival radius of the destination. *)
Definition atDestination (pos : Position) : Prop :=
  distanceMeters pos DESTINATION <= ARRIVAL_DISTANCE_M.

(** A tracking cycle: a usable fix that is neither stale nor an
    arrival. *)
Definition tracking (now : Z) (device : Device.t) (pos : Position) : Prop :=
  usableFix device pos /\ ~ staleFix now device /\ ~ atDestination pos.

(** A refresh is due for a cache entry: nothing was fetched yet, or the
    last fetch is at least [ETA_REFRESH_MS] old. *)
Definition refreshDue (now : Z) (cache : Cache.t) : Prop :=
  match Cache.lastEtaUpdate cache with
  | None => True
  | Some t => t = 0%Z \/ (ETA_REFRESH_MS <= now - t)%Z
  end.

(** A provider answer whose duration, if any, is not negative. *)
Definition answerOk (answer : option GoogleResult) : Prop :=
  match answer with
  | Some g => 0 <= durationSeconds g
  | None => True
  end.

(** No cached [etaSeconds] is negative. *)
Definition cacheOk (etaCache : gmap BusId Cache.t) : Prop :=
  forall k entry e,
    etaCache !! k = Some entry -> Cache.etaSeconds entry = Some e -> 0 <= e.

(** The contents [etaCache] can have, together with the answers the
    provider has given on the way there (the latest first): the cache
    starts empty and is changed only by cycles of [computeBusETA], which
    may be suspended at their [await] while other cycles run, and which
    are resumed with whatever the provider answers. *)
Inductive reachableCache
    : list (option GoogleResult) -> gmap BusId Cache.t -> Prop :=
| reachable_empty : reachableCache [] ∅
| reachable_return now device answers etaCache result etaCache' :
    reachableCache answers etaCache ->
    computeBusETA now device etaCache = Return result etaCache' ->
    reachableCache answers etaCache'
| reachable_resume now device answers0 etaCache0 start dest resume answer
    answers etaCache :
    reachableCache answers0 etaCache0 ->
    computeBusETA now device etaCache0 = Await start dest resume ->
    reachableCache answers etaCache ->
    reachableCache (answer :: answers) (resume answer etaCache).2.

End TrackingCycle.

(** ** The refresh policy and the countdown as the specification words them *)

Module Spec.

(** "ETA refresh triggers when [now - etaRefreshedAt >= ETA_REFRESH_INTERVAL]
    or the vehicle has moved more than [MIN_DISTANCE_FOR_REFRESH] (100 m)
    since the position recorded at the last refresh.  Exception: if the
    vehicle is not moving and has moved less than 50 m, suppress refresh
    unless the cache is more than 2x the normal interval old." *)
Definition shouldRefreshEta (interval : Z) (etaRefreshedAt : Z)
    (movedMeters : Q) (isMoving : bool) (now : Z) : bool :=
  let due :=
    (interval <=? now - etaRefreshedAt)%Z || Qlt_bool 100 movedMeters in
  let suppressed :=
    negb isMoving && Qlt_bool movedMeters 50
    && negb (2 * interval <? now - etaRefreshedAt)%Z in
  due && negb suppressed.


End Spec.

(** ** [src/utils/smoothing.js] *)

Module Smoothing.

(** The state of a one-dimensional Kalman filter. *)
Record KalmanState : Type := { value : Q; errorCovariance : Q }.

(** [kalmanFilter1D(state, measurement, processNoise, measurementNoise)];
    [None] is a [null] or [undefined] state. *)
Definition kalmanFilter1D (state : option KalmanState) (measurement : Q)
    (processNoise measurementNoise : Q) : KalmanState :=
  match state with
  | None => {| value := measurement; errorCovariance := 1 |}
  | Some st =>
      let predictedValue := value st in
      let predictedErrorCovariance := errorCovariance st + processNoise in
      let kalmanGain :=
        predictedErrorCovariance
        / (predictedErrorCovariance + measurementNoise) in
      let updatedValue :=
        predictedValue + kalmanGain * (measurement - predictedValue) in
      let updatedErrorCovariance :=
        (1 - kalmanGain) * predictedErrorCovariance in
      {| value := updatedValue; errorCovariance := updatedErrorCovariance |}
  end.

(** [exponentialMovingAverage(previousValue, newValue, alpha)]. *)
Definition exponentialMovingAverage (previousValue : option Q)
    (newValue alpha : Q) : Q :=
  match previousValue with
  | None => newValue
  | Some previous => alpha * newValue + (1 - alpha) * previous
  end.

(** The ETA part of a bus's smoothing state, as [smoothETA] returns it. *)
Record EtaState : Type := {
  eta : Q;
  etaFilter : option KalmanState;
  etaEMA : Q
}.

(** [smoothETA(state, rawETA, smoothedSpeed, distance)].  [state] is
    [None] for [null]; [rawETA] is [None] for [null], [undefined] and
    [NaN].  The last two arguments are not used by the function. *)
Definition smoothETA (state : option EtaState) (rawETA : option Q)
    (smoothedSpeed distance : Q) : EtaState :=
  let keep :=
    match state with
    | Some st => st
    | None => {| eta := 0; etaFilter := None; etaEMA := 0 |}
    end in
  match rawETA with
  | None => keep
  | Some rawETA =>
      if Qlt_bool rawETA 0 then keep
      else
        let clampedETA := Math_max 0 (Math_min 3600 rawETA) in
        let targetETA :=
          match state with
          | Some st =>
              if Qlt_bool 0 (etaEMA st) then
                let previousETA := etaEMA st in
                let maxDecrease := previousETA * (5 # 100) in
                let maxIncrease := previousETA * (2 # 100) in
                if Qlt_bool clampedETA (previousETA - maxDecrease) then
                  previousETA - maxDecrease
                else if Qlt_bool (previousETA + maxIncrease) clampedETA then
                  previousETA + maxIncrease
                else clampedETA
              else clampedETA
          | None => clampedETA
          end in
        let etaFilter :=
          kalmanFilter1D
            (match state with Some st => etaFilter st | None => None end)
            targetETA 1 15 in
        let etaEMA' :=
          exponentialMovingAverage
            (Some (match state with
                   | Some st => etaEMA st
                   | None => targetETA
                   end))
            (value etaFilter) (5 # 100) in
        let adjustedETA :=
          match state with
          | Some st =>
              if Qlt_bool 0 (etaEMA st) then
                let maxChange := etaEMA st * (5 # 100) in
                if Qlt_bool maxChange (Qabs (etaEMA' - etaEMA st)) then
                  if Qlt_bool etaEMA' (etaEMA st) then etaEMA st - maxChange
                  else etaEMA st + maxChange
                else etaEMA'
              else etaEMA'
          | None => etaEMA'
          end in
        {| eta := Math_max 0 adjustedETA;
           etaFilter := Some etaFilter;
           etaEMA := adjustedETA |}
  end.


(** The states a bus's ETA smoothing can be in: [etaState] is [null] at
    construction and is only ever replaced by the result of [smoothETA]. *)
Inductive reachable : option EtaState -> Prop :=
| reachable_init : reachable None
| reachable_step state rawETA smoothedSpeed distance :
    reachable state ->
    reachable (Some (smoothETA state rawETA smoothedSpeed distance)).



(** The invariant of the reachable states: neither the EMA nor the value
    and the error covariance of the Kalman filter is negative. *)
Definition filterOk (filter : option KalmanState) : Prop :=
  match filter with
  | Some k => 0 <= value k /\ 0 <= errorCovariance k
  | None => True
  end.

Definition etaOk (state : option EtaState) : Prop :=
  match state with
  | Some st => 0 <= etaEMA st /\ filterOk (etaFilter st)
  | None => True
  end.

End Smoothing.

(** ** The polyline decoders *)

(** *** 32-bit integer operators *)

(** [ToInt32]: the value wrapped into [-2^31, 2^31). *)
Definition toInt32 (z : Z) : Z := ((z + 2 ^ 31) mod 2 ^ 32 - 2 ^ 31)%Z.

(** [a & b], [a | b], [a << n], [a >> n], [~a]. *)
Definition bitAnd (a b : Z) : Z := Z.land (toInt32 a) (toInt32 b).
Definition bitOr (a b : Z) : Z := Z.lor (toInt32 a) (toInt32 b).
Definition shiftLeft (a n : Z) : Z :=
  toInt32 (Z.shiftl (toInt32 a) (n mod 32)).
Definition shiftRight (a n : Z) : Z := Z.shiftr (toInt32 a) (n mod 32).
Definition bitNot (a : Z) : Z := Z.lnot (toInt32 a).

(** [encoded.charCodeAt(i)] of a character.  An encoded path is a text
    of 8-bit characters; the codec writes codes from 63 to 126 only. *)
Definition charCode (c : ascii) : Z := Z.of_N (N_of_ascii c).

(** The loop
    [do { b = encoded.charCodeAt(index++) - 63;
          result |= (b & 0x1f) << shift; shift += 5; } while (b >= 0x20)]
    on the text from [index] on; it returns [result] and the text that is
    left.  Past the end of the text [charCodeAt] gives [NaN], so that
    [b & 0x1f] is [0] and [b >= 0x20] is false. *)
Fixpoint readChunks (encoded : string) (shift result : Z) : Z * string :=
  match encoded with
  | EmptyString => (bitOr result (shiftLeft 0 shift), EmptyString)
  | String c rest =>
      let b := (charCode c - 63)%Z in
      let result' := bitOr result (shiftLeft (bitAnd b 31) shift) in
      if (32 <=? b)%Z then readChunks rest (shift + 5) result'
      else (result', rest)
  end.

(** [(result & 1) !== 0 ? ~(result >> 1) : (result >> 1)] *)
Definition deltaOf (result : Z) : Z :=
  if (bitAnd result 1 =? 0)%Z then shiftRight result 1
  else bitNot (shiftRight result 1).

(** The [while (index < len)] loop of [decodePolyline]; [scale] makes the
    point from the two running sums.  Every turn consumes at least one
    character, so a [fuel] of [len] turns never runs out
    (see [decodeLoop_fuel]). *)
Fixpoint decodeLoop (scale : Z -> Q) (fuel : nat) (encoded : string)
    (lat lng : Z) : list Position :=
  match fuel with
  | O => []
  | S fuel' =>
      match encoded with
      | EmptyString => []
      | String _ _ =>
          let '(result, rest) := readChunks encoded 0 0 in
          let lat := (lat + deltaOf result)%Z in
          let '(result, rest) := readChunks rest 0 0 in
          let lng := (lng + deltaOf result)%Z in
          {| lat := scale lat; lng := scale lng |}
            :: decodeLoop scale fuel' rest lat lng
      end
  end.

(** [decodePolyline(encoded)] of [src/index.js]. *)
Definition decodePolyline (encoded : string) : list Position :=
  if String.eqb encoded "" then []
  else
    decodeLoop (fun n => inject_Z n / 100000) (String.length encoded)
               encoded 0 0.

Module GoogleMaps.

(** The number the literal [1e-5] denotes.  [1e5] is a double, [1e-5] is
    not: the literal stands for the nearest double,
    [5902958103587057 / 2^69], which is a little more than [1 / 100000].
    So [n * 1e-5] and [n / 1e5] are not the same number. *)
Definition E_minus_5 : Q := 5902958103587057 # 590295810358705651712.

(** [decodePolyline(encoded)] of [src/utils/googleMaps.js]: the same
    loop, with [lat * 1e-5] and [lng * 1e-5] for the point. *)
Definition decodePolyline (encoded : string) : list Position :=
  decodeLoop (fun n => inject_Z n * E_minus_5) (String.length encoded)
             encoded 0 0.

End GoogleMaps.

(** *** The encoder *)

(** Modelled from the spec: the polyline encoder, which the repository
    does not contain.  The specification describes the codec as "a classic
    variable-length signed-delta run-length coordinate codec, scale factor
    [1e-5]" and the encoder as "the algorithmic inverse" of the decoder:
    each coordinate is scaled by [1e5] and rounded, the difference to the
    previous point is made non-negative by the sign fold, and the result
    is written in 5-bit groups, least significant first, each plus [63],
    with [0x20] set on every group but the last. *)
Module Encoder.

(** Modelled from the spec: the 5-bit groups of [v >= 0], least
    significant first; [fuel] bounds their number. *)
Fixpoint encodeChunks (fuel : nat) (v : Z) : string :=
  match fuel with
  | O => EmptyString
  | S fuel' =>
      if (32 <=? v)%Z then
        String (ascii_of_N (Z.to_N (Z.lor 32 (Z.land v 31) + 63)))
               (encodeChunks fuel' (Z.shiftr v 5))
      else String (ascii_of_N (Z.to_N (v + 63))) EmptyString
  end.

(** Modelled from the spec: the sign fold, [d << 1], complemented when
    [d] is negative. *)
Definition fold (d : Z) : Z :=
  if (d <? 0)%Z then Z.lnot (Z.shiftl d 1) else Z.shiftl d 1.

(** Modelled from the spec: one signed difference, written in full (a
    value of [n] bits has at most [n] groups). *)
Definition encodeValue (d : Z) : string :=
  let v := fold d in
  encodeChunks (S (Z.to_nat (Z.log2 v))) v.

(** Modelled from the spec: a coordinate at the scale factor [1e-5],
    rounded to the nearest integer. *)
Definition scaled (x : Q) : Z := Math_round (x * 100000).

(** Modelled from the spec: the points one after the other, each as the
    differences of its scaled latitude and longitude to the previous
    point's. *)
Fixpoint encodeFrom (prevLat prevLng : Z) (path : list Position) : string :=
  match path with
  | [] => EmptyString
  | p :: rest =>
      let ilat := scaled (lat p) in
      let ilng := scaled (lng p) in
      (encodeValue (ilat - prevLat)
       ++ encodeValue (ilng - prevLng)
       ++ encodeFrom ilat ilng rest)%string
  end.

(** Modelled from the spec: [encode(path)]; the first point is relative
    to [(0, 0)], as in the decoders. *)
Definition encodePolyline (path : list Position) : string :=
  encodeFrom 0 0 path.

End Encoder.

(** Two points agree within [1e-5] degrees on each axis. *)
Definition closeTo (p q : Position) : Prop :=
  Qabs (lat p - lat q) <= 1 # 100000 /\ Qabs (lng p - lng q) <= 1 # 100000.

(** Scaled coordinates that fit the 32-bit decoder with room to spare. *)
Definition small (n : Z) : Prop := (- 2 ^ 29 <= n < 2 ^ 29)%Z.

(** A geographic coordinate pair. *)
Definition geographic (p : Position) : Prop :=
  -90 <= lat p <= 90 /\ -180 <= lng p <= 180.

(** ** A concrete environment and concrete fixes *)

Module Sample.

(** A rational stand-in for the haversine distance: the length of the
    arc along the meridian plus the length of the arc along the
    equator, on a sphere of circumference 40 030 km.  It is [0] for
    coinciding points, as the haversine distance is, and on the fixes
    below it lies on the same side of [ARRIVAL_DISTANCE_M]. *)
Definition distanceMeters (a b : Position) : Q :=
  111195 * (Qabs (lat b - lat a) + Qabs (lng b - lng a)).

Definition StringToNumber (_ : string) : JsNum := NaN.

(** The epoch milliseconds of the time stamps used below. *)
Definition DateGetTime (text : string) : option Z :=
  if String.eqb text "2023-11-14T22:13:20.000Z" then Some 1700000000000%Z
  else if String.eqb text "2023-11-14T22:02:20.000Z" then
    Some 1699999340000%Z
  else None.

Definition computeBusETA :=
  computeBusETA distanceMeters StringToNumber DateGetTime.
Definition runCycle := runCycle distanceMeters StringToNumber DateGetTime.

Definition usableFix := usableFix StringToNumber.
Definition staleFix := staleFix DateGetTime.
Definition atDestination := atDestination distanceMeters.
Definition tracking := tracking distanceMeters StringToNumber DateGetTime.

Definition num (q : Q) : JsValue := JsNumber (Fin q).

(** A bus in the centre of Kigali, about 4 km from the destination. *)
Definition kigali : Position :=
  {| lat := - (19441 # 10000); lng := 300619 # 10000 |}.

Definition bus (pos : Position) (speed : Q) (last_update : string)
    : Device.t :=
  {| Device.device_id := Some "BUS_DUMMY_001"%string;
     Device.id := None;
     Device.plate_number := Some "RAA-DUMMY"%string;
     Device.last_lat := num (lat pos);
     Device.last_lon := num (lng pos);
     Device.last_speed := num speed;
     Device.last_update := last_update |}.

Definition movingBus : Device.t := bus kigali 40 "2023-11-14T22:13:20.000Z".
Definition stoppedBus : Device.t := bus kigali 0 "2023-11-14T22:13:20.000Z".
Definition arrivedBus : Device.t :=
  bus DESTINATION 0 "2023-11-14T22:13:20.000Z".
Definition silentBus : Device.t :=
  bus kigali 40 "2023-11-14T22:02:20.000Z".
(** A bus on the equator. *)
Definition equatorBus : Device.t :=
  bus {| lat := 0; lng := 300619 # 10000 |} 40 "2023-11-14T22:13:20.000Z".

Definition busKey : BusId := Some "BUS_DUMMY_001"%string.

(** The moment of the fixes, and a provider that answers 120 s. *)
Definition t0 : Z := 1700000000000.
Definition answer120 : GoogleResult :=
  {| durationSeconds := 120; routePoints := [kigali; DESTINATION] |}.
Definition google120 (_ _ : Position) : option GoogleResult :=
  Some answer120.

(** A provider whose answer carries a duration of -5 s. *)
Definition answerNegative : GoogleResult :=
  {| durationSeconds := -5 # 1; routePoints := [kigali; DESTINATION] |}.
Definition googleNegative (_ _ : Position) : option GoogleResult :=
  Some answerNegative.

(** A bus that has been silent for eleven minutes and whose record has no
    latitude. *)
Definition lostBus : Device.t :=
  {| Device.device_id := Some "BUS_DUMMY_001"%string;
     Device.id := None;
     Device.plate_number := Some "RAA-DUMMY"%string;
     Device.last_lat := JsUndefined;
     Device.last_lon := num (lng kigali);
     Device.last_speed := num 40;
     Device.last_update := "2023-11-14T22:02:20.000Z" |}.

(** A bus that reports a speed of -5 km/h. *)
Definition reversingBus : Device.t :=
  bus kigali (-5 # 1) "2023-11-14T22:13:20.000Z".

(** A cache entry fetched at [t0] with an ETA of 120 s. *)
Definition entry120 : Cache.t :=
  {| Cache.etaSeconds := Some 120;
     Cache.route := Some [kigali; DESTINATION];
     Cache.lastEtaUpdate := Some t0;
     Cache.previousEta := None |}.

End Sample.

(** ** The answers of the routing provider *)

(** The outcome of [await axios.get(...)]: the request throws (network
    error, time-out, error status) or resolves with [response.data]. *)
Inductive Http (A : Type) : Type :=
| Failed
| Answered (data : A).
Arguments Failed {A}.
Arguments Answered {A} data.

(** The body of a Directions API response, with the properties the code
    reads; [duration_in_traffic] and [duration] hold the [value] of the
    object, [None] when the object is missing; [overview_polyline] is
    [None] when the object is missing and [Some None] when it has no
    [points]; a missing array is the empty list. *)
Module Directions.
Record Leg : Type := {
  duration_in_traffic : option Q;
  duration : option Q
}.
Record Route : Type := {
  legs : list Leg;
  overview_polyline : option (option string)
}.
Record t : Type := {
  status : string;
  routes : list Route
}.
End Directions.

(** [getGoogleRouteData(start, end)] of [src/index.js], from the outcome
    of its request on.  Reading a property of [undefined] throws inside
    the [try], and the [catch] returns [null]. *)
Definition getGoogleRouteData (response : Http Directions.t)
    : option GoogleResult :=
  match response with
  | Failed => None
  | Answered data =>
      if String.eqb (Directions.status data) "OK"
         && (0 <? length (Directions.routes data))%nat
      then
        match Directions.routes data with
        | route :: _ =>
            match Directions.overview_polyline route with
            | None => None
            | Some overviewPolyline =>
                match Directions.legs route with
                | leg :: _ =>
                    let durationValue :=
                      match Directions.duration_in_traffic leg with
                      | Some value => Some value
                      | None => Directions.duration leg
                      end in
                    match durationValue with
                    | Some value =>
                        Some {| durationSeconds := value;
                                routePoints :=
                                  match overviewPolyline with
                                  | Some points => decodePolyline points
                                  | None => []
                                  end |}
                    | None => None
                    end
                | [] => None
                end
            end
        | [] => None
        end
      else None
  end.

(** Polls run one after the other: each cycle of [steps] (a clock reading
    and a device record) runs to its end on the cache the previous one
    left.  The result lists the payloads. *)
Fixpoint runCycles (distanceMeters : Position -> Position -> Q)
    (StringToNumber : string -> JsNum) (DateGetTime : string -> option Z)
    (google : Position -> Position -> option GoogleResult)
    (steps : list (Z * Device.t)) (etaCache : gmap BusId Cache.t)
    : list (option Payload) * gmap BusId Cache.t :=
  match steps with
  | [] => ([], etaCache)
  | (now, device) :: rest =>
      let '(result, etaCache1) :=
        runCycle distanceMeters StringToNumber DateGetTime google now device
                 etaCache in
      let '(results, etaCache2) :=
        runCycles distanceMeters StringToNumber DateGetTime google rest
                  etaCache1 in
      (result :: results, etaCache2)
  end.

(** ** [src/utils/googleMaps.js] *)

Module GoogleMapsApi.

(** [getGoogleMapsApiKey()], from the two environment variables. *)
Definition getGoogleMapsApiKey (GOOGLE_MAPS_API_KEY
    EXPO_PUBLIC_GOOGLE_MAPS_API_KEY : option string) : option string :=
  orElse GOOGLE_MAPS_API_KEY (orElse EXPO_PUBLIC_GOOGLE_MAPS_API_KEY None).

(** The body of a Distance Matrix response and its elements, with the
    properties the code reads; a missing array is the empty list, a
    missing object [None]. *)
Module Element.
Record t : Type := {
  status : string;
  duration_in_traffic : option Q;
  duration : option Q;
  distance : option Q
}.
End Element.

Module Matrix.
Record Row : Type := { elements : list Element.t }.
Record t : Type := {
  status : string;
  rows : list Row
}.
End Matrix.

(** The object [{ duration, distance }] that [getETAFromGoogle]
    returns. *)
Record EtaAnswer : Type := {
  duration : option Q;
  distance : option Q
}.

(** [x?.value || y] on numbers: a missing object and the value [0] are
    falsy. *)
Definition truthy (x : option Q) : option Q :=
  match x with
  | Some v => if isZero v then None else Some v
  | None => None
  end.

Definition orNumber (x y : option Q) : option Q :=
  match truthy x with
  | Some v => Some v
  | None => y
  end.

(** [getETAFromGoogle(originLat, originLon, destLat, destLon)], from the
    API key and the outcome of its request on (the request is made only
    when there is a key). *)
Definition getETAFromGoogle (apiKey : option string)
    (response : Http Matrix.t) : EtaAnswer :=
  let nothing := {| duration := None; distance := None |} in
  match orElse apiKey None with
  | None => nothing
  | Some _ =>
      match response with
      | Failed => nothing
      | Answered data =>
          if String.eqb (Matrix.status data) "OK" then
            match Matrix.rows data with
            | row :: _ =>
                match Matrix.elements row with
                | element :: _ =>
                    if String.eqb (Element.status element) "OK" then
                      {| duration :=
                           orNumber (Element.duration_in_traffic element)
                             (orNumber (Element.duration element) None);
                         distance :=
                           orNumber (Element.distance element) None |}
                    else nothing
                | [] => nothing
                end
            | [] => nothing
            end
          else nothing
      end
  end.


End GoogleMapsApi.

(** ** [moveTowards] of [src/utils/dummyGPS.js] *)

(** [moveTowards(from, to, meters)], with the distance function as a
    parameter. *)
Definition moveTowards (distanceMeters : Position -> Position -> Q)
    (from to : Position) (meters : Q) : Position :=
  let dist := distanceMeters from to in
  if isZero dist || Qle_bool dist meters then to
  else
    let r := meters / dist in
    {| lat := lat from + (lat to - lat from) * r;
       lng := lng from + (lng to - lng from) * r |}.

(** ** Speed and position smoothing, and the state of one bus
       ([src/utils/smoothing.js]) *)

Module BusSmoothing.

(** A numeric property of a device record: [null] or [undefined], or a
    number. *)
Inductive Field : Type :=
| Missing
| Num (n : JsNum).

(** The state of the position filter. *)
Module PositionFilter.
Record t : Type := { lat : Q; lng : Q; latError : Q; lngError : Q }.
End PositionFilter.

(** [kalmanFilter2D(state, measurement, processNoise, measurementNoise)]. *)
Definition kalmanFilter2D (state : option PositionFilter.t)
    (measurement : Position) (processNoise measurementNoise : Q)
    : PositionFilter.t :=
  let initial :=
    {| PositionFilter.lat := lat measurement;
       PositionFilter.lng := lng measurement;
       PositionFilter.latError := 1 # 10000;
       PositionFilter.lngError := 1 # 10000 |} in
  match state with
  | None => initial
  | Some st =>
      if isZero (PositionFilter.lat st) || isZero (PositionFilter.lng st)
      then initial
      else
        let latFilter :=
          Smoothing.kalmanFilter1D
            (Some {| Smoothing.value := PositionFilter.lat st;
                     Smoothing.errorCovariance :=
                       PositionFilter.latError st |})
            (lat measurement) processNoise measurementNoise in
        let lngFilter :=
          Smoothing.kalmanFilter1D
            (Some {| Smoothing.value := PositionFilter.lng st;
                     Smoothing.errorCovariance :=
                       PositionFilter.lngError st |})
            (lng measurement) processNoise measurementNoise in
        {| PositionFilter.lat := Smoothing.value latFilter;
           PositionFilter.lng := Smoothing.value lngFilter;
           PositionFilter.latError := Smoothing.errorCovariance latFilter;
           PositionFilter.lngError := Smoothing.errorCovariance lngFilter |}
  end.

(** The speed part of a bus's smoothing state. *)
Module SpeedState.
Record t : Type := {
  speed : Q;
  speedFilter : option Smoothing.KalmanState;
  speedEMA : Q
}.
End SpeedState.

(** [smoothSpeed(state, newSpeed)]. *)
Definition smoothSpeed (state : option SpeedState.t) (newSpeed : Field)
    : SpeedState.t :=
  let keep :=
    match state with
    | Some st => st
    | None => {| SpeedState.speed := 0; SpeedState.speedFilter := None;
                 SpeedState.speedEMA := 0 |}
    end in
  match newSpeed with
  | Missing | Num NaN => keep
  | Num (Fin newSpeed) =>
      let clampedSpeed := Math_max 0 (Math_min 120 newSpeed) in
      let speedFilter :=
        Smoothing.kalmanFilter1D
          (match state with
           | Some st => SpeedState.speedFilter st
           | None => None
           end)
          clampedSpeed (5 # 10) 2 in
      let speedEMA :=
        Smoothing.exponentialMovingAverage
          (Some (match state with
                 | Some st => SpeedState.speedEMA st
                 | None => clampedSpeed
                 end))
          (Smoothing.value speedFilter) (3 # 10) in
      {| SpeedState.speed := Math_max 0 speedEMA;
         SpeedState.speedFilter := Some speedFilter;
         SpeedState.speedEMA := speedEMA |}
  end.

(** A raw position [{ lat, lng }] as [update] builds it from the device
    record. *)
Module RawPosition.
Record t : Type := { lat : Field; lng : Field }.
End RawPosition.

(** The position part of a bus's smoothing state. *)
Module PositionState.
Record t : Type := {
  position : Position;
  positionFilter : PositionFilter.t
}.
End PositionState.

(** [!x] of a field. *)
Definition falsy (x : Field) : bool :=
  match x with
  | Missing | Num NaN => true
  | Num (Fin q) => isZero q
  end.

(** [smoothPosition(state, newPosition)]; the result is [None] when the
    function returns a [null] state. *)
Definition smoothPosition (state : option PositionState.t)
    (newPosition : option RawPosition.t) : option PositionState.t :=
  match newPosition with
  | Some {| RawPosition.lat := Num (Fin latq);
            RawPosition.lng := Num (Fin lngq) |} =>
      if isZero latq || isZero lngq then state
      else
        let positionFilter :=
          kalmanFilter2D
            (match state with
             | Some st => Some (PositionState.positionFilter st)
             | None => None
             end)
            {| lat := latq; lng := lngq |} (1 # 100000) (1 # 10000) in
        Some {| PositionState.position :=
                  {| lat := PositionFilter.lat positionFilter;
                     lng := PositionFilter.lng positionFilter |};
                PositionState.positionFilter := positionFilter |}
  | _ => state
  end.

(** The properties of a device record that [update] reads. *)
Module Reading.
Record t : Type := {
  last_lat : Field;
  last_lon : Field;
  last_speed : Field;
  etaSeconds : Field
}.
End Reading.

(** One entry of [history]. *)
Module HistoryEntry.
Record t : Type := { position : Position; timestamp : Z; speed : Q }.
End HistoryEntry.

(** The object [update] returns. *)
Module Smoothed.
Record t : Type := {
  position : Position;
  speed : Q;
  eta : Q;
  rawETA : option Q;
  distance : Q
}.
End Smoothed.

(** The fields of a [BusSmoothingState]. *)
Record BusSmoothingState : Type := {
  busId : string;
  speedState : option SpeedState.t;
  etaState : option Smoothing.EtaState;
  positionState : option PositionState.t;
  lastUpdate : option Z;
  history : list HistoryEntry.t
}.

(** [new BusSmoothingState(busId)]. *)
Definition create (busId : string) : BusSmoothingState :=
  {| busId := busId; speedState := None; etaState := None;
     positionState := None; lastUpdate := None; history := [] |}.

(** How a call of [update] ends: it returns, or it throws a [TypeError];
    either way the object is left in the given state. *)
Inductive Outcome : Type :=
| Returned (this : BusSmoothingState) (result : Smoothed.t)
| Threw (this : BusSmoothingState).

(** The raw ETA of [update]: the device's own [etaSeconds] when it is a
    number, otherwise the distance over the smoothed speed. *)
Definition rawETAOf (device : Reading.t) (speed distance : Q) : option Q :=
  match Reading.etaSeconds device with
  | Num (Fin etaSeconds) => Some etaSeconds
  | _ =>
      let speedMs := speed / (36 # 10) in
      if Qlt_bool 0 speedMs && Qlt_bool 0 distance
      then Some (distance / speedMs)
      else None
  end.

(** [this.update(device, destination, haversineDistance)]; [now] is the
    reading of [Date.now()] and [updatedAt] that of [new Date()].
    [this.positionState.position] throws as long as no position has been
    accepted. *)
Definition update (this : BusSmoothingState) (device : Reading.t)
    (destination : option Position)
    (haversineDistance : Q -> Q -> Q -> Q -> Q) (now updatedAt : Z)
    : Outcome :=
  let newPosition :=
    {| RawPosition.lat := Reading.last_lat device;
       RawPosition.lng := Reading.last_lon device |} in
  let positionState :=
    smoothPosition (positionState this) (Some newPosition) in
  let speedState :=
    smoothSpeed (speedState this) (Reading.last_speed device) in
  let speed := SpeedState.speed speedState in
  let hasDestination :=
    match destination with
    | Some d => negb (isZero (lat d)) && negb (isZero (lng d))
    | None => false
    end in
  match positionState, hasDestination with
  | None, true =>
      Threw {| busId := busId this;
               speedState := Some speedState;
               etaState := etaState this;
               positionState := None;
               lastUpdate := lastUpdate this;
               history := history this |}
  | None, false =>
      let rawETA := rawETAOf device speed 0 in
      Threw {| busId := busId this;
               speedState := Some speedState;
               etaState :=
                 Some (Smoothing.smoothETA (etaState this) rawETA speed 0);
               positionState := None;
               lastUpdate := lastUpdate this;
               history := history this |}
  | Some ps, _ =>
      let position := PositionState.position ps in
      let distance :=
        match destination with
        | Some d =>
            if hasDestination then
              haversineDistance (lat position) (lng position) (lat d) (lng d)
            else 0
        | None => 0
        end in
      let rawETA := rawETAOf device speed distance in
      let etaState :=
        Smoothing.smoothETA (etaState this) rawETA speed distance in
      let pushed :=
        history this
        ++ [ {| HistoryEntry.position := position;
                HistoryEntry.timestamp := now;
                HistoryEntry.speed := speed |} ] in
      let history' :=
        if (5 <? length pushed)%nat then tail pushed else pushed in
      Returned {| busId := busId this;
                  speedState := Some speedState;
                  etaState := Some etaState;
                  positionState := Some ps;
                  lastUpdate := Some updatedAt;
                  history := history' |}
               {| Smoothed.position := position;
                  Smoothed.speed := speed;
                  Smoothed.eta := Smoothing.eta etaState;
                  Smoothed.rawETA := rawETA;
                  Smoothed.distance := distance |}
  end.

(** The state an [Outcome] leaves. *)
Definition stateOf (o : Outcome) : BusSmoothingState :=
  match o with
  | Returned this _ => this
  | Threw this => this
  end.

(** The states of a bus's smoothing object: it is created empty and only
    changed by [update]. *)
Inductive reachable : BusSmoothingState -> Prop :=
| reachable_create busId : reachable (create busId)
| reachable_update this device destination haversineDistance now updatedAt :
    reachable this ->
    reachable
      (stateOf (update this device destination haversineDistance now
                  updatedAt)).

(** The speed states that [smoothSpeed] can reach from [null]. *)
Inductive speedReachable : option SpeedState.t -> Prop :=
| speedReachable_init : speedReachable None
| speedReachable_step state newSpeed :
    speedReachable state ->
    speedReachable (Some (smoothSpeed state newSpeed)).

(** The position states that [smoothPosition] can reach from [null]. *)
Inductive positionReachable : option PositionState.t -> Prop :=
| positionReachable_init : positionReachable None
| positionReachable_step state newPosition :
    positionReachable state ->
    positionReachable (smoothPosition state newPosition).

End BusSmoothing.

(** ** Vocabulary for the statements about smoothing *)

Module Bounds.

(** [z] lies between [x] and [y], whichever is the larger. *)
Definition between (x y z : Q) : Prop :=
  (x <= y -> x <= z <= y) /\ (y <= x -> y <= z <= x).

(** A Kalman state whose value lies in [[0, hi]] and whose error
    covariance is not negative. *)
Definition filterWithin (hi : Q) (filter : option Smoothing.KalmanState)
    : Prop :=
  match filter with
  | Some k =>
      0 <= Smoothing.value k <= hi /\ 0 <= Smoothing.errorCovariance k
  | None => True
  end.

Definition speedWithin (state : option BusSmoothing.SpeedState.t) : Prop :=
  match state with
  | Some st =>
      0 <= BusSmoothing.SpeedState.speed st <= 120
      /\ 0 <= BusSmoothing.SpeedState.speedEMA st <= 120
      /\ filterWithin 120 (BusSmoothing.SpeedState.speedFilter st)
  | None => True
  end.

Definition etaWithin (state : option Smoothing.EtaState) : Prop :=
  match state with
  | Some st =>
      0 <= Smoothing.eta st <= 3600
      /\ 0 <= Smoothing.etaEMA st <= 3600
      /\ filterWithin 3600 (Smoothing.etaFilter st)
  | None => True
  end.

Definition busWithin (this : BusSmoothing.BusSmoothingState) : Prop :=
  (length (BusSmoothing.history this) <= 5)%nat
  /\ speedWithin (BusSmoothing.speedState this)
  /\ etaWithin (BusSmoothing.etaState this).

(** A position state whose position is the one its filter holds, with
    error covariances that are not negative. *)
Definition positionWithin (state : option BusSmoothing.PositionState.t)
    : Prop :=
  match state with
  | Some st =>
      let f := BusSmoothing.PositionState.positionFilter st in
      BusSmoothing.PositionState.position st
      = {| lat := BusSmoothing.PositionFilter.lat f;
           lng := BusSmoothing.PositionFilter.lng f |}
      /\ 0 <= BusSmoothing.PositionFilter.latError f
      /\ 0 <= BusSmoothing.PositionFilter.lngError f
  | None => True
  end.

(** A raw ETA that [smoothETA] accepts: a number that is not negative. *)
Definition validETA (rawETA : option Q) : bool :=
  match rawETA with
  | Some r => negb (Qlt_bool r 0)
  | None => false
  end.

(** The state after one call of [smoothETA] per raw ETA. *)
Definition smoothEach (smoothedSpeed distance : Q)
    (state : option Smoothing.EtaState) (raws : list (option Q))
    : option Smoothing.EtaState :=
  fold_left
    (fun st rawETA =>
       Some (Smoothing.smoothETA st rawETA smoothedSpeed distance))
    raws state.

End Bounds.

(** ** A concrete bus for the smoothing object *)

Module BusSample.

(** The stand-in distance of [Sample], with the four arguments [update]
    passes. *)
Definition haversineDistance (lat1 lon1 lat2 lon2 : Q) : Q :=
  Sample.distanceMeters {| lat := lat1; lng := lon1 |}
    {| lat := lat2; lng := lon2 |}.

(** A reading at [Sample.kigali], 40 km/h, without an ETA of its own. *)
Definition reading : BusSmoothing.Reading.t :=
  {| BusSmoothing.Reading.last_lat :=
       BusSmoothing.Num (Fin (lat Sample.kigali));
     BusSmoothing.Reading.last_lon :=
       BusSmoothing.Num (Fin (lng Sample.kigali));
     BusSmoothing.Reading.last_speed := BusSmoothing.Num (Fin 40);
     BusSmoothing.Reading.etaSeconds := BusSmoothing.Missing |}.

Definition destination : Position := {| lat := -2; lng := 30 |}.

(** The object after one reading. *)
Definition afterOne : BusSmoothing.BusSmoothingState :=
  BusSmoothing.stateOf
    (BusSmoothing.update (BusSmoothing.create "BUS_1") reading
       (Some destination) haversineDistance Sample.t0 Sample.t0).

End BusSample.

(** * Properties *)

(** ** Rational arithmetic helpers *)

Lemma Qlt_bool_iff (a b : Q) : Qlt_bool a b = true <-> a < b.
Proof.
  unfold Qlt_bool. rewrite negb_true_iff.
  destruct (Qle_bool b a) eqn:E.
  - apply Qle_bool_iff in E. split; [discriminate | lra].
  - split; [intros _ | reflexivity].
    apply Qnot_le_lt. intros H. apply Qle_bool_iff in H. congruence.
Qed.

Lemma Qlt_bool_false (a b : Q) : Qlt_bool a b = false <-> b <= a.
Proof.
  unfold Qlt_bool. rewrite negb_false_iff. apply Qle_bool_iff.
Qed.

Lemma Qle_bool_false (a b : Q) : Qle_bool a b = false <-> b < a.
Proof.
  rewrite <- (Qlt_bool_iff b a). unfold Qlt_bool.
  destruct (Qle_bool a b); simpl; intuition congruence.
Qed.

Lemma isZero_true (q : Q) : isZero q = true <-> q == 0.
Proof. apply Qeq_bool_iff. Qed.

Lemma isZero_false (q : Q) : isZero q = false <-> ~ q == 0.
Proof.
  rewrite <- isZero_true. destruct (isZero q); intuition congruence.
Qed.

Lemma Math_max_ge_l (a b : Q) : a <= Math_max a b.
Proof.
  unfold Math_max. destruct (Qle_bool a b) eqn:E; [| lra].
  now apply Qle_bool_iff.
Qed.

Lemma Math_max_r (a b : Q) : a <= b -> Math_max a b = b.
Proof.
  intros H. unfold Math_max. apply Qle_bool_iff in H. now rewrite H.
Qed.

(** ** The tracking cycle *)

Section TrackingCycleFacts.

Variable distanceMeters : Position -> Position -> Q.
Variable StringToNumber : string -> JsNum.
Variable DateGetTime : string -> option Z.

Local Abbreviation computeBusETA :=
  (computeBusETA distanceMeters StringToNumber DateGetTime).
Local Abbreviation runCycle :=
  (runCycle distanceMeters StringToNumber DateGetTime).
Local Abbreviation Number := (Number StringToNumber).
Local Abbreviation usableFix := (usableFix StringToNumber).
Local Abbreviation staleFix := (staleFix DateGetTime).
Local Abbreviation atDestination := (atDestination distanceMeters).
Local Abbreviation tracking :=
  (tracking distanceMeters StringToNumber DateGetTime).
Local Abbreviation reachableCache :=
  (reachableCache distanceMeters StringToNumber DateGetTime).

Lemma isStale_true now device :
  isStale now (DateGetTime (Device.last_update device)) = true
  <-> staleFix now device.
Proof.
  unfold isStale, staleFix. split.
  - destruct (DateGetTime _) as [t|]; [| discriminate].
    intros H. exists t. split; [reflexivity | lia].
  - intros (t & -> & H). lia.
Qed.

Lemma isStale_false now device :
  isStale now (DateGetTime (Device.last_update device)) = false
  <-> ~ staleFix now device.
Proof.
  rewrite <- isStale_true. destruct (isStale _ _); intuition congruence.
Qed.

Lemma shouldRefresh_true now cache :
  shouldRefresh now cache = true <-> refreshDue now cache.
Proof.
  unfold shouldRefresh, refreshDue.
  destruct (Cache.lastEtaUpdate cache) as [t|]; [| tauto].
  rewrite orb_true_iff. lia.
Qed.

Lemma shouldRefresh_false now cache :
  shouldRefresh now cache = false <-> ~ refreshDue now cache.
Proof.
  rewrite <- shouldRefresh_true.
  destruct (shouldRefresh _ _); intuition congruence.
Qed.

Lemma invalidCoordinates_false a b :
  invalidCoordinates a b = false
  <-> exists p q, a = Fin p /\ b = Fin q /\ ~ p == 0 /\ ~ q == 0.
Proof.
  unfold invalidCoordinates. split.
  - destruct a as [|p], b as [|q]; simpl; try discriminate;
      rewrite ?orb_true_r; try discriminate.
    rewrite !orb_false_r, orb_false_iff, !isZero_false.
    intros []. exists p, q. auto.
  - intros (p & q & -> & -> & Hp & Hq). simpl.
    apply isZero_false in Hp, Hq. now rewrite Hp, Hq.
Qed.

(** A cycle on a fix without usable coordinates. *)
Lemma computeBusETA_invalid now device etaCache :
  invalidCoordinates (Number (Device.last_lat device))
                     (Number (Device.last_lon device)) = true ->
  computeBusETA now device etaCache = Return None etaCache.
Proof.
  intros H. unfold computeBusETA. now rewrite H.
Qed.

(** A cycle on a stale fix. *)
Lemma computeBusETA_offline now device pos etaCache :
  usableFix device pos -> staleFix now device ->
  computeBusETA now device etaCache
  = Return (Some {| busId := busIdOf device;
                    plateNumber := plateOf device;
                    position := pos;
                    eta := None;
                    etaSeconds := 0;
                    status := offline;
                    message := "Device offline";
                    speed := Device.last_speed device;
                    lastUpdate := Device.last_update device;
                    route := [] |}) etaCache.
Proof.
  intros (Hlat & Hlng & Hp & Hq) Hstale.
  apply isStale_true in Hstale. apply isZero_false in Hp, Hq.
  destruct pos as [p q]; simpl in *.
  unfold computeBusETA, invalidCoordinates.
  rewrite Hlat, Hlng. simpl. rewrite Hp, Hq. simpl.
  now rewrite Hstale.
Qed.

(** A cycle on a fresh fix at the destination. *)
Lemma computeBusETA_arrival now device pos etaCache :
  usableFix device pos -> ~ staleFix now device -> atDestination pos ->
  computeBusETA now device etaCache
  = Return (Some {| busId := busIdOf device;
                    plateNumber := plateOf device;
                    position := pos;
                    eta := Some 0%Z;
                    etaSeconds := 0;
                    speed := Device.last_speed device;
                    status := arrived;
                    message := "Arrived at destination";
                    route := [];
                    lastUpdate := Device.last_update device |})
           (<[busIdOf device :=
                {| Cache.etaSeconds := Some 0;
                   Cache.lastEtaUpdate := Some now;
                   Cache.route := Some [];
                   Cache.previousEta :=
                     Cache.previousEta (entryOf etaCache device) |}]>
              etaCache).
Proof.
  intros (Hlat & Hlng & Hp & Hq) Hfresh Hat.
  apply isStale_false in Hfresh. apply isZero_false in Hp, Hq.
  apply Qle_bool_iff in Hat.
  destruct pos as [p q]; simpl in *.
  unfold computeBusETA, invalidCoordinates.
  rewrite Hlat, Hlng. simpl. rewrite Hp, Hq. simpl.
  now rewrite Hfresh, Hat.
Qed.

(** A tracking cycle for which a refresh is due. *)
Lemma computeBusETA_refresh now device pos etaCache :
  tracking now device pos ->
  refreshDue now (entryOf etaCache device) ->
  let cache := entryOf etaCache device in
  exists resume,
    computeBusETA now device etaCache = Await pos DESTINATION resume
    /\ (forall g etaCacheNow,
          resume (Some g) etaCacheNow
          = (Some (finalPayload device (busIdOf device) (plateOf device)
                     pos cache (durationSeconds g) (routePoints g)),
             <[busIdOf device :=
                 {| Cache.etaSeconds := Some (durationSeconds g);
                    Cache.route := Some (routePoints g);
                    Cache.lastEtaUpdate := Some now;
                    Cache.previousEta := Cache.etaSeconds cache |}]>
               etaCacheNow))
    /\ (forall etaCacheNow,
          resume None etaCacheNow
          = (Some (finalPayload device (busIdOf device) (plateOf device)
                     pos cache (cachedEta cache) (cachedRoute cache)),
             etaCacheNow)).
Proof.
  intros ((Hlat & Hlng & Hp & Hq) & Hfresh & Hfar) Hdue cache.
  apply isStale_false in Hfresh. apply isZero_false in Hp, Hq.
  apply shouldRefresh_true in Hdue.
  assert (Hd : Qle_bool (distanceMeters pos DESTINATION)
                        ARRIVAL_DISTANCE_M = false).
  { destruct (Qle_bool _ _) eqn:E; [| reflexivity].
    apply Qle_bool_iff in E. contradiction. }
  destruct pos as [p q]; simpl in *.
  unfold computeBusETA, invalidCoordinates.
  rewrite Hlat, Hlng. simpl. rewrite Hp, Hq. simpl.
  rewrite Hfresh, Hd. fold (entryOf etaCache device).
  rewrite Hdue. eexists. split; [reflexivity |].
  split; reflexivity.
Qed.

(** A tracking cycle for which no refresh is due. *)
Lemma computeBusETA_countdown now device pos etaCache :
  tracking now device pos ->
  ~ refreshDue now (entryOf etaCache device) ->
  let cache := entryOf etaCache device in
  computeBusETA now device etaCache
  = Return (Some (finalPayload device (busIdOf device) (plateOf device)
                    pos cache
                    (applyCountdown (Cache.etaSeconds cache)
                                    (Cache.lastEtaUpdate cache) now)
                    (cachedRoute cache)))
           etaCache.
Proof.
  intros ((Hlat & Hlng & Hp & Hq) & Hfresh & Hfar) Hdue cache.
  apply isStale_false in Hfresh. apply isZero_false in Hp, Hq.
  apply shouldRefresh_false in Hdue.
  assert (Hd : Qle_bool (distanceMeters pos DESTINATION)
                        ARRIVAL_DISTANCE_M = false).
  { destruct (Qle_bool _ _) eqn:E; [| reflexivity].
    apply Qle_bool_iff in E. contradiction. }
  destruct pos as [p q]; simpl in *.
  unfold computeBusETA, invalidCoordinates.
  rewrite Hlat, Hlng. simpl. rewrite Hp, Hq. simpl.
  rewrite Hfresh, Hd. fold (entryOf etaCache device).
  now rewrite Hdue.
Qed.

Lemma finalPayload_fields device b plate pos cache e r :
  let p := finalPayload device b plate pos cache e r in
  etaSeconds p = e /\ route p = r
  /\ eta p = Some (Math_round (e / 60))
  /\ speed p = Device.last_speed device
  /\ (status p = normal \/ status p = traffic \/ status p = faster).
Proof.
  unfold finalPayload, statusOf.
  destruct (match Cache.previousEta cache with Some _ => _ | None => _ end);
    [simpl; tauto |].
  destruct (match Cache.previousEta cache with Some _ => _ | None => _ end);
    simpl; tauto.
Qed.

(** Rewrite the fields of a [finalPayload] in the goal. *)
Ltac payload_fields :=
  match goal with
  | |- context [etaSeconds (finalPayload ?d ?b ?pl ?ps ?c ?x ?r)] =>
      let H1 := fresh in
      let H2 := fresh in
      let H3 := fresh in
      let H4 := fresh in
      destruct (finalPayload_fields d b pl ps c x r)
        as (H1 & H2 & H3 & H4 & _);
      rewrite ?H1, ?H2, ?H3, ?H4; clear H1 H2 H3 H4
  end.

Lemma usable_or_invalid device :
  invalidCoordinates (Number (Device.last_lat device))
                     (Number (Device.last_lon device)) = true
  \/ exists pos, usableFix device pos.
Proof.
  destruct (invalidCoordinates _ _) eqn:E; [now left | right].
  apply invalidCoordinates_false in E as (p & q & Hp & Hq & Hp0 & Hq0).
  exists {| lat := p; lng := q |}. now repeat split.
Qed.

Lemma invalidCoordinates_false_usable device pos :
  usableFix device pos ->
  invalidCoordinates (Number (Device.last_lat device))
                     (Number (Device.last_lon device)) = false.
Proof.
  intros (Hlat & Hlng & Hp & Hq). apply invalidCoordinates_false.
  exists (lat pos), (lng pos). auto.
Qed.

(** The paths of a cycle: the fix is unusable; or it is usable and stale;
    or usable, fresh and at the destination; or a tracking cycle. *)
Lemma cycle_paths now device :
  invalidCoordinates (Number (Device.last_lat device))
                     (Number (Device.last_lon device)) = true
  \/ exists pos,
       usableFix device pos
       /\ (staleFix now device
           \/ (~ staleFix now device /\ atDestination pos)
           \/ tracking now device pos).
Proof.
  destruct (usable_or_invalid device) as [Hinv | (pos & Hfix)]; [now left |].
  right. exists pos. split; [exact Hfix |].
  destruct (isStale now (DateGetTime (Device.last_update device))) eqn:Es.
  { left. now apply isStale_true. }
  apply isStale_false in Es. right.
  destruct (Qle_bool (distanceMeters pos DESTINATION) ARRIVAL_DISTANCE_M)
    eqn:Ed.
  - left. split; [exact Es |]. now apply Qle_bool_iff.
  - right. split; [exact Hfix |]. split; [exact Es |].
    intros Hat. apply Qle_bool_iff in Hat. congruence.
Qed.

Lemma refreshDue_dec now cache :
  refreshDue now cache \/ ~ refreshDue now cache.
Proof.
  destruct (shouldRefresh now cache) eqn:E.
  - left. now apply shouldRefresh_true.
  - right. now apply shouldRefresh_false.
Qed.

Lemma applyCountdown_nonneg e t now : 0 <= applyCountdown e t now.
Proof.
  unfold applyCountdown. destruct e as [e|], t as [t|]; try lra.
  destruct (isZero e || (t =? 0)%Z); [lra | apply Math_max_ge_l].
Qed.

Lemma cachedEta_nonneg cache :
  (forall e, Cache.etaSeconds cache = Some e -> 0 <= e) ->
  0 <= cachedEta cache.
Proof.
  intros H. unfold cachedEta.
  destruct (Cache.etaSeconds cache) as [e|]; [| lra].
  destruct (isZero e); [lra | now apply H].
Qed.

Lemma entryOf_ok etaCache device e :
  cacheOk etaCache ->
  Cache.etaSeconds (entryOf etaCache device) = Some e -> 0 <= e.
Proof.
  intros Hok. unfold entryOf.
  destruct (etaCache !! busIdOf device) as [entry|] eqn:E; simpl.
  - now apply (Hok _ _ _ E).
  - discriminate.
Qed.

Lemma cacheOk_insert etaCache k entry :
  cacheOk etaCache ->
  (forall e, Cache.etaSeconds entry = Some e -> 0 <= e) ->
  cacheOk (<[k := entry]> etaCache).
Proof.
  intros Hok He k' entry' e.
  destruct (decide (k = k')) as [<-|Hne].
  - rewrite lookup_insert_eq. intros [= <-]. apply He.
  - rewrite lookup_insert_ne by done. apply Hok.
Qed.

(** *** The claims about the tracking cycle *)

(** C1, as the code has it: in a tracking cycle (a usable fix that is
    neither stale nor an arrival) [computeBusETA] calls the routing
    provider exactly when the cache entry holds no time of a last
    refresh, or that time is at least [ETA_REFRESH_MS] (30 s) ago.  The
    distance moved and the speed of the vehicle play no part. *)
Theorem refresh_decision_time_only now device pos etaCache :
  tracking now device pos ->
  (callsProvider (computeBusETA now device etaCache) = true
   <-> refreshDue now (entryOf etaCache device)).
Proof.
  intros Htr. split.
  - intros Hcall.
    destruct (shouldRefresh now (entryOf etaCache device)) eqn:E.
    + now apply shouldRefresh_true.
    + apply shouldRefresh_false in E.
      rewrite (computeBusETA_countdown _ _ _ _ Htr E) in Hcall.
      discriminate.
  - intros Hdue.
    destruct (computeBusETA_refresh _ _ _ etaCache Htr Hdue)
      as (resume & -> & _).
    reflexivity.
Qed.



(** C5, as the code has it: for a fix whose observation time is older
    than the 10-minute threshold the cycle ends at once, without a
    provider call, and [etaCache] is returned as it was.  When the fix
    has usable coordinates the result is a payload with status
    [offline], [eta] [null] and an empty route; when it has none the
    result is [null], because the coordinates are validated before the
    offline check. *)
Theorem offline_short_circuit now device etaCache :
  staleFix now device ->
  (forall pos,
     usableFix device pos ->
     exists payload,
       computeBusETA now device etaCache = Return (Some payload) etaCache
       /\ status payload = offline
       /\ eta payload = None
       /\ route payload = [])
  /\ ((~ exists pos, usableFix device pos) ->
      computeBusETA now device etaCache = Return None etaCache).
Proof.
  intros Hstale. split.
  - intros pos Hfix.
    rewrite (computeBusETA_offline _ _ _ _ Hfix Hstale).
    eexists. split; [reflexivity |]. simpl. auto.
  - intros Hno. destruct (usable_or_invalid device) as [Hinv | Hex].
    + now apply computeBusETA_invalid.
    + contradiction.
Qed.

(** C6: a fresh fix with usable coordinates within [ARRIVAL_DISTANCE_M]
    (50 m) of the destination gives a payload with status [arrived] and
    [etaSeconds] [0]; afterwards the bus's cache entry has [etaSeconds]
    [0] and an empty route, and no other entry has changed. *)
Theorem arrival_resets_cache now device pos etaCache :
  usableFix device pos -> ~ staleFix now device -> atDestination pos ->
  exists payload etaCache' entry,
    computeBusETA now device etaCache = Return (Some payload) etaCache'
    /\ status payload = arrived
    /\ etaSeconds payload = 0
    /\ etaCache' !! busIdOf device = Some entry
    /\ Cache.etaSeconds entry = Some 0
    /\ Cache.route entry = Some []
    /\ (forall k, k <> busIdOf device -> etaCache' !! k = etaCache !! k).
Proof.
  intros Hfix Hfresh Hat.
  rewrite (computeBusETA_arrival _ _ _ _ Hfix Hfresh Hat).
  eexists _, _, _. split; [reflexivity |]. simpl.
  repeat split.
  - apply lookup_insert_eq.
  - reflexivity.
  - reflexivity.
  - intros k Hk. now apply lookup_insert_ne.
Qed.

(** Every cycle on a usable fix returns a payload; its speed is the
    reported one, and its [etaSeconds] is not negative when no cached ETA
    and no provider duration is. *)
Lemma runCycle_usable google now device pos etaCache :
  usableFix device pos ->
  exists payload,
    (runCycle google now device etaCache).1 = Some payload
    /\ speed payload = Device.last_speed device
    /\ ((forall e,
           Cache.etaSeconds (entryOf etaCache device) = Some e -> 0 <= e) ->
        (forall a b, answerOk (google a b)) ->
        0 <= etaSeconds payload).
Proof.
  intros Hfix. unfold runCycle.
  destruct (cycle_paths now device)
    as [Hinv | (pos' & Hfix' & [Hstale | [(Hfresh & Hat) | Htr]])].
  - apply invalidCoordinates_false_usable in Hfix. congruence.
  - rewrite (computeBusETA_offline _ _ _ _ Hfix' Hstale).
    eexists. split; [reflexivity |]. simpl.
    split; [reflexivity | intros _ _; lra].
  - rewrite (computeBusETA_arrival _ _ _ _ Hfix' Hfresh Hat).
    eexists. split; [reflexivity |]. simpl.
    split; [reflexivity | intros _ _; lra].
  - destruct (refreshDue_dec now (entryOf etaCache device)) as [Hdue | Hdue].
    + destruct (computeBusETA_refresh _ _ _ etaCache Htr Hdue)
        as (resume & -> & Hok & Hfail).
      destruct (google pos' DESTINATION) as [g|] eqn:Eg.
      * rewrite Hok. eexists. split; [reflexivity |].
        payload_fields. split; [reflexivity |].
        intros _ Hgoogle. specialize (Hgoogle pos' DESTINATION).
        now rewrite Eg in Hgoogle.
      * rewrite Hfail. eexists. split; [reflexivity |].
        payload_fields. split; [reflexivity |].
        intros Hcache _. now apply cachedEta_nonneg.
    + rewrite (computeBusETA_countdown _ _ _ _ Htr Hdue).
      eexists. split; [reflexivity |].
      payload_fields. split; [reflexivity |].
      intros _ _. apply applyCountdown_nonneg.
Qed.

(** C7, as the code has it: [computeBusETA] returns [null] exactly when
    [Number(last_lat)] or [Number(last_lon)] is [NaN] or [0]; a zero
    coordinate is rejected like a missing one.  For every other fix the
    cycle returns a payload (also when the fix is stale) whose [speed] is
    the [last_speed] of the fix as it came, and whose [etaSeconds] is not
    negative when no cached ETA and no duration answered by the provider
    is. *)
Theorem null_iff_invalid_coordinates google now device etaCache :
  let result := (runCycle google now device etaCache).1 in
  (result = None <-> ~ exists pos, usableFix device pos)
  /\ (forall pos, usableFix device pos ->
        exists payload,
          result = Some payload
          /\ speed payload = Device.last_speed device
          /\ (cacheOk etaCache ->
              (forall a b, answerOk (google a b)) ->
              0 <= etaSeconds payload)).
Proof.
  intros result.
  assert (Hpay : forall pos, usableFix device pos ->
            exists payload,
              result = Some payload
              /\ speed payload = Device.last_speed device
              /\ (cacheOk etaCache ->
                  (forall a b, answerOk (google a b)) ->
                  0 <= etaSeconds payload)).
  { intros pos Hfix.
    destruct (runCycle_usable google now device pos etaCache Hfix)
      as (payload & Hsome & Hspeed & Heta).
    exists payload. split; [exact Hsome |]. split; [exact Hspeed |].
    intros Hcache Hgoogle. apply Heta; [| exact Hgoogle].
    intros e. now apply entryOf_ok. }
  split; [| exact Hpay]. split.
  - intros Hnone (pos & Hfix).
    destruct (Hpay pos Hfix) as (payload & Hsome & _). congruence.
  - intros Hno. destruct (usable_or_invalid device) as [Hinv | Hex].
    + subst result. unfold runCycle.
      now rewrite (computeBusETA_invalid _ _ _ Hinv).
    + contradiction.
Qed.

(** C10: in a tracking cycle for which no refresh is due (the countdown
    path) [computeBusETA] returns [etaCache] exactly as it was; and a
    whole cycle changes [etaCache] only when the fix is fresh and usable
    and either lies within the arrival radius or a refresh is due and
    the provider answers. *)
Theorem countdown_writes_nothing google now device etaCache :
  ((exists pos, tracking now device pos
                /\ ~ refreshDue now (entryOf etaCache device)) ->
   exists payload,
     computeBusETA now device etaCache = Return (Some payload) etaCache)
  /\ ((runCycle google now device etaCache).2 <> etaCache ->
      exists pos,
        usableFix device pos /\ ~ staleFix now device
        /\ (atDestination pos
            \/ (~ atDestination pos
                /\ refreshDue now (entryOf etaCache device)
                /\ is_Some (google pos DESTINATION)))).
Proof.
  split.
  - intros (pos & Htr & Hdue).
    rewrite (computeBusETA_countdown _ _ _ _ Htr Hdue). eauto.
  - unfold runCycle. intros Hchanged.
    destruct (cycle_paths now device)
      as [Hinv | (pos & Hfix & [Hstale | [(Hfresh & Hat) | Htr]])].
    + rewrite (computeBusETA_invalid _ _ _ Hinv) in Hchanged.
      now contradiction Hchanged.
    + rewrite (computeBusETA_offline _ _ _ _ Hfix Hstale) in Hchanged.
      now contradiction Hchanged.
    + exists pos. auto.
    + exists pos. pose proof Htr as (_ & Hfresh & Hfar).
      split; [exact Hfix |]. split; [exact Hfresh |].
      right. split; [exact Hfar |].
      destruct (refreshDue_dec now (entryOf etaCache device))
        as [Hdue | Hdue].
      * split; [exact Hdue |].
        destruct (computeBusETA_refresh _ _ _ etaCache Htr Hdue)
          as (resume & Heq & _ & Hfail).
        rewrite Heq in Hchanged.
        destruct (google pos DESTINATION) as [g|]; [eauto |].
        rewrite Hfail in Hchanged. now contradiction Hchanged.
      * rewrite (computeBusETA_countdown _ _ _ _ Htr Hdue) in Hchanged.
        now contradiction Hchanged.
Qed.

(** Every step that changes [etaCache] keeps the cached ETAs
    non-negative. *)
Lemma cacheOk_return now device etaCache result etaCache' :
  cacheOk etaCache ->
  computeBusETA now device etaCache = Return result etaCache' ->
  cacheOk etaCache'.
Proof.
  intros Hok Heq.
  destruct (cycle_paths now device)
    as [Hinv | (pos & Hfix & [Hstale | [(Hfresh & Hat) | Htr]])].
  - rewrite (computeBusETA_invalid _ _ _ Hinv) in Heq.
    now injection Heq as _ <-.
  - rewrite (computeBusETA_offline _ _ _ _ Hfix Hstale) in Heq.
    now injection Heq as _ <-.
  - rewrite (computeBusETA_arrival _ _ _ _ Hfix Hfresh Hat) in Heq.
    injection Heq as _ <-. apply cacheOk_insert; [exact Hok |].
    simpl. intros e [= <-]. lra.
  - destruct (refreshDue_dec now (entryOf etaCache device)) as [Hdue | Hdue].
    + destruct (computeBusETA_refresh _ _ _ etaCache Htr Hdue)
        as (resume & Heq' & _).
      rewrite Heq' in Heq. discriminate.
    + rewrite (computeBusETA_countdown _ _ _ _ Htr Hdue) in Heq.
      now injection Heq as _ <-.
Qed.

Lemma cacheOk_resume now device etaCache0 start dest resume answer
    etaCache :
  computeBusETA now device etaCache0 = Await start dest resume ->
  cacheOk etaCache -> answerOk answer ->
  cacheOk (resume answer etaCache).2.
Proof.
  intros Heq Hok Hans.
  destruct (cycle_paths now device)
    as [Hinv | (pos & Hfix & [Hstale | [(Hfresh & Hat) | Htr]])].
  - rewrite (computeBusETA_invalid _ _ _ Hinv) in Heq. discriminate.
  - rewrite (computeBusETA_offline _ _ _ _ Hfix Hstale) in Heq.
    discriminate.
  - rewrite (computeBusETA_arrival _ _ _ _ Hfix Hfresh Hat) in Heq.
    discriminate.
  - destruct (refreshDue_dec now (entryOf etaCache0 device))
      as [Hdue | Hdue].
    + destruct (computeBusETA_refresh _ _ _ etaCache0 Htr Hdue)
        as (resume' & Heq' & Hsucc & Hfail).
      rewrite Heq' in Heq. injection Heq as _ _ <-.
      destruct answer as [g|].
      * rewrite Hsucc. simpl. apply cacheOk_insert; [exact Hok |].
        simpl. intros e [= <-]. exact Hans.
      * rewrite Hfail. exact Hok.
    + rewrite (computeBusETA_countdown _ _ _ _ Htr Hdue) in Heq.
      discriminate.
Qed.

(** As long as the provider has answered no negative duration, no
    cached ETA is negative. *)
Lemma reachableCache_ok answers etaCache :
  reachableCache answers etaCache ->
  Forall answerOk answers -> cacheOk etaCache.
Proof.
  induction 1 as [| now device answers etaCache result etaCache' _ IH Heq
                  | now device answers0 etaCache0 start dest resume answer
                      answers etaCache _ _ Heq _ IH];
    intros Hans.
  - intros k entry e Hk. now rewrite lookup_empty in Hk.
  - exact (cacheOk_return _ _ _ _ _ (IH Hans) Heq).
  - apply Forall_cons in Hans as [Hanswer Hans].
    exact (cacheOk_resume _ _ _ _ _ _ _ _ Heq (IH Hans) Hanswer).
Qed.

(** A whole cycle, run without interleaving, leads from a reachable cache
    to a reachable cache; the provider's answer, if the cycle asked for
    one, joins the answers given. *)
Lemma reachableCache_runCycle google now device answers etaCache :
  reachableCache answers etaCache ->
  reachableCache
    (match computeBusETA now device etaCache with
     | Return _ _ => answers
     | Await start dest _ => google start dest :: answers
     end)
    (runCycle google now device etaCache).2.
Proof.
  intros Hreach. unfold runCycle.
  destruct (computeBusETA now device etaCache)
    as [result etaCache' | start dest resume] eqn:E.
  - exact (reachable_return _ _ _ _ _ _ _ _ _ Hreach E).
  - exact (reachable_resume _ _ _ _ _ _ _ _ _ _ _ _ _ Hreach E Hreach).
Qed.

End TrackingCycleFacts.

(** *** The cycle on the concrete fixes *)

Module SampleFacts.
Import Sample.

Lemma usable_kigali speed text : usableFix (bus kigali speed text) kigali.
Proof. repeat split; simpl; lra. Qed.

Lemma usable_destination speed text :
  usableFix (bus DESTINATION speed text) DESTINATION.
Proof. repeat split; simpl; lra. Qed.

Lemma fresh_at speed pos now :
  (now <= t0 + 600000)%Z ->
  ~ staleFix now (bus pos speed "2023-11-14T22:13:20.000Z").
Proof.
  intros Hnow (t & Ht & Hlt). vm_compute in Ht.
  injection Ht as <-. unfold STALE_DEVICE_MS, t0 in *. lia.
Qed.

Lemma kigali_is_far : ~ atDestination kigali.
Proof.
  intros H. apply Qle_bool_iff in H. vm_compute in H. discriminate.
Qed.

Lemma tracking_kigali speed now :
  (now <= t0 + 600000)%Z ->
  tracking now (bus kigali speed "2023-11-14T22:13:20.000Z") kigali.
Proof.
  intros Hnow. split; [apply usable_kigali |].
  split; [now apply fresh_at | apply kigali_is_far].
Qed.

End SampleFacts.

Lemma refresh_decision_time_only_witness :
  Sample.tracking Sample.t0 Sample.movingBus Sample.kigali
  /\ (callsProvider (Sample.computeBusETA Sample.t0 Sample.movingBus ∅) = true
      <-> refreshDue Sample.t0 (entryOf ∅ Sample.movingBus)).
Proof.
  assert (H : Sample.tracking Sample.t0 Sample.movingBus Sample.kigali)
    by (apply SampleFacts.tracking_kigali; unfold Sample.t0; lia).
  split; [exact H |].
  exact (refresh_decision_time_only _ _ _ _ _ _ ∅ H).
Defined.

(** C1 as stated fails on the code.  Ten seconds after a refresh, a bus
    that has moved 200 m is due for a refresh by the stated policy, and
    [computeBusETA] does not call the provider; forty seconds after a
    refresh, a stopped bus that has not moved is not due by the stated
    policy, and [computeBusETA] calls the provider. *)
Lemma refresh_policy_counterexample :
  (Sample.tracking (Sample.t0 + 10000) Sample.movingBus Sample.kigali
   /\ Spec.shouldRefreshEta ETA_REFRESH_MS Sample.t0 200 true
        (Sample.t0 + 10000) = true
   /\ callsProvider
        (Sample.computeBusETA (Sample.t0 + 10000) Sample.movingBus
           {[Sample.busKey := Sample.entry120]}) = false)
  /\ (Sample.tracking (Sample.t0 + 40000) Sample.stoppedBus Sample.kigali
      /\ Spec.shouldRefreshEta ETA_REFRESH_MS Sample.t0 0 false
           (Sample.t0 + 40000) = false
      /\ callsProvider
           (Sample.computeBusETA (Sample.t0 + 40000) Sample.stoppedBus
              {[Sample.busKey := Sample.entry120]}) = true).
Proof.
  split; (split; [apply SampleFacts.tracking_kigali; unfold Sample.t0; lia |]);
    split; vm_compute; reflexivity.
Qed.




Lemma offline_short_circuit_witness :
  Sample.usableFix Sample.silentBus Sample.kigali
  /\ Sample.staleFix Sample.t0 Sample.silentBus
  /\ exists payload,
       Sample.computeBusETA Sample.t0 Sample.silentBus
         {[Sample.busKey := Sample.entry120]}
       = Return (Some payload) {[Sample.busKey := Sample.entry120]}
       /\ status payload = offline
       /\ eta payload = None
       /\ route payload = [].
Proof.
  assert (Hstale : Sample.staleFix Sample.t0 Sample.silentBus).
  { exists 1699999340000%Z. split; [reflexivity |].
    unfold STALE_DEVICE_MS, Sample.t0. lia. }
  split; [apply SampleFacts.usable_kigali |]. split; [exact Hstale |].
  exact (proj1 (offline_short_circuit Sample.distanceMeters
                  Sample.StringToNumber Sample.DateGetTime Sample.t0
                  Sample.silentBus {[Sample.busKey := Sample.entry120]}
                  Hstale)
           Sample.kigali (SampleFacts.usable_kigali _ _)).
Defined.

(** C5 as stated fails on the code: a fix that is eleven minutes old and
    has no latitude is answered with [null], not with an [offline]
    payload. *)
Lemma stale_fix_without_position_counterexample :
  Sample.staleFix Sample.t0 Sample.lostBus
  /\ Device.last_lat Sample.lostBus = JsUndefined
  /\ Sample.computeBusETA Sample.t0 Sample.lostBus
       {[Sample.busKey := Sample.entry120]}
     = Return None {[Sample.busKey := Sample.entry120]}.
Proof.
  split; [| split; reflexivity].
  exists 1699999340000%Z. split; [reflexivity |].
  unfold STALE_DEVICE_MS, Sample.t0. lia.
Qed.

Lemma arrival_resets_cache_witness :
  Sample.usableFix Sample.arrivedBus DESTINATION
  /\ ~ Sample.staleFix Sample.t0 Sample.arrivedBus
  /\ Sample.atDestination DESTINATION
  /\ exists payload etaCache' entry,
       Sample.computeBusETA Sample.t0 Sample.arrivedBus
         {[Sample.busKey := Sample.entry120]}
       = Return (Some payload) etaCache'
       /\ status payload = arrived
       /\ etaSeconds payload = 0
       /\ etaCache' !! busIdOf Sample.arrivedBus = Some entry
       /\ Cache.etaSeconds entry = Some 0
       /\ Cache.route entry = Some []
       /\ (forall k, k <> busIdOf Sample.arrivedBus ->
             etaCache' !! k
             = ({[Sample.busKey := Sample.entry120]}
                  : gmap BusId Cache.t) !! k).
Proof.
  assert (Hfresh : ~ Sample.staleFix Sample.t0 Sample.arrivedBus)
    by (apply SampleFacts.fresh_at; unfold Sample.t0; lia).
  assert (Hat : Sample.atDestination DESTINATION)
    by (apply Qle_bool_iff; vm_compute; reflexivity).
  split; [apply SampleFacts.usable_destination |].
  split; [exact Hfresh |]. split; [exact Hat |].
  exact (arrival_resets_cache _ _ _ _ _ _ _
           (SampleFacts.usable_destination _ _) Hfresh Hat).
Defined.

(** C7 as stated fails on the code in each of its three parts.  A fresh
    fix on the equator, with the numeric latitude [0], is answered with
    [null].  A fix with usable coordinates gets a payload with a negative
    [etaSeconds] when the provider answers a negative duration, which the
    code passes on unchecked.  And a fix that reports a negative speed
    gets a payload with that speed. *)
Lemma valid_fix_guarantees_counterexample :
  (Device.last_lat Sample.equatorBus = JsNumber (Fin 0)
   /\ Device.last_lon Sample.equatorBus = JsNumber (Fin (300619 # 10000))
   /\ Sample.computeBusETA Sample.t0 Sample.equatorBus ∅ = Return None ∅)
  /\ (Sample.usableFix Sample.movingBus Sample.kigali
      /\ exists payload,
           (Sample.runCycle Sample.googleNegative Sample.t0
              Sample.movingBus ∅).1 = Some payload
           /\ etaSeconds payload < 0)
  /\ (Sample.usableFix Sample.reversingBus Sample.kigali
      /\ exists payload,
           (Sample.runCycle Sample.google120 Sample.t0
              Sample.reversingBus ∅).1 = Some payload
           /\ speed payload = JsNumber (Fin (-5 # 1))).
Proof.
  split; [repeat split |].
  split; (split; [apply SampleFacts.usable_kigali |]);
    eexists; (split; [reflexivity |]); reflexivity.
Qed.

Lemma null_iff_invalid_coordinates_witness :
  cacheOk (∅ : gmap BusId Cache.t)
  /\ (forall a b, answerOk (Sample.google120 a b))
  /\ ((Sample.runCycle Sample.google120 Sample.t0 Sample.equatorBus ∅).1 = None
      <-> ~ exists pos, Sample.usableFix Sample.equatorBus pos)
  /\ (forall pos, Sample.usableFix Sample.movingBus pos ->
        exists payload,
          (Sample.runCycle Sample.google120 Sample.t0 Sample.movingBus ∅).1
          = Some payload
          /\ speed payload = Device.last_speed Sample.movingBus
          /\ 0 <= etaSeconds payload).
Proof.
  assert (Hc : cacheOk (∅ : gmap BusId Cache.t))
    by (intros k entry e Hk; now rewrite lookup_empty in Hk).
  assert (Hg : forall a b, answerOk (Sample.google120 a b))
    by (intros a b; simpl; lra).
  split; [exact Hc |]. split; [exact Hg |]. split.
  - exact (proj1 (null_iff_invalid_coordinates Sample.distanceMeters
                    Sample.StringToNumber Sample.DateGetTime
                    Sample.google120 Sample.t0 Sample.equatorBus ∅)).
  - intros pos Hfix.
    destruct (proj2 (null_iff_invalid_coordinates Sample.distanceMeters
                       Sample.StringToNumber Sample.DateGetTime
                       Sample.google120 Sample.t0 Sample.movingBus ∅)
                pos Hfix)
      as (payload & Hsome & Hspeed & Heta).
    exists payload. split; [exact Hsome |]. split; [exact Hspeed |].
    exact (Heta Hc Hg).
Defined.

Lemma countdown_writes_nothing_witness :
  (exists pos,
     Sample.tracking (Sample.t0 + 10000) Sample.movingBus pos
     /\ ~ refreshDue (Sample.t0 + 10000)
          (entryOf {[Sample.busKey := Sample.entry120]} Sample.movingBus))
  /\ exists payload,
       Sample.computeBusETA (Sample.t0 + 10000) Sample.movingBus
         {[Sample.busKey := Sample.entry120]}
       = Return (Some payload) {[Sample.busKey := Sample.entry120]}.
Proof.
  assert (H : exists pos,
     Sample.tracking (Sample.t0 + 10000) Sample.movingBus pos
     /\ ~ refreshDue (Sample.t0 + 10000)
          (entryOf {[Sample.busKey := Sample.entry120]} Sample.movingBus)).
  { exists Sample.kigali. split.
    - apply SampleFacts.tracking_kigali. unfold Sample.t0. lia.
    - vm_compute. intros [Hd | Hd]; [discriminate Hd | now apply Hd]. }
  split; [exact H |].
  exact (proj1 (countdown_writes_nothing Sample.distanceMeters
                  Sample.StringToNumber Sample.DateGetTime
                  Sample.google120 (Sample.t0 + 10000) Sample.movingBus
                  {[Sample.busKey := Sample.entry120]}) H).
Defined.

(** ** ETA smoothing *)

Module SmoothingFacts.
Import Smoothing.

(** The Kalman gain lies between 0 and 1. *)
Lemma gain_bounds (p r : Q) : 0 <= p -> 0 < r -> 0 <= p / (p + r) <= 1.
Proof.
  intros Hp Hr. split.
  - apply Qle_shift_div_l; lra.
  - apply Qle_shift_div_r; lra.
Qed.

Lemma kalmanFilter1D_ok filter measurement :
  filterOk filter -> 0 <= measurement ->
  filterOk (Some (kalmanFilter1D filter measurement 1 15)).
Proof.
  intros Hf Hm. destruct filter as [[f p]|]; simpl in *; [| lra].
  destruct Hf as [Hf Hp].
  destruct (gain_bounds (p + 1) 15) as [Hg0 Hg1]; [lra | lra |].
  set (g := (p + 1) / (p + 1 + 15)) in *. clearbody g. split; nra.
Qed.

(** The rate-limited target of a valid measurement is not negative. *)
Lemma target_nonneg (previous clamped : Q) :
  0 < previous -> 0 <= clamped ->
  0 <= (if Qlt_bool clamped (previous - previous * (5 # 100))
        then previous - previous * (5 # 100)
        else if Qlt_bool (previous + previous * (2 # 100)) clamped
             then previous + previous * (2 # 100)
             else clamped).
Proof.
  intros Hp Hc.
  destruct (Qlt_bool clamped _); [lra |].
  destruct (Qlt_bool _ clamped); lra.
Qed.

(** The final clamp keeps the new EMA within 5% of the previous one. *)
Lemma final_clamp_bounds (previous ema : Q) :
  0 < previous ->
  let adjusted :=
    if Qlt_bool (previous * (5 # 100)) (Qabs (ema - previous)) then
      if Qlt_bool ema previous then previous - previous * (5 # 100)
      else previous + previous * (5 # 100)
    else ema in
  previous - previous * (5 # 100) <= adjusted
  /\ adjusted <= previous + previous * (5 # 100).
Proof.
  intros Hp adjusted. subst adjusted.
  destruct (Qlt_bool (previous * (5 # 100)) (Qabs (ema - previous))) eqn:E.
  - destruct (Qlt_bool ema previous); lra.
  - apply Qlt_bool_false, Qabs_Qle_condition in E. lra.
Qed.

Lemma smoothETA_ok state rawETA smoothedSpeed distance :
  etaOk state -> etaOk (Some (smoothETA state rawETA smoothedSpeed distance)).
Proof.
  intros Hok.
  assert (Hkeep : etaOk (Some match state with
                              | Some st => st
                              | None => {| eta := 0; etaFilter := None;
                                           etaEMA := 0 |}
                              end)).
  { destruct state; [exact Hok | simpl; split; [lra | exact I]]. }
  unfold smoothETA. destruct rawETA as [r|]; [| exact Hkeep].
  destruct (Qlt_bool r 0) eqn:Er; [exact Hkeep |].
  assert (Hc : 0 <= Math_max 0 (Math_min 3600 r)) by apply Math_max_ge_l.
  set (clamped := Math_max 0 (Math_min 3600 r)) in *. clearbody clamped.
  destruct state as [[e f p]|];
    unfold etaOk in *;
    cbn [etaEMA etaFilter eta exponentialMovingAverage] in *.
  - destruct Hok as [Hp Hf].
    destruct (Qlt_bool 0 p) eqn:Epos.
    + apply Qlt_bool_iff in Epos.
      pose proof (target_nonneg p clamped Epos Hc) as Ht.
      set (target := if Qlt_bool clamped _ then _ else _) in *.
      clearbody target.
      pose proof (kalmanFilter1D_ok f target Hf Ht) as Hk.
      set (k := kalmanFilter1D f target 1 15) in *. clearbody k.
      split; [| exact Hk].
      match goal with
      | |- 0 <= (if Qlt_bool _ (Qabs (?ema - _)) then _ else _) =>
          pose proof (final_clamp_bounds p ema Epos) as Hb
      end.
      cbv zeta in Hb. lra.
    + pose proof (kalmanFilter1D_ok f clamped Hf Hc) as Hk.
      set (k := kalmanFilter1D f clamped 1 15) in *. clearbody k.
      split; [| exact Hk]. destruct Hk as [Hk _]. lra.
  - unfold filterOk, kalmanFilter1D. cbn [value errorCovariance].
    split; [lra | split; lra].
Qed.

Lemma reachable_ok state : reachable state -> etaOk state.
Proof.
  induction 1 as [| state rawETA smoothedSpeed distance _ IH].
  - exact I.
  - now apply smoothETA_ok.
Qed.





End SmoothingFacts.




(** C8, as the code has it: in every state that the ETA smoothing can
    reach from its initial [null], [etaEMA] is not negative; and in every
    content that [etaCache] can reach, no cached [etaSeconds] is negative
    as long as the provider has answered no negative duration.  Arrival,
    countdown and [smoothETA] keep the invariant whatever happens; a
    refresh stores the provider's duration as it comes. *)
Theorem eta_never_negative (distanceMeters : Position -> Position -> Q)
    (StringToNumber : string -> JsNum) (DateGetTime : string -> option Z)
    (answers : list (option GoogleResult))
    (etaCache : gmap BusId Cache.t) (state : option Smoothing.EtaState) :
  reachableCache distanceMeters StringToNumber DateGetTime answers
    etaCache ->
  Smoothing.reachable state ->
  (Forall answerOk answers ->
   forall k entry e,
     etaCache !! k = Some entry -> Cache.etaSeconds entry = Some e ->
     0 <= e)
  /\ match state with
     | Some st => 0 <= Smoothing.etaEMA st
     | None => True
     end.
Proof.
  intros Hcache Hstate. split.
  - exact (reachableCache_ok _ _ _ _ _ Hcache).
  - apply SmoothingFacts.reachable_ok in Hstate.
    destruct state as [st|]; [apply Hstate | exact I].
Qed.

Lemma eta_never_negative_witness :
  let answers := [Some Sample.answer120] in
  let etaCache :=
    (Sample.runCycle Sample.google120 Sample.t0 Sample.movingBus ∅).2 in
  let state := Some (Smoothing.smoothETA None (Some 100) 40 4000) in
  reachableCache Sample.distanceMeters Sample.StringToNumber
    Sample.DateGetTime answers etaCache
  /\ Smoothing.reachable state
  /\ Forall answerOk answers
  /\ (forall k entry e,
        etaCache !! k = Some entry -> Cache.etaSeconds entry = Some e ->
        0 <= e)
  /\ 0 <= Smoothing.etaEMA (Smoothing.smoothETA None (Some 100) 40 4000).
Proof.
  intros answers etaCache state.
  assert (Hcache : reachableCache Sample.distanceMeters Sample.StringToNumber
                     Sample.DateGetTime answers etaCache)
    by exact (reachableCache_runCycle Sample.distanceMeters
                Sample.StringToNumber Sample.DateGetTime Sample.google120
                Sample.t0 Sample.movingBus [] ∅
                (reachable_empty _ _ _)).
  assert (Hstate : Smoothing.reachable state)
    by (apply Smoothing.reachable_step, Smoothing.reachable_init).
  assert (Hans : Forall answerOk answers)
    by (repeat constructor; simpl; lra).
  split; [exact Hcache |]. split; [exact Hstate |]. split; [exact Hans |].
  destruct (eta_never_negative _ _ _ answers etaCache state Hcache Hstate)
    as [Hc Hs].
  split; [exact (Hc Hans) | exact Hs].
Defined.

(** C8 as stated fails on the code: a refresh that the provider answers
    with a duration of -5 s leaves an [etaSeconds] of -5 in the cache. *)
Lemma negative_duration_cached_counterexample :
  let etaCache :=
    (Sample.runCycle Sample.googleNegative Sample.t0 Sample.movingBus ∅).2
  in
  reachableCache Sample.distanceMeters Sample.StringToNumber
    Sample.DateGetTime [Some Sample.answerNegative] etaCache
  /\ exists entry e,
       etaCache !! Sample.busKey = Some entry
       /\ Cache.etaSeconds entry = Some e
       /\ e < 0.
Proof.
  intros etaCache. split.
  - exact (reachableCache_runCycle Sample.distanceMeters
             Sample.StringToNumber Sample.DateGetTime Sample.googleNegative
             Sample.t0 Sample.movingBus [] ∅ (reachable_empty _ _ _)).
  - eexists. exists (-5 # 1). split; [reflexivity |].
    split; reflexivity.
Qed.

(** ** The polyline codec *)

Module PolylineFacts.
Local Open Scope Z_scope.

(** *** 32-bit operators on small values *)

Lemma toInt32_small z : - 2 ^ 31 <= z < 2 ^ 31 -> toInt32 z = z.
Proof. intros H. unfold toInt32. rewrite Z.mod_small; lia. Qed.

Lemma lor_disjoint_add a b n :
  0 <= n -> 0 <= a < 2 ^ n -> Z.lor a (b * 2 ^ n) = a + b * 2 ^ n.
Proof.
  intros Hn Ha.
  assert (Hland : Z.land a (b * 2 ^ n) = 0).
  { apply Z.bits_inj'. intros k Hk. rewrite Z.land_spec, Z.bits_0.
    destruct (Z.lt_ge_cases k n) as [Hlt | Hge].
    - rewrite <- Z.shiftl_mul_pow2 by lia.
      rewrite Z.shiftl_spec_low by lia. apply andb_false_r.
    - destruct (Z.eq_dec a 0) as [-> | Hne]; [now rewrite Z.bits_0 |].
      rewrite Z.bits_above_log2; [reflexivity | lia |].
      assert (Z.log2 a < n) by (apply Z.log2_lt_pow2; lia). lia. }
  rewrite <- Z.lxor_lor by exact Hland.
  symmetry. now apply Z.add_nocarry_lxor.
Qed.

Lemma land_31 v : Z.land v 31 = v mod 32.
Proof. change 31 with (Z.ones 5). now rewrite Z.land_ones by lia. Qed.

Lemma bitAnd_31 b : 0 <= b < 2 ^ 31 -> bitAnd b 31 = b mod 32.
Proof.
  intros Hb. unfold bitAnd.
  rewrite (toInt32_small b), (toInt32_small 31) by lia. apply land_31.
Qed.

(** Adding one 5-bit group above the bits read so far. *)
Lemma bitOr_group acc c shift :
  0 <= shift <= 30 -> 0 <= acc < 2 ^ shift -> 0 <= c ->
  acc + c * 2 ^ shift < 2 ^ 31 ->
  bitOr acc (shiftLeft c shift) = acc + c * 2 ^ shift.
Proof.
  intros Hs Hacc Hc Hsum.
  assert (Hp : 0 < 2 ^ shift) by (apply Z.pow_pos_nonneg; lia).
  assert (Hcp : 0 <= c * 2 ^ shift) by nia.
  assert (Hcc : c <= c * 2 ^ shift) by nia.
  unfold bitOr, shiftLeft.
  rewrite (Z.mod_small shift 32) by lia.
  rewrite (toInt32_small c) by lia.
  rewrite Z.shiftl_mul_pow2 by lia.
  rewrite (toInt32_small (c * 2 ^ shift)) by lia.
  rewrite (toInt32_small (c * 2 ^ shift)) by lia.
  rewrite (toInt32_small acc) by lia.
  apply lor_disjoint_add; lia.
Qed.

Lemma charCode_ascii n : 0 <= n < 256 -> charCode (ascii_of_N (Z.to_N n)) = n.
Proof. intros Hn. unfold charCode. rewrite N_ascii_embedding; lia. Qed.

(** *** Reading back what the encoder wrote *)

Lemma append_cons c s rest :
  (String c s ++ rest)%string = String c (s ++ rest)%string.
Proof. reflexivity. Qed.

Lemma append_empty rest : (EmptyString ++ rest)%string = rest.
Proof. reflexivity. Qed.

Lemma length_append s1 s2 :
  String.length (s1 ++ s2)%string
  = (String.length s1 + String.length s2)%nat.
Proof.
  induction s1 as [| c s1 IH]; [reflexivity |].
  rewrite append_cons. cbn [String.length]. now rewrite IH.
Qed.

Lemma encodeChunks_S fuel v :
  Encoder.encodeChunks (S fuel) v
  = if 32 <=? v then
      String (ascii_of_N (Z.to_N (Z.lor 32 (Z.land v 31) + 63)))
             (Encoder.encodeChunks fuel (Z.shiftr v 5))
    else String (ascii_of_N (Z.to_N (v + 63))) EmptyString.
Proof. reflexivity. Qed.

Lemma readChunks_encodeChunks fuel :
  forall v shift acc rest,
    0 <= v < 2 ^ (5 * Z.of_nat (S fuel)) ->
    0 <= shift <= 30 -> 0 <= acc < 2 ^ shift ->
    acc + v * 2 ^ shift < 2 ^ 31 ->
    readChunks (Encoder.encodeChunks (S fuel) v ++ rest)%string shift acc
    = (acc + v * 2 ^ shift, rest).
Proof.
  induction fuel as [| fuel IH]; intros v shift acc rest Hv Hs Hacc Hsum;
    rewrite (encodeChunks_S _ v); destruct (32 <=? v) eqn:E.
  - apply Z.leb_le in E. change (2 ^ (5 * Z.of_nat 1)) with 32 in Hv. lia.
  - apply Z.leb_gt in E. rewrite append_cons, ?append_empty. cbn [readChunks].
    rewrite charCode_ascii by lia.
    replace (v + 63 - 63) with v by lia.
    rewrite (proj2 (Z.leb_gt 32 v)) by lia.
    rewrite bitAnd_31 by lia. rewrite Z.mod_small by lia.
    now rewrite bitOr_group by lia.
  - apply Z.leb_le in E.
    assert (Hp : 0 < 2 ^ shift) by (apply Z.pow_pos_nonneg; lia).
    assert (Hr : 0 <= v mod 32 < 32) by (apply Z.mod_pos_bound; lia).
    assert (Hdm : v = 32 * (v / 32) + v mod 32) by (apply Z.div_mod; lia).
    assert (Hq : 0 <= v / 32) by (apply Z.div_pos; lia).
    assert (Hlor : Z.lor 32 (Z.land v 31) = v mod 32 + 32).
    { rewrite land_31, Z.lor_comm.
      change 32 with (1 * 2 ^ 5) at 2. rewrite lor_disjoint_add; lia. }
    assert (Hshift : shift + 5 <= 30).
    { assert (2 ^ (shift + 5) < 2 ^ 31).
      { rewrite Z.pow_add_r by lia. change (2 ^ 5) with 32. nia. }
      assert (shift + 5 < 31) by (apply (Z.pow_lt_mono_r_iff 2); lia). lia. }
    assert (Hpow : 2 ^ (shift + 5) = 2 ^ shift * 32)
      by (rewrite Z.pow_add_r by lia; reflexivity).
    rewrite append_cons, ?append_empty. cbn [readChunks]. rewrite Hlor.
    rewrite charCode_ascii by lia.
    replace (v mod 32 + 32 + 63 - 63) with (v mod 32 + 32) by lia.
    rewrite (proj2 (Z.leb_le 32 (v mod 32 + 32))) by lia.
    rewrite bitAnd_31 by lia.
    replace ((v mod 32 + 32) mod 32) with (v mod 32)
      by (replace (v mod 32 + 32) with (v mod 32 + 1 * 32) by lia;
          rewrite Z_mod_plus_full; symmetry; apply Z.mod_mod; lia).
    rewrite bitOr_group by nia.
    rewrite Z.shiftr_div_pow2 by lia. change (2 ^ 5) with 32.
    rewrite IH.
    + f_equal. rewrite Hpow. nia.
    + split; [exact Hq |]. apply Z.div_lt_upper_bound; [lia |].
      replace (5 * Z.of_nat (S (S fuel))) with (5 + 5 * Z.of_nat (S fuel))
        in Hv by lia.
      rewrite Z.pow_add_r in Hv by lia. change (2 ^ 5) with 32 in Hv. lia.
    + lia.
    + rewrite Hpow. nia.
    + rewrite Hpow. nia.
  - apply Z.leb_gt in E. rewrite append_cons, ?append_empty. cbn [readChunks].
    rewrite charCode_ascii by lia.
    replace (v + 63 - 63) with v by lia.
    rewrite (proj2 (Z.leb_gt 32 v)) by lia.
    rewrite bitAnd_31 by lia. rewrite Z.mod_small by lia.
    now rewrite bitOr_group by lia.
Qed.

(** The sign fold and its inverse. *)
Lemma fold_eq d : Encoder.fold d = if d <? 0 then - 2 * d - 1 else 2 * d.
Proof.
  unfold Encoder.fold. rewrite Z.shiftl_mul_pow2 by lia.
  change (2 ^ 1) with 2. destruct (d <? 0); [| lia].
  rewrite Z.lnot_eq_pred_opp. lia.
Qed.

Lemma fold_range d : - 2 ^ 30 <= d < 2 ^ 30 -> 0 <= Encoder.fold d < 2 ^ 31.
Proof.
  intros Hd. rewrite fold_eq. destruct (d <? 0) eqn:E.
  - apply Z.ltb_lt in E. lia.
  - apply Z.ltb_ge in E. lia.
Qed.

Lemma deltaOf_fold d : - 2 ^ 30 <= d < 2 ^ 30 -> deltaOf (Encoder.fold d) = d.
Proof.
  intros Hd. pose proof (fold_range d Hd) as Hr.
  unfold deltaOf, bitAnd, shiftRight, bitNot.
  rewrite (toInt32_small (Encoder.fold d)), (toInt32_small 1) by lia.
  change (1 mod 32) with 1. change 1 with (Z.ones 1) at 1.
  rewrite Z.land_ones by lia. rewrite Z.shiftr_div_pow2 by lia.
  change (2 ^ 1) with 2.
  rewrite fold_eq in *. destruct (d <? 0) eqn:E.
  - apply Z.ltb_lt in E.
    replace (- 2 * d - 1) with (1 + (- d - 1) * 2) by lia.
    rewrite Z_mod_plus_full, Z.div_add by lia.
    change (1 mod 2) with 1. change (1 / 2) with 0. simpl (1 =? 0).
    rewrite toInt32_small by lia. rewrite Z.lnot_eq_pred_opp. lia.
  - apply Z.ltb_ge in E.
    replace (2 * d) with (0 + d * 2) by lia.
    rewrite Z_mod_plus_full, Z.div_add by lia. reflexivity.
Qed.

Lemma readChunks_encodeValue d rest :
  - 2 ^ 30 <= d < 2 ^ 30 ->
  readChunks (Encoder.encodeValue d ++ rest)%string 0 0
  = (Encoder.fold d, rest).
Proof.
  intros Hd. pose proof (fold_range d Hd) as Hr. unfold Encoder.encodeValue.
  set (v := Encoder.fold d) in *.
  rewrite readChunks_encodeChunks.
  - f_equal. change (2 ^ 0) with 1. lia.
  - split; [lia |].
    destruct (Z.eq_dec v 0) as [-> | Hne]; [reflexivity |].
    pose proof (Z.log2_spec v ltac:(lia)) as [_ Hlt].
    pose proof (Z.log2_nonneg v) as Hlog.
    eapply Z.lt_le_trans; [exact Hlt |].
    apply Z.pow_le_mono_r; lia.
  - lia.
  - change (2 ^ 0) with 1. lia.
  - change (2 ^ 0) with 1. lia.
Qed.

Lemma encodeValue_nonempty d :
  exists c s, Encoder.encodeValue d = String c s.
Proof.
  unfold Encoder.encodeValue. rewrite encodeChunks_S.
  destruct (32 <=? Encoder.fold d); eauto.
Qed.

(** *** The decoding loop *)

Lemma decodeLoop_empty scale fuel lat0 lng0 :
  decodeLoop scale fuel EmptyString lat0 lng0 = [].
Proof. now destruct fuel. Qed.

Lemma decodeLoop_step scale fuel encoded lat0 lng0 :
  encoded <> EmptyString ->
  decodeLoop scale (S fuel) encoded lat0 lng0
  = (let '(result, rest) := readChunks encoded 0 0 in
     let lat1 := lat0 + deltaOf result in
     let '(result, rest) := readChunks rest 0 0 in
     let lng1 := lng0 + deltaOf result in
     {| lat := scale lat1; lng := scale lng1 |}
       :: decodeLoop scale fuel rest lat1 lng1).
Proof. intros Hne. destruct encoded; [congruence | reflexivity]. Qed.

(** Every call of [readChunks] on a non-empty text consumes a character. *)
Lemma readChunks_length encoded shift result :
  (String.length (readChunks encoded shift result).2
   <= Nat.pred (String.length encoded))%nat.
Proof.
  revert shift result.
  induction encoded as [| c rest IH]; intros shift result; simpl.
  - lia.
  - destruct (32 <=? charCode c - 63); simpl; [| lia].
    specialize (IH (shift + 5)
                  (bitOr result (shiftLeft (bitAnd (charCode c - 63) 31)
                                   shift))).
    lia.
Qed.

(** The fuel [len] of [decodePolyline] never runs out: any larger fuel
    gives the same path. *)
Lemma decodeLoop_fuel scale fuel fuel' :
  forall encoded lat0 lng0,
    (String.length encoded <= fuel)%nat ->
    (String.length encoded <= fuel')%nat ->
    decodeLoop scale fuel encoded lat0 lng0
    = decodeLoop scale fuel' encoded lat0 lng0.
Proof.
  revert fuel'.
  induction fuel as [| fuel IH]; intros fuel' encoded lat0 lng0 Hf Hf'.
  - destruct encoded; [| simpl in Hf; lia].
    now rewrite !decodeLoop_empty.
  - destruct encoded as [| c s]; [now rewrite !decodeLoop_empty |].
    destruct fuel' as [| fuel']; [simpl in Hf'; lia |].
    rewrite !decodeLoop_step by discriminate.
    pose proof (readChunks_length (String c s) 0 0) as H1.
    destruct (readChunks (String c s) 0 0) as [r1 rest1].
    pose proof (readChunks_length rest1 0 0) as H2.
    destruct (readChunks rest1 0 0) as [r2 rest2].
    simpl in *. f_equal. apply IH; lia.
Qed.

Lemma decodeLoop_encodeFrom scale :
  forall path fuel prevLat prevLng,
    (List.length path <= fuel)%nat ->
    small prevLat -> small prevLng ->
    Forall (fun p => small (Encoder.scaled (lat p))
                     /\ small (Encoder.scaled (lng p))) path ->
    decodeLoop scale fuel (Encoder.encodeFrom prevLat prevLng path)
               prevLat prevLng
    = map (fun p => {| lat := scale (Encoder.scaled (lat p));
                       lng := scale (Encoder.scaled (lng p)) |}) path.
Proof.
  unfold small.
  induction path as [| p path IH];
    intros fuel prevLat prevLng Hfuel Hlat Hlng Hpath.
  - apply decodeLoop_empty.
  - destruct fuel as [| fuel]; [simpl in Hfuel; lia |].
    inversion Hpath as [| ? ? [Hp1 Hp2] Hrest]; subst.
    cbn [Encoder.encodeFrom].
    set (ilat := Encoder.scaled (lat p)) in *.
    set (ilng := Encoder.scaled (lng p)) in *.
    rewrite decodeLoop_step.
    2:{ destruct (encodeValue_nonempty (ilat - prevLat)) as (c & s & ->).
        discriminate. }
    rewrite readChunks_encodeValue by lia.
    rewrite readChunks_encodeValue by lia.
    rewrite !deltaOf_fold by lia.
    replace (prevLat + (ilat - prevLat)) with ilat by lia.
    replace (prevLng + (ilng - prevLng)) with ilng by lia.
    cbn [map]. f_equal.
    apply IH; [simpl in Hfuel; lia | lia | lia | exact Hrest].
Qed.

Lemma length_encodeFrom path :
  forall prevLat prevLng,
    (List.length path
     <= String.length (Encoder.encodeFrom prevLat prevLng path))%nat.
Proof.
  induction path as [| p path IH]; intros prevLat prevLng; [simpl; lia |].
  cbn [Encoder.encodeFrom List.length].
  destruct (encodeValue_nonempty (Encoder.scaled (lat p) - prevLat))
    as (c & s & ->).
  rewrite append_cons. cbn [String.length].
  rewrite !length_append.
  specialize (IH (Encoder.scaled (lat p)) (Encoder.scaled (lng p))). lia.
Qed.

(** What the two decoders make of an encoded path. *)
Lemma decodeLoop_encodePolyline scale path :
  Forall (fun p => small (Encoder.scaled (lat p))
                   /\ small (Encoder.scaled (lng p))) path ->
  decodeLoop scale (String.length (Encoder.encodePolyline path))
             (Encoder.encodePolyline path) 0 0
  = map (fun p => {| lat := scale (Encoder.scaled (lat p));
                     lng := scale (Encoder.scaled (lng p)) |}) path.
Proof.
  intros Hpath. unfold Encoder.encodePolyline.
  apply decodeLoop_encodeFrom; [apply length_encodeFrom | | | exact Hpath];
    unfold small; lia.
Qed.

Lemma decodePolyline_loop encoded :
  decodePolyline encoded
  = decodeLoop (fun n => (inject_Z n / 100000)%Q) (String.length encoded)
               encoded 0 0.
Proof.
  unfold decodePolyline. destruct encoded; reflexivity.
Qed.

(** *** Scaling and rounding *)

Local Open Scope Q_scope.

Lemma scaled_bounds (x : Q) :
  x * 100000 - (1 # 2) < inject_Z (Encoder.scaled x)
  /\ inject_Z (Encoder.scaled x) <= x * 100000 + (1 # 2).
Proof.
  unfold Encoder.scaled, Math_round.
  pose proof (Qfloor_le (x * 100000 + (1 # 2))) as Hle.
  pose proof (Qlt_floor (x * 100000 + (1 # 2))) as Hlt.
  rewrite inject_Z_plus in Hlt.
  change (inject_Z 1) with 1 in Hlt. split; lra.
Qed.

Lemma scaled_close_div (x : Q) :
  Qabs (inject_Z (Encoder.scaled x) / 100000 - x) <= 1 # 100000.
Proof.
  destruct (scaled_bounds x) as [Hlo Hhi].
  apply Qabs_Qle_condition.
  set (n := inject_Z (Encoder.scaled x)) in *. clearbody n.
  assert (Hdiv : n / 100000 == n * (1 # 100000)) by (field; lra).
  rewrite Hdiv. split; lra.
Qed.

(** With the double [1e-5] for [1 / 100000] the result moves by less
    than [2e-14] on a geographic coordinate. *)
Lemma scaled_close_mul (x : Q) :
  -180 <= x <= 180 ->
  Qabs (inject_Z (Encoder.scaled x) * GoogleMaps.E_minus_5 - x)
  <= 1 # 100000.
Proof.
  intros Hx. destruct (scaled_bounds x) as [Hlo Hhi].
  apply Qabs_Qle_condition. unfold GoogleMaps.E_minus_5.
  set (n := inject_Z (Encoder.scaled x)) in *. clearbody n.
  split; lra.
Qed.

Lemma scaled_small (x : Q) :
  -180 <= x <= 180 -> small (Encoder.scaled x).
Proof.
  intros [Hlo Hhi]. unfold small, Encoder.scaled, Math_round.
  assert (H1 : (Qfloor (x * 100000 + (1 # 2))
                <= Qfloor (inject_Z 18000000 + (1 # 2)))%Z).
  { apply Qfloor_resp_le.
    change (inject_Z 18000000) with (18000000 # 1). lra. }
  assert (H2 : (Qfloor (inject_Z (-18000000) + (1 # 2))
                <= Qfloor (x * 100000 + (1 # 2)))%Z).
  { apply Qfloor_resp_le.
    change (inject_Z (-18000000)) with (-18000000 # 1). lra. }
  assert (E1 : Qfloor (inject_Z 18000000 + (1 # 2)) = 18000000%Z)
    by (vm_compute; reflexivity).
  assert (E2 : Qfloor (inject_Z (-18000000) + (1 # 2)) = (-18000000)%Z)
    by (vm_compute; reflexivity).
  rewrite E1 in H1. rewrite E2 in H2. lia.
Qed.

Lemma geographic_small (p : Position) :
  geographic p ->
  small (Encoder.scaled (lat p)) /\ small (Encoder.scaled (lng p)).
Proof.
  intros [[H1 H2] [H3 H4]]. split; apply scaled_small; lra.
Qed.

End PolylineFacts.

(** The decoder of [src/index.js] on the example of the format's
    documentation. *)
Example decode_example :
  decodePolyline "_p~iF~ps|U_ulLnnqC_mqNvxq`@"
  = [ {| lat := 3850000 / 100000; lng := - 12020000 / 100000 |};
      {| lat := 4070000 / 100000; lng := - 12095000 / 100000 |};
      {| lat := 4325200 / 100000; lng := - 12645300 / 100000 |} ].
Proof. vm_compute. reflexivity. Qed.

(** The decoder of [src/utils/googleMaps.js] on the same text: the last
    longitude, [-12645300 * 1e-5], lies a little below [-126.453]. *)
Example googleMaps_decode_example :
  match GoogleMaps.decodePolyline "_p~iF~ps|U_ulLnnqC_mqNvxq`@" with
  | [_; _; p] =>
      - (126453 # 1000) - (1 # 10000000000000) < lng p
      /\ lng p < - (126453 # 1000)
  | _ => False
  end.
Proof. vm_compute. split; reflexivity. Qed.

Example encode_example :
  Encoder.encodePolyline
    [ {| lat := 385 # 10; lng := - (1202 # 10) |};
      {| lat := 407 # 10; lng := - (12095 # 100) |};
      {| lat := 43252 # 1000; lng := - (126453 # 1000) |} ]
  = "_p~iF~ps|U_ulLnnqC_mqNvxq`@"%string.
Proof. vm_compute. reflexivity. Qed.

(** C9: for every path of geographic coordinates (latitude within
    [-90, 90], longitude within [-180, 180]), decoding the encoded path,
    with the decoder of [src/index.js] and with the decoder of
    [src/utils/googleMaps.js], gives a path of the same length whose
    points agree with the original ones within [1e-5] degrees on each
    axis. *)
Theorem polyline_round_trip (path : list Position) :
  Forall geographic path ->
  Forall2 closeTo (decodePolyline (Encoder.encodePolyline path)) path
  /\ Forall2 closeTo
       (GoogleMaps.decodePolyline (Encoder.encodePolyline path)) path.
Proof.
  intros Hgeo.
  assert (Hsmall : Forall (fun p => small (Encoder.scaled (lat p))
                                    /\ small (Encoder.scaled (lng p))) path).
  { eapply Forall_impl; [exact Hgeo |].
    intros p. apply PolylineFacts.geographic_small. }
  rewrite PolylineFacts.decodePolyline_loop. unfold GoogleMaps.decodePolyline.
  rewrite !PolylineFacts.decodeLoop_encodePolyline by exact Hsmall.
  clear Hsmall. split.
  - clear Hgeo. induction path as [| p path IH]; constructor; [| exact IH].
    split; apply PolylineFacts.scaled_close_div.
  - induction Hgeo as [| p path [Hlat Hlng] _ IH];
      constructor; [| exact IH].
    split; apply PolylineFacts.scaled_close_mul; lra.
Qed.

Lemma polyline_round_trip_witness :
  let path :=
    [ {| lat := 385 # 10; lng := - (1202 # 10) |};
      {| lat := 407 # 10; lng := - (12095 # 100) |};
      {| lat := 43252 # 1000; lng := - (126453 # 1000) |} ] in
  Forall geographic path
  /\ Forall2 closeTo (decodePolyline (Encoder.encodePolyline path)) path
  /\ Forall2 closeTo
       (GoogleMaps.decodePolyline (Encoder.encodePolyline path)) path.
Proof.
  intros path.
  assert (Hgeo : Forall geographic path)
    by (repeat constructor; simpl; lra).
  split; [exact Hgeo |].
  exact (polyline_round_trip path Hgeo).
Defined.

(** * Further properties of the code *)

(** ** More on the tracking cycle *)

Section TrackingCycleMore.

Variable distanceMeters : Position -> Position -> Q.
Variable StringToNumber : string -> JsNum.
Variable DateGetTime : string -> option Z.

Local Abbreviation computeBusETA :=
  (computeBusETA distanceMeters StringToNumber DateGetTime).
Local Abbreviation runCycle :=
  (runCycle distanceMeters StringToNumber DateGetTime).
Local Abbreviation runCycles :=
  (runCycles distanceMeters StringToNumber DateGetTime).
Local Abbreviation usableFix := (usableFix StringToNumber).
Local Abbreviation staleFix := (staleFix DateGetTime).
Local Abbreviation atDestination := (atDestination distanceMeters).
Local Abbreviation tracking :=
  (tracking distanceMeters StringToNumber DateGetTime).
Local Abbreviation cycle_paths :=
  (cycle_paths distanceMeters StringToNumber DateGetTime).
Local Abbreviation computeBusETA_invalid :=
  (computeBusETA_invalid distanceMeters StringToNumber DateGetTime).
Local Abbreviation computeBusETA_offline :=
  (computeBusETA_offline distanceMeters StringToNumber DateGetTime).
Local Abbreviation computeBusETA_arrival :=
  (computeBusETA_arrival distanceMeters StringToNumber DateGetTime).
Local Abbreviation computeBusETA_refresh :=
  (computeBusETA_refresh distanceMeters StringToNumber DateGetTime).
Local Abbreviation computeBusETA_countdown :=
  (computeBusETA_countdown distanceMeters StringToNumber DateGetTime).

(** The cycles that suspend on a provider call. *)
Lemma callsProvider_iff now device etaCache :
  callsProvider (computeBusETA now device etaCache) = true
  <-> exists pos,
        tracking now device pos /\ refreshDue now (entryOf etaCache device).
Proof.
  split.
  - intros Hcall.
    destruct (cycle_paths now device)
      as [Hinv | (pos & Hfix & [Hstale | [(Hfresh & Hat) | Htr]])].
    + rewrite (computeBusETA_invalid _ _ _ Hinv) in Hcall. discriminate.
    + rewrite (computeBusETA_offline _ _ _ _ Hfix Hstale) in Hcall.
      discriminate.
    + rewrite (computeBusETA_arrival _ _ _ _ Hfix Hfresh Hat) in Hcall.
      discriminate.
    + exists pos. split; [exact Htr |].
      destruct (refreshDue_dec now (entryOf etaCache device)) as [H | H];
        [exact H |].
      rewrite (computeBusETA_countdown _ _ _ _ Htr H) in Hcall.
      discriminate.
  - intros (pos & Htr & Hdue).
    destruct (computeBusETA_refresh _ _ _ etaCache Htr Hdue)
      as (resume & -> & _).
    reflexivity.
Qed.

(** X1: [computeBusETA] calls the routing provider in tracking cycles
    only: exactly when the fix is usable, fresh and outside the arrival
    radius, and a refresh is due.  Unusable, offline and arrived fixes
    never cost a provider call. *)
Theorem provider_called_only_when_tracking now device etaCache :
  callsProvider (computeBusETA now device etaCache) = true
  <-> exists pos,
        tracking now device pos /\ refreshDue now (entryOf etaCache device).
Proof. apply callsProvider_iff. Qed.

(** The synchronous part of a cycle and its resumption change no entry
    but the bus's own. *)
Lemma cycle_frame now device etaCache k :
  k <> busIdOf device ->
  (forall result etaCache',
     computeBusETA now device etaCache = Return result etaCache' ->
     etaCache' !! k = etaCache !! k)
  /\ (forall start dest resume,
        computeBusETA now device etaCache = Await start dest resume ->
        forall answer etaCacheNow,
          (resume answer etaCacheNow).2 !! k = etaCacheNow !! k).
Proof.
  intros Hk.
  destruct (cycle_paths now device)
    as [Hinv | (pos & Hfix & [Hstale | [(Hfresh & Hat) | Htr]])].
  - rewrite (computeBusETA_invalid _ _ _ Hinv).
    split; [intros ? ? [= _ <-]; reflexivity | discriminate].
  - rewrite (computeBusETA_offline _ _ _ _ Hfix Hstale).
    split; [intros ? ? [= _ <-]; reflexivity | discriminate].
  - rewrite (computeBusETA_arrival _ _ _ _ Hfix Hfresh Hat).
    split; [| discriminate].
    intros ? ? [= _ <-]. now apply lookup_insert_ne.
  - destruct (refreshDue_dec now (entryOf etaCache device)) as [Hdue | Hdue].
    + destruct (computeBusETA_refresh _ _ _ etaCache Htr Hdue)
        as (resume & -> & Hok & Hfail).
      split; [discriminate |].
      intros ? ? ? [= _ _ <-] [g|] etaCacheNow.
      * rewrite Hok. simpl. now apply lookup_insert_ne.
      * now rewrite Hfail.
    + rewrite (computeBusETA_countdown _ _ _ _ Htr Hdue).
      split; [intros ? ? [= _ <-]; reflexivity | discriminate].
Qed.

Lemma runCycle_frame google now device etaCache k :
  k <> busIdOf device ->
  (runCycle google now device etaCache).2 !! k = etaCache !! k.
Proof.
  intros Hk. destruct (cycle_frame now device etaCache k Hk) as [Hret Hres].
  unfold runCycle.
  destruct (computeBusETA now device etaCache)
    as [result etaCache' | start dest resume] eqn:E.
  - now apply (Hret result).
  - now apply (Hres start dest).
Qed.

(** X2: a cycle changes no cache entry but that of its own bus, whatever
    path it takes and whatever the provider answers, also when it is
    resumed on a cache that other cycles have changed meanwhile. *)
Theorem cycle_touches_own_entry_only google now device etaCache k :
  k <> busIdOf device ->
  (runCycle google now device etaCache).2 !! k = etaCache !! k
  /\ (forall start dest resume,
        computeBusETA now device etaCache = Await start dest resume ->
        forall answer etaCacheNow,
          (resume answer etaCacheNow).2 !! k = etaCacheNow !! k).
Proof.
  intros Hk. split; [now apply runCycle_frame |].
  exact (proj2 (cycle_frame now device etaCache k Hk)).
Qed.

(** X3: for a bus without a cache entry a tracking cycle always calls the
    provider; if the call fails, the payload has [etaSeconds] 0, [eta] 0,
    an empty route and status [normal], and nothing is cached. *)
Theorem unknown_bus_forces_refresh now device pos etaCache :
  tracking now device pos ->
  etaCache !! busIdOf device = None ->
  exists resume,
    computeBusETA now device etaCache = Await pos DESTINATION resume
    /\ forall etaCacheNow, exists payload,
         resume None etaCacheNow = (Some payload, etaCacheNow)
         /\ etaSeconds payload = 0
         /\ eta payload = Some 0%Z
         /\ route payload = []
         /\ status payload = normal.
Proof.
  intros Htr Hnone.
  assert (Hentry : entryOf etaCache device = Cache.empty)
    by (unfold entryOf; now rewrite Hnone).
  assert (Hdue : refreshDue now (entryOf etaCache device))
    by (rewrite Hentry; exact I).
  destruct (computeBusETA_refresh _ _ _ etaCache Htr Hdue)
    as (resume & Heq & _ & Hfail).
  exists resume. split; [exact Heq |].
  intros etaCacheNow. eexists. split; [apply Hfail |].
  rewrite Hentry. repeat split.
Qed.

(** X4: as long as the bus's cache entry holds no [previousEta] (as on
    the first refresh of a bus), every payload of a tracking cycle has
    status [normal], whatever ETA the provider answers. *)
Theorem no_previous_eta_reports_normal google now device pos etaCache :
  tracking now device pos ->
  Cache.previousEta (entryOf etaCache device) = None ->
  exists payload,
    (runCycle google now device etaCache).1 = Some payload
    /\ status payload = normal
    /\ message payload = "On the way"%string.
Proof.
  intros Htr Hprev. unfold runCycle.
  assert (Hst : forall b pl e r,
            let p := finalPayload device b pl pos
                       (entryOf etaCache device) e r in
            status p = normal /\ message p = "On the way"%string).
  { intros b pl e r. unfold finalPayload, statusOf. rewrite Hprev.
    split; reflexivity. }
  destruct (refreshDue_dec now (entryOf etaCache device)) as [Hdue | Hdue].
  - destruct (computeBusETA_refresh _ _ _ etaCache Htr Hdue)
      as (resume & -> & Hok & Hfail).
    destruct (google pos DESTINATION) as [g|].
    + rewrite Hok. eexists. split; [reflexivity | apply Hst].
    + rewrite Hfail. eexists. split; [reflexivity | apply Hst].
  - rewrite (computeBusETA_countdown _ _ _ _ Htr Hdue).
    eexists. split; [reflexivity | apply Hst].
Qed.

(** Rewrite the fields of a [finalPayload] in the goal. *)
Ltac payload_fields :=
  match goal with
  | |- context [finalPayload ?d ?b ?pl ?ps ?c ?x ?r] =>
      let H1 := fresh in
      let H2 := fresh in
      let H3 := fresh in
      let H4 := fresh in
      destruct (finalPayload_fields distanceMeters StringToNumber
                  DateGetTime d b pl ps c x r)
        as (H1 & H2 & H3 & H4 & _);
      rewrite ?H1, ?H2, ?H3, ?H4; clear H1 H2 H3 H4
  end.

Lemma runCycles_cons google now device steps etaCache :
  runCycles google ((now, device) :: steps) etaCache
  = (let '(result, etaCache1) := runCycle google now device etaCache in
     let '(results, etaCache2) := runCycles google steps etaCache1 in
     (result :: results, etaCache2)).
Proof. reflexivity. Qed.

Lemma entryOf_lookup etaCache device entry :
  etaCache !! busIdOf device = Some entry -> entryOf etaCache device = entry.
Proof. intros H. unfold entryOf. now rewrite H. Qed.

(** X5: a successful refresh at [now1] followed by a tracking cycle of the
    same bus less than [ETA_REFRESH_MS] later: the second cycle does not
    call the provider, leaves the cache as the refresh wrote it, and
    returns the route of the refresh and its duration minus the seconds
    elapsed, floored at 0. *)
Theorem refresh_then_countdown google now1 now2 device1 device2 pos1 pos2
    etaCache g :
  tracking now1 device1 pos1 ->
  refreshDue now1 (entryOf etaCache device1) ->
  google pos1 DESTINATION = Some g ->
  busIdOf device2 = busIdOf device1 ->
  tracking now2 device2 pos2 ->
  now1 <> 0%Z -> (now2 - now1 < ETA_REFRESH_MS)%Z ->
  exists payload,
    computeBusETA now2 device2 (runCycle google now1 device1 etaCache).2
    = Return (Some payload) (runCycle google now1 device1 etaCache).2
    /\ etaSeconds payload
       = (if isZero (durationSeconds g) then 0
          else Math_max 0 (durationSeconds g
                           - inject_Z (now2 - now1) / 1000))
    /\ route payload = routePoints g.
Proof.
  intros Htr1 Hdue1 Hg Hid Htr2 Hnz Hlt.
  unfold runCycle.
  destruct (computeBusETA_refresh _ _ _ etaCache Htr1 Hdue1)
    as (resume & -> & Hok & _).
  rewrite Hg, Hok. cbn [snd].
  set (entry := {| Cache.etaSeconds := Some (durationSeconds g);
                   Cache.route := Some (routePoints g);
                   Cache.lastEtaUpdate := Some now1;
                   Cache.previousEta :=
                     Cache.etaSeconds (entryOf etaCache device1) |}).
  assert (Hentry : entryOf (<[busIdOf device1 := entry]> etaCache) device2
                   = entry).
  { apply entryOf_lookup. rewrite Hid. apply lookup_insert_eq. }
  assert (Hdue2 : ~ refreshDue now2
                      (entryOf (<[busIdOf device1 := entry]> etaCache)
                         device2)).
  { rewrite Hentry. unfold refreshDue. simpl. lia. }
  rewrite (computeBusETA_countdown _ _ _ _ Htr2 Hdue2).
  eexists. split; [reflexivity |]. rewrite Hentry.
  payload_fields. unfold applyCountdown, cachedRoute. simpl.
  rewrite (proj2 (Z.eqb_neq now1 0) Hnz), orb_false_r. auto.
Qed.

(** The bus [b] has a cache entry refreshed at some time not before
    [since]. *)
Lemma window_step google since b now device etaCache :
  (0 < since)%Z -> (since <= now < since + ETA_REFRESH_MS)%Z ->
  (exists entry t, etaCache !! b = Some entry
                   /\ Cache.lastEtaUpdate entry = Some t
                   /\ (since <= t)%Z) ->
  exists entry t,
    (runCycle google now device etaCache).2 !! b = Some entry
    /\ Cache.lastEtaUpdate entry = Some t
    /\ (since <= t)%Z.
Proof.
  intros Hpos Hnow (entry & t & Hb & Ht & Hle).
  destruct (decide (b = busIdOf device)) as [-> | Hne].
  2:{ rewrite (runCycle_frame google now device etaCache b Hne). eauto. }
  pose proof (entryOf_lookup _ _ _ Hb) as Hentry.
  unfold runCycle.
  destruct (cycle_paths now device)
    as [Hinv | (pos & Hfix & [Hstale | [(Hfresh & Hat) | Htr]])].
  - rewrite (computeBusETA_invalid _ _ _ Hinv). eauto.
  - rewrite (computeBusETA_offline _ _ _ _ Hfix Hstale). eauto.
  - rewrite (computeBusETA_arrival _ _ _ _ Hfix Hfresh Hat). cbn [snd].
    rewrite lookup_insert_eq. eexists _, now. repeat split. lia.
  - assert (Hdue : ~ refreshDue now (entryOf etaCache device)).
    { rewrite Hentry. unfold refreshDue. rewrite Ht. lia. }
    rewrite (computeBusETA_countdown _ _ _ _ Htr Hdue). eauto.
Qed.

Lemma window_steps google since b steps :
  (0 < since)%Z ->
  Forall (fun step : Z * Device.t =>
            (since <= step.1 < since + ETA_REFRESH_MS)%Z) steps ->
  forall etaCache,
    (exists entry t, etaCache !! b = Some entry
                     /\ Cache.lastEtaUpdate entry = Some t
                     /\ (since <= t)%Z) ->
    exists entry t,
      (runCycles google steps etaCache).2 !! b = Some entry
      /\ Cache.lastEtaUpdate entry = Some t
      /\ (since <= t)%Z.
Proof.
  intros Hpos Hsteps.
  induction Hsteps as [| [now device] steps Hnow _ IH]; intros etaCache H.
  - exact H.
  - rewrite runCycles_cons.
    pose proof (window_step google since b now device etaCache Hpos Hnow H)
      as H1.
    destruct (runCycle google now device etaCache) as [result etaCache1].
    specialize (IH etaCache1 H1).
    destruct (runCycles google steps etaCache1) as [results etaCache2].
    exact IH.
Qed.

(** X6: the cache limits the rate of provider calls.  When polls run one
    after the other and a bus's entry was refreshed at [since], none of
    its cycles within the next [ETA_REFRESH_MS] calls the provider,
    whatever the cycles of this and of other buses before it did. *)
Theorem no_provider_call_within_interval google since steps etaCache entry
    before now device after :
  (0 < since)%Z ->
  etaCache !! busIdOf device = Some entry ->
  Cache.lastEtaUpdate entry = Some since ->
  Forall (fun step : Z * Device.t =>
            (since <= step.1 < since + ETA_REFRESH_MS)%Z) steps ->
  steps = before ++ (now, device) :: after ->
  callsProvider
    (computeBusETA now device (runCycles google before etaCache).2) = false.
Proof.
  intros Hpos Hb Ht Hsteps ->.
  apply Forall_app in Hsteps as [Hbefore Hrest].
  apply Forall_cons in Hrest as [Hnow _]. cbn [fst] in Hnow.
  destruct (window_steps google since (busIdOf device) before Hpos Hbefore
              etaCache)
    as (entry' & t & Hb' & Ht' & Hle).
  { exists entry, since. repeat split; auto. lia. }
  destruct (callsProvider _) eqn:Hcall; [| reflexivity].
  apply callsProvider_iff in Hcall as (pos & _ & Hdue).
  rewrite (entryOf_lookup _ _ _ Hb') in Hdue.
  unfold refreshDue in Hdue. rewrite Ht' in Hdue. lia.
Qed.

Lemma Math_round_bounds (x : Q) :
  inject_Z (Math_round x) <= x + (1 # 2)
  /\ x + (1 # 2) < inject_Z (Math_round x) + 1.
Proof.
  unfold Math_round.
  pose proof (Qfloor_le (x + (1 # 2))) as Hle.
  pose proof (Qlt_floor (x + (1 # 2))) as Hlt.
  rewrite inject_Z_plus in Hlt. change (inject_Z 1) with 1 in Hlt.
  split; lra.
Qed.

(** X7: in every payload of a tracking cycle the [eta] in minutes is
    [etaSeconds] rounded to the nearest minute: it is never [null] and
    differs from [etaSeconds] by at most half a minute. *)
Theorem eta_minutes_round_etaSeconds google now device pos etaCache :
  tracking now device pos ->
  exists payload minutes,
    (runCycle google now device etaCache).1 = Some payload
    /\ eta payload = Some minutes
    /\ inject_Z minutes * 60 - 30 <= etaSeconds payload
    /\ etaSeconds payload < inject_Z minutes * 60 + 30.
Proof.
  intros Htr. unfold runCycle.
  assert (Hp : forall b pl c e r,
            exists minutes,
              eta (finalPayload device b pl pos c e r) = Some minutes
              /\ inject_Z minutes * 60 - 30
                 <= etaSeconds (finalPayload device b pl pos c e r)
              /\ etaSeconds (finalPayload device b pl pos c e r)
                 < inject_Z minutes * 60 + 30).
  { intros b pl c e r. exists (Math_round (e / 60)). payload_fields.
    split; [reflexivity |].
    destruct (Math_round_bounds (e / 60)) as [H1 H2].
    assert (He : e == e / 60 * 60) by field.
    set (y := e / 60) in *. clearbody y.
    set (m := inject_Z (Math_round y)) in *. clearbody m.
    split; lra. }
  assert (Hfin : forall b pl c e r,
            exists payload minutes,
              Some (finalPayload device b pl pos c e r) = Some payload
              /\ eta payload = Some minutes
              /\ inject_Z minutes * 60 - 30 <= etaSeconds payload
              /\ etaSeconds payload < inject_Z minutes * 60 + 30).
  { intros b pl c e r. destruct (Hp b pl c e r) as (m & H).
    exists (finalPayload device b pl pos c e r), m.
    split; [reflexivity | exact H]. }
  destruct (refreshDue_dec now (entryOf etaCache device)) as [Hdue | Hdue].
  - destruct (computeBusETA_refresh _ _ _ etaCache Htr Hdue)
      as (resume & -> & Hok & Hfail).
    destruct (google pos DESTINATION) as [g|].
    + rewrite Hok. cbn [fst].
      apply Hfin.
    + rewrite Hfail. cbn [fst].
      apply Hfin.
  - rewrite (computeBusETA_countdown _ _ _ _ Htr Hdue). cbn [fst].
    apply Hfin.
Qed.

End TrackingCycleMore.

Lemma cycle_touches_own_entry_only_witness :
  let other : BusId := Some "BUS_002"%string in
  let etaCache : gmap BusId Cache.t := {[other := Sample.entry120]} in
  other <> busIdOf Sample.movingBus
  /\ (Sample.runCycle Sample.google120 Sample.t0 Sample.movingBus
        etaCache).2 !! other
     = etaCache !! other.
Proof.
  intros other etaCache.
  assert (H : other <> busIdOf Sample.movingBus) by discriminate.
  split; [exact H |].
  exact (proj1 (cycle_touches_own_entry_only Sample.distanceMeters
                  Sample.StringToNumber Sample.DateGetTime Sample.google120
                  Sample.t0 Sample.movingBus etaCache other H)).
Defined.

Lemma unknown_bus_forces_refresh_witness :
  Sample.tracking Sample.t0 Sample.movingBus Sample.kigali
  /\ (∅ : gmap BusId Cache.t) !! busIdOf Sample.movingBus = None
  /\ exists resume,
       Sample.computeBusETA Sample.t0 Sample.movingBus ∅
       = Await Sample.kigali DESTINATION resume
       /\ forall etaCacheNow, exists payload,
            resume None etaCacheNow = (Some payload, etaCacheNow)
            /\ etaSeconds payload = 0
            /\ eta payload = Some 0%Z
            /\ route payload = []
            /\ status payload = normal.
Proof.
  assert (H : Sample.tracking Sample.t0 Sample.movingBus Sample.kigali)
    by (apply SampleFacts.tracking_kigali; unfold Sample.t0; lia).
  split; [exact H |]. split; [reflexivity |].
  exact (unknown_bus_forces_refresh _ _ _ _ _ _ ∅ H eq_refl).
Defined.

Lemma no_previous_eta_reports_normal_witness :
  let etaCache : gmap BusId Cache.t :=
    {[Sample.busKey := Sample.entry120]} in
  Sample.tracking (Sample.t0 + 40000) Sample.movingBus Sample.kigali
  /\ Cache.previousEta (entryOf etaCache Sample.movingBus) = None
  /\ exists payload,
       (Sample.runCycle Sample.google120 (Sample.t0 + 40000)
          Sample.movingBus etaCache).1 = Some payload
       /\ status payload = normal
       /\ message payload = "On the way"%string.
Proof.
  intros etaCache.
  assert (H : Sample.tracking (Sample.t0 + 40000) Sample.movingBus
                Sample.kigali)
    by (apply SampleFacts.tracking_kigali; unfold Sample.t0; lia).
  split; [exact H |]. split; [reflexivity |].
  exact (no_previous_eta_reports_normal _ _ _ Sample.google120 _ _ _
           etaCache H eq_refl).
Defined.

Lemma refresh_then_countdown_witness :
  let first :=
    Sample.runCycle Sample.google120 Sample.t0 Sample.movingBus ∅ in
  Sample.tracking Sample.t0 Sample.movingBus Sample.kigali
  /\ Sample.tracking (Sample.t0 + 10000) Sample.stoppedBus Sample.kigali
  /\ exists payload,
       Sample.computeBusETA (Sample.t0 + 10000) Sample.stoppedBus first.2
       = Return (Some payload) first.2
       /\ etaSeconds payload
          = (if isZero (durationSeconds Sample.answer120) then 0
             else Math_max 0
                    (durationSeconds Sample.answer120
                     - inject_Z (Sample.t0 + 10000 - Sample.t0) / 1000))
       /\ route payload = routePoints Sample.answer120.
Proof.
  intros first.
  assert (H1 : Sample.tracking Sample.t0 Sample.movingBus Sample.kigali)
    by (apply SampleFacts.tracking_kigali; unfold Sample.t0; lia).
  assert (H2 : Sample.tracking (Sample.t0 + 10000) Sample.stoppedBus
                 Sample.kigali)
    by (apply SampleFacts.tracking_kigali; unfold Sample.t0; lia).
  split; [exact H1 |]. split; [exact H2 |].
  refine (refresh_then_countdown Sample.distanceMeters Sample.StringToNumber
            Sample.DateGetTime Sample.google120 Sample.t0
            (Sample.t0 + 10000) Sample.movingBus Sample.stoppedBus
            Sample.kigali Sample.kigali ∅ Sample.answer120
            H1 I eq_refl eq_refl H2 _ _).
  - unfold Sample.t0. lia.
  - unfold Sample.t0, ETA_REFRESH_MS. lia.
Defined.

Lemma no_provider_call_within_interval_witness :
  let etaCache : gmap BusId Cache.t :=
    {[Sample.busKey := Sample.entry120]} in
  let before := [(Sample.t0 + 10000, Sample.movingBus)%Z] in
  let steps := before ++ [(Sample.t0 + 20000, Sample.stoppedBus)%Z] in
  (0 < Sample.t0)%Z
  /\ etaCache !! busIdOf Sample.stoppedBus = Some Sample.entry120
  /\ Forall (fun step : Z * Device.t =>
               (Sample.t0 <= step.1 < Sample.t0 + ETA_REFRESH_MS)%Z) steps
  /\ callsProvider
       (Sample.computeBusETA (Sample.t0 + 20000) Sample.stoppedBus
          (runCycles Sample.distanceMeters Sample.StringToNumber
             Sample.DateGetTime Sample.google120 before etaCache).2)
     = false.
Proof.
  intros etaCache before steps.
  assert (Hpos : (0 < Sample.t0)%Z) by (unfold Sample.t0; lia).
  assert (Hsteps : Forall (fun step : Z * Device.t =>
                     (Sample.t0 <= step.1 < Sample.t0 + ETA_REFRESH_MS)%Z)
                     steps)
    by (repeat constructor; unfold Sample.t0, ETA_REFRESH_MS; simpl; lia).
  split; [exact Hpos |]. split; [reflexivity |]. split; [exact Hsteps |].
  exact (no_provider_call_within_interval Sample.distanceMeters
           Sample.StringToNumber Sample.DateGetTime Sample.google120
           Sample.t0 steps etaCache Sample.entry120 before
           (Sample.t0 + 20000) Sample.stoppedBus [] Hpos eq_refl eq_refl
           Hsteps eq_refl).
Defined.

Lemma eta_minutes_round_etaSeconds_witness :
  Sample.tracking Sample.t0 Sample.movingBus Sample.kigali
  /\ exists payload minutes,
       (Sample.runCycle Sample.google120 Sample.t0 Sample.movingBus ∅).1
       = Some payload
       /\ eta payload = Some minutes
       /\ inject_Z minutes * 60 - 30 <= etaSeconds payload
       /\ etaSeconds payload < inject_Z minutes * 60 + 30.
Proof.
  assert (H : Sample.tracking Sample.t0 Sample.movingBus Sample.kigali)
    by (apply SampleFacts.tracking_kigali; unfold Sample.t0; lia).
  split; [exact H |].
  exact (eta_minutes_round_etaSeconds _ _ _ Sample.google120 _ _ _ ∅ H).
Defined.

(** X8: between two refreshes the countdown never rises and never exceeds
    the cached ETA: for a cached ETA [e >= 0] fetched at [t], the value at
    a later time is at most the value at an earlier one, at most [e], and
    [0] once [e] seconds have passed. *)
Theorem applyCountdown_counts_down e t now1 now2 :
  0 <= e -> (t <= now1 <= now2)%Z ->
  applyCountdown (Some e) (Some t) now2
  <= applyCountdown (Some e) (Some t) now1
  /\ applyCountdown (Some e) (Some t) now1 <= e
  /\ (e * 1000 <= inject_Z (now2 - t) ->
      applyCountdown (Some e) (Some t) now2 == 0).
Proof.
  intros He [Ht1 H12]. unfold applyCountdown.
  destruct (isZero e || (t =? 0)%Z);
    [split; [lra | split; [lra | intros _; lra]] |].
  assert (H1 : 0 <= inject_Z (now1 - t))
    by (change 0 with (inject_Z 0); rewrite <- Zle_Qle; lia).
  assert (H2 : inject_Z (now1 - t) <= inject_Z (now2 - t))
    by (rewrite <- Zle_Qle; lia).
  set (a1 := inject_Z (now1 - t)) in *. set (a2 := inject_Z (now2 - t)) in *.
  clearbody a1 a2.
  assert (E1 : a1 / 1000 == a1 * (1 # 1000)) by field.
  assert (E2 : a2 / 1000 == a2 * (1 # 1000)) by field.
  set (d1 := a1 / 1000) in *. set (d2 := a2 / 1000) in *.
  clearbody d1 d2.
  unfold Math_max.
  destruct (Qle_bool 0 (e - d1)) eqn:B1; destruct (Qle_bool 0 (e - d2)) eqn:B2;
    try apply Qle_bool_iff in B1; try apply Qle_bool_iff in B2;
    try apply Qle_bool_false in B1; try apply Qle_bool_false in B2;
    (split; [lra | split; [lra | intros Hz; lra]]).
Qed.

Lemma applyCountdown_counts_down_witness :
  0 <= 120 /\ (1000 <= 11000 <= 121000)%Z
  /\ applyCountdown (Some 120) (Some 1000%Z) 121000
     <= applyCountdown (Some 120) (Some 1000%Z) 11000
  /\ applyCountdown (Some 120) (Some 1000%Z) 11000 <= 120
  /\ (120 * 1000 <= inject_Z (121000 - 1000) ->
      applyCountdown (Some 120) (Some 1000%Z) 121000 == 0).
Proof.
  assert (H1 : 0 <= 120) by lra.
  assert (H2 : (1000 <= 11000 <= 121000)%Z) by lia.
  split; [exact H1 |]. split; [exact H2 |].
  exact (applyCountdown_counts_down 120 1000 11000 121000 H1 H2).
Defined.

(** ** The provider's answers and the cycle *)

Section DirectionsAnswers.

Variable distanceMeters : Position -> Position -> Q.
Variable StringToNumber : string -> JsNum.
Variable DateGetTime : string -> option Z.

Local Abbreviation runCycle :=
  (runCycle distanceMeters StringToNumber DateGetTime).
Local Abbreviation tracking :=
  (tracking distanceMeters StringToNumber DateGetTime).
Local Abbreviation computeBusETA_refresh :=
  (computeBusETA_refresh distanceMeters StringToNumber DateGetTime).

Lemma payload_of_final device b pl pos c e r :
  etaSeconds (finalPayload device b pl pos c e r) = e
  /\ route (finalPayload device b pl pos c e r) = r.
Proof.
  destruct (finalPayload_fields distanceMeters StringToNumber DateGetTime
              device b pl pos c e r) as (H1 & H2 & _).
  auto.
Qed.

(** X9: when the Directions request of a due refresh fails, or is
    answered with a status other than OK or without a route,
    [getGoogleRouteData] gives [null] and the cycle serves the cached ETA
    and route and leaves the cache as it is. *)
Theorem directions_failure_serves_cache response now device pos etaCache :
  tracking now device pos ->
  refreshDue now (entryOf etaCache device) ->
  (response = Failed
   \/ exists data,
        response = Answered data
        /\ (Directions.status data <> "OK"%string
            \/ Directions.routes data = [])) ->
  exists payload,
    runCycle (fun _ _ => getGoogleRouteData response) now device etaCache
    = (Some payload, etaCache)
    /\ etaSeconds payload = cachedEta (entryOf etaCache device)
    /\ route payload = cachedRoute (entryOf etaCache device).
Proof.
  intros Htr Hdue Hbad.
  assert (Hnone : getGoogleRouteData response = None).
  { destruct Hbad as [-> | (data & -> & [Hst | Hro])]; [reflexivity | |].
    - unfold getGoogleRouteData.
      destruct (String.eqb_spec (Directions.status data) "OK");
        [contradiction | reflexivity].
    - unfold getGoogleRouteData. rewrite Hro. simpl.
      now rewrite andb_false_r. }
  unfold runCycle.
  destruct (computeBusETA_refresh _ _ _ etaCache Htr Hdue)
    as (resume & -> & _ & Hfail).
  rewrite Hnone, Hfail. eexists. split; [reflexivity |].
  apply payload_of_final.
Qed.

(** X10: when the Directions request of a due refresh is answered OK, the
    ETA that reaches the payload and the cache is the first leg's
    [duration_in_traffic] when the leg has one, otherwise its [duration];
    the route is the decoded overview polyline of the first route; the
    entry's [previousEta] becomes the ETA that was cached before. *)
Theorem directions_answer_reaches_cache data first rest leg legs points
    value now device pos etaCache :
  tracking now device pos ->
  refreshDue now (entryOf etaCache device) ->
  Directions.status data = "OK"%string ->
  Directions.routes data = first :: rest ->
  Directions.legs first = leg :: legs ->
  Directions.overview_polyline first = Some (Some points) ->
  (Directions.duration_in_traffic leg = Some value
   \/ (Directions.duration_in_traffic leg = None
       /\ Directions.duration leg = Some value)) ->
  exists payload,
    runCycle (fun _ _ => getGoogleRouteData (Answered data)) now device
             etaCache
    = (Some payload,
       <[busIdOf device :=
           {| Cache.etaSeconds := Some value;
              Cache.route := Some (decodePolyline points);
              Cache.lastEtaUpdate := Some now;
              Cache.previousEta :=
                Cache.etaSeconds (entryOf etaCache device) |}]> etaCache)
    /\ etaSeconds payload = value
    /\ route payload = decodePolyline points.
Proof.
  intros Htr Hdue Hst Hro Hle Hpo Hval.
  assert (Hsome : getGoogleRouteData (Answered data)
                  = Some {| durationSeconds := value;
                            routePoints := decodePolyline points |}).
  { unfold getGoogleRouteData. rewrite Hst, Hro, Hpo, Hle. simpl.
    destruct Hval as [-> | [-> ->]]; reflexivity. }
  unfold runCycle.
  destruct (computeBusETA_refresh _ _ _ etaCache Htr Hdue)
    as (resume & -> & Hok & _).
  rewrite Hsome, Hok. eexists. split; [reflexivity |].
  apply payload_of_final.
Qed.

End DirectionsAnswers.

Lemma directions_failure_serves_cache_witness :
  let etaCache : gmap BusId Cache.t :=
    {[Sample.busKey := Sample.entry120]} in
  let denied : Directions.t :=
    {| Directions.status := "REQUEST_DENIED"; Directions.routes := [] |} in
  Sample.tracking (Sample.t0 + 40000) Sample.movingBus Sample.kigali
  /\ refreshDue (Sample.t0 + 40000) (entryOf etaCache Sample.movingBus)
  /\ exists payload,
       Sample.runCycle (fun _ _ => getGoogleRouteData (Answered denied))
         (Sample.t0 + 40000) Sample.movingBus etaCache
       = (Some payload, etaCache)
       /\ etaSeconds payload = cachedEta (entryOf etaCache Sample.movingBus)
       /\ route payload = cachedRoute (entryOf etaCache Sample.movingBus).
Proof.
  intros etaCache denied.
  assert (H : Sample.tracking (Sample.t0 + 40000) Sample.movingBus
                Sample.kigali)
    by (apply SampleFacts.tracking_kigali; unfold Sample.t0; lia).
  assert (Hdue : refreshDue (Sample.t0 + 40000)
                   (entryOf etaCache Sample.movingBus))
    by (vm_compute; right; discriminate).
  split; [exact H |]. split; [exact Hdue |].
  refine (directions_failure_serves_cache Sample.distanceMeters
            Sample.StringToNumber Sample.DateGetTime (Answered denied)
            (Sample.t0 + 40000) Sample.movingBus Sample.kigali etaCache
            H Hdue _).
  right. exists denied. split; [reflexivity |]. left. discriminate.
Defined.

Lemma directions_answer_reaches_cache_witness :
  let leg : Directions.Leg :=
    {| Directions.duration_in_traffic := Some 540;
       Directions.duration := Some 480 |} in
  let first : Directions.Route :=
    {| Directions.legs := [leg];
       Directions.overview_polyline := Some (Some "_p~iF~ps|U"%string) |} in
  let data : Directions.t :=
    {| Directions.status := "OK"; Directions.routes := [first] |} in
  Sample.tracking Sample.t0 Sample.movingBus Sample.kigali
  /\ refreshDue Sample.t0 (entryOf ∅ Sample.movingBus)
  /\ exists payload,
       Sample.runCycle (fun _ _ => getGoogleRouteData (Answered data))
         Sample.t0 Sample.movingBus ∅
       = (Some payload,
          <[busIdOf Sample.movingBus :=
              {| Cache.etaSeconds := Some 540;
                 Cache.route := Some (decodePolyline "_p~iF~ps|U");
                 Cache.lastEtaUpdate := Some Sample.t0;
                 Cache.previousEta :=
                   Cache.etaSeconds (entryOf ∅ Sample.movingBus) |}]> ∅)
       /\ etaSeconds payload = 540
       /\ route payload = decodePolyline "_p~iF~ps|U".
Proof.
  intros leg first data.
  assert (H : Sample.tracking Sample.t0 Sample.movingBus Sample.kigali)
    by (apply SampleFacts.tracking_kigali; unfold Sample.t0; lia).
  split; [exact H |]. split; [exact I |].
  exact (directions_answer_reaches_cache Sample.distanceMeters
           Sample.StringToNumber Sample.DateGetTime data first [] leg []
           "_p~iF~ps|U" 540 Sample.t0 Sample.movingBus Sample.kigali ∅
           H I eq_refl eq_refl eq_refl eq_refl (or_introl eq_refl)).
Defined.

(** ** [src/utils/googleMaps.js] *)

Lemma decodeLoop_nonempty scale fuel c rest lat0 lng0 :
  decodeLoop scale (S fuel) (String c rest) lat0 lng0 <> [].
Proof.
  rewrite PolylineFacts.decodeLoop_step by discriminate.
  destruct (readChunks (String c rest) 0 0) as [r1 rest1].
  destruct (readChunks rest1 0 0) as [r2 rest2]. discriminate.
Qed.


(** X12: [getETAFromGoogle] never reports a duration or a distance of 0:
    each is [null] or a non-zero number, and both are [null] when there
    is no API key or the request fails. *)
Theorem getETAFromGoogle_never_zero apiKey response :
  let answer := GoogleMapsApi.getETAFromGoogle apiKey response in
  (forall v, GoogleMapsApi.duration answer = Some v -> ~ v == 0)
  /\ (forall v, GoogleMapsApi.distance answer = Some v -> ~ v == 0)
  /\ ((apiKey = None \/ apiKey = Some ""%string \/ response = Failed) ->
      GoogleMapsApi.duration answer = None
      /\ GoogleMapsApi.distance answer = None).
Proof.
  assert (Htruthy : forall x v, GoogleMapsApi.truthy x = Some v -> ~ v == 0).
  { intros [x|] v; simpl; [| discriminate].
    destruct (isZero x) eqn:E; [discriminate |].
    intros [= <-]. now apply isZero_false. }
  assert (Hor : forall x y v,
            (forall w, y = Some w -> ~ w == 0) ->
            GoogleMapsApi.orNumber x y = Some v -> ~ v == 0).
  { intros x y v Hy. unfold GoogleMapsApi.orNumber.
    destruct (GoogleMapsApi.truthy x) as [w|] eqn:E.
    - intros [= <-]. now apply (Htruthy x).
    - apply Hy. }
  unfold GoogleMapsApi.getETAFromGoogle, orElse.
  destruct apiKey as [key|]; [| simpl; intuition discriminate].
  destruct (String.eqb_spec key "") as [-> | Hne];
    [simpl; intuition discriminate |].
  destruct response as [| data]; [simpl; intuition discriminate |].
  destruct (String.eqb (GoogleMapsApi.Matrix.status data) "OK");
    [| simpl; intuition discriminate].
  destruct (GoogleMapsApi.Matrix.rows data) as [| row rows];
    [simpl; intuition discriminate |].
  destruct (GoogleMapsApi.Matrix.elements row) as [| element elements];
    [simpl; intuition discriminate |].
  destruct (String.eqb (GoogleMapsApi.Element.status element) "OK");
    [| simpl; intuition discriminate].
  cbn [GoogleMapsApi.duration GoogleMapsApi.distance].
  split; [| split].
  - intros v. apply Hor. intros w. apply Hor. discriminate.
  - intros v. apply Hor. discriminate.
  - intros [H | [[= H] | H]]; [discriminate | contradiction | discriminate].
Qed.

(** ** More on the polyline decoders *)

Lemma decodeLoop_length scale fuel :
  forall encoded lat0 lng0,
    (2 * length (decodeLoop scale fuel encoded lat0 lng0)
     <= String.length encoded + 1)%nat.
Proof.
  induction fuel as [| fuel IH]; intros encoded lat0 lng0; [simpl; lia |].
  destruct encoded as [| c s]; [simpl; lia |].
  rewrite PolylineFacts.decodeLoop_step by discriminate.
  pose proof (PolylineFacts.readChunks_length (String c s) 0 0) as H1.
  destruct (readChunks (String c s) 0 0) as [r1 rest1].
  pose proof (PolylineFacts.readChunks_length rest1 0 0) as H2.
  destruct (readChunks rest1 0 0) as [r2 rest2].
  cbn [snd] in H1, H2. cbn [length].
  destruct rest2 as [| c2 s2].
  - rewrite PolylineFacts.decodeLoop_empty. simpl. lia.
  - specialize (IH (String c2 s2)
                  (lat0 + deltaOf r1)%Z (lng0 + deltaOf r2)%Z).
    simpl in *. lia.
Qed.

(** X13: both decoders make at most one point of every two characters
    (rounded up), and at least one point of every non-empty text: a text
    that breaks off inside a point still yields that point. *)
Theorem decodePolyline_length encoded :
  (2 * length (decodePolyline encoded) <= String.length encoded + 1)%nat
  /\ (2 * length (GoogleMaps.decodePolyline encoded)
      <= String.length encoded + 1)%nat
  /\ (encoded <> ""%string ->
      decodePolyline encoded <> []
      /\ GoogleMaps.decodePolyline encoded <> []).
Proof.
  rewrite PolylineFacts.decodePolyline_loop. unfold GoogleMaps.decodePolyline.
  split; [apply decodeLoop_length |]. split; [apply decodeLoop_length |].
  intros Hne. destruct encoded as [| c s]; [contradiction |].
  split; apply decodeLoop_nonempty.
Qed.

Lemma getETAFromGoogle_never_zero_witness :
  let element : GoogleMapsApi.Element.t :=
    {| GoogleMapsApi.Element.status := "OK";
       GoogleMapsApi.Element.duration_in_traffic := Some 0;
       GoogleMapsApi.Element.duration := Some 0;
       GoogleMapsApi.Element.distance := Some 4100 |} in
  let data : GoogleMapsApi.Matrix.t :=
    {| GoogleMapsApi.Matrix.status := "OK";
       GoogleMapsApi.Matrix.rows :=
         [ {| GoogleMapsApi.Matrix.elements := [element] |} ] |} in
  let answer :=
    GoogleMapsApi.getETAFromGoogle (Some "key"%string) (Answered data) in
  GoogleMapsApi.duration answer = None
  /\ (forall v, GoogleMapsApi.distance answer = Some v -> ~ v == 0).
Proof.
  intros element data answer. split; [reflexivity |].
  exact (proj1 (proj2 (getETAFromGoogle_never_zero (Some "key"%string)
                         (Answered data)))).
Defined.

Lemma decodePolyline_length_witness :
  "_p~iF"%string <> ""%string
  /\ decodePolyline "_p~iF" <> []
  /\ GoogleMaps.decodePolyline "_p~iF" <> [].
Proof.
  assert (H : "_p~iF"%string <> ""%string) by discriminate.
  split; [exact H |].
  exact (proj2 (proj2 (decodePolyline_length "_p~iF")) H).
Defined.

(** ** More on [src/utils/smoothing.js] *)

Module BusSmoothingFacts.
Import Smoothing Bounds.

Lemma gain_lt_1 (p r : Q) : 0 <= p -> 0 < r -> p / (p + r) < 1.
Proof. intros Hp Hr. apply Qlt_shift_div_r; lra. Qed.

Lemma gain_times (p r : Q) : 0 <= p -> 0 < r -> p / (p + r) * (p + r) == p.
Proof. intros Hp Hr. field. lra. Qed.

Lemma kalman_step (v p m q r : Q) :
  0 <= p -> 0 <= q -> 0 < r ->
  let k := kalmanFilter1D (Some {| value := v; errorCovariance := p |})
             m q r in
  between v m (value k)
  /\ 0 <= errorCovariance k
  /\ errorCovariance k < r
  /\ errorCovariance k <= p + q.
Proof.
  intros Hp Hq Hr. cbn [kalmanFilter1D value errorCovariance].
  destruct (SmoothingFacts.gain_bounds (p + q) r) as [Hg0 Hg1]; [lra | lra |].
  pose proof (gain_lt_1 (p + q) r ltac:(lra) Hr) as Hg.
  pose proof (gain_times (p + q) r ltac:(lra) Hr) as Hgt.
  set (g := (p + q) / (p + q + r)) in *. clearbody g.
  unfold between.
  split; [split; intros H; split; nra |].
  split; [nra |]. split; [| nra].
  assert (Hgr : g * r < r) by nra. nra.
Qed.

Lemma ema_step (previous new alpha : Q) :
  0 <= alpha <= 1 ->
  between previous new
    (exponentialMovingAverage (Some previous) new alpha).
Proof.
  intros [Ha0 Ha1]. cbn [exponentialMovingAverage].
  unfold between. split; intros H; split; nra.
Qed.

Lemma between_within (lo hi x y z : Q) :
  between x y z -> lo <= x <= hi -> lo <= y <= hi -> lo <= z <= hi.
Proof.
  intros [H1 H2] Hx Hy.
  destruct (Qlt_le_dec x y) as [Hlt | Hle].
  - assert (Hxy : x <= y) by lra. specialize (H1 Hxy). lra.
  - specialize (H2 Hle). lra.
Qed.

Lemma clamp_within (hi r : Q) :
  0 <= hi -> 0 <= Math_max 0 (Math_min hi r) <= hi.
Proof.
  intros Hhi. unfold Math_max, Math_min.
  destruct (Qle_bool hi r) eqn:E1.
  - apply Qle_bool_iff in Hhi. rewrite Hhi. apply Qle_bool_iff in Hhi. lra.
  - apply Qle_bool_false in E1.
    destruct (Qle_bool 0 r) eqn:E2.
    + apply Qle_bool_iff in E2. lra.
    + lra.
Qed.

Lemma Math_max_within (hi x : Q) : 0 <= x <= hi -> Math_max 0 x = x.
Proof. intros [H _]. now apply Math_max_r. Qed.

Lemma kalman_within (hi : Q) filter m q r :
  0 <= q -> 0 < r ->
  filterWithin hi filter -> 0 <= m <= hi ->
  filterWithin hi (Some (kalmanFilter1D filter m q r)).
Proof.
  intros Hq Hr Hf Hm. destruct filter as [[v p]|].
  - cbn [filterWithin value errorCovariance] in Hf. destruct Hf as [Hv Hp].
    destruct (kalman_step v p m q r Hp Hq Hr) as (Hb & Hc & _).
    cbv zeta in Hb, Hc. unfold filterWithin. split; [| exact Hc].
    exact (between_within 0 hi v m _ Hb Hv Hm).
  - simpl. split; lra.
Qed.

Lemma smoothSpeed_within state newSpeed :
  speedWithin state ->
  speedWithin (Some (BusSmoothing.smoothSpeed state newSpeed)).
Proof.
  intros Hok.
  assert (Hkeep : speedWithin
            (Some match state with
                  | Some st => st
                  | None => {| BusSmoothing.SpeedState.speed := 0;
                               BusSmoothing.SpeedState.speedFilter := None;
                               BusSmoothing.SpeedState.speedEMA := 0 |}
                  end)).
  { destruct state; [exact Hok |]. simpl. repeat split; lra. }
  unfold BusSmoothing.smoothSpeed.
  destruct newSpeed as [| [| s]]; try exact Hkeep.
  pose proof (clamp_within 120 s ltac:(lra)) as Hc.
  set (clamped := Math_max 0 (Math_min 120 s)) in *. clearbody clamped.
  assert (Hf : filterWithin 120
                 (match state with
                  | Some st => BusSmoothing.SpeedState.speedFilter st
                  | None => None
                  end)).
  { destruct state as [st|]; [apply Hok | exact I]. }
  pose proof (kalman_within 120 _ clamped (5 # 10) 2 ltac:(lra) ltac:(lra)
                Hf Hc) as Hk.
  set (k := kalmanFilter1D _ clamped (5 # 10) 2) in *. clearbody k.
  assert (Hprev : 0 <= match state with
                       | Some st => BusSmoothing.SpeedState.speedEMA st
                       | None => clamped
                       end <= 120).
  { destruct state as [st|]; [apply Hok | exact Hc]. }
  set (previous := match state with
                   | Some st => BusSmoothing.SpeedState.speedEMA st
                   | None => clamped
                   end) in *.
  clearbody previous.
  pose proof (ema_step previous (value k) (3 # 10) ltac:(lra)) as Hb.
  pose proof (between_within 0 120 _ _ _ Hb Hprev (proj1 Hk)) as He.
  set (ema := exponentialMovingAverage (Some previous) (value k) (3 # 10))
    in *.
  clearbody ema.
  unfold speedWithin.
  cbn [BusSmoothing.SpeedState.speed BusSmoothing.SpeedState.speedEMA
       BusSmoothing.SpeedState.speedFilter].
  rewrite (Math_max_within 120 ema He). auto.
Qed.

Lemma speedReachable_within state :
  BusSmoothing.speedReachable state -> speedWithin state.
Proof.
  induction 1 as [| state newSpeed _ IH]; [exact I |].
  now apply smoothSpeed_within.
Qed.

Lemma target_within (previous clamped : Q) :
  0 < previous <= 3600 -> 0 <= clamped <= 3600 ->
  0 <= (if Qlt_bool clamped (previous - previous * (5 # 100))
        then previous - previous * (5 # 100)
        else if Qlt_bool (previous + previous * (2 # 100)) clamped
             then previous + previous * (2 # 100)
             else clamped) <= 3600.
Proof.
  intros Hp Hc.
  destruct (Qlt_bool clamped _) eqn:E1; [lra |].
  destruct (Qlt_bool _ clamped) eqn:E2; [| lra].
  apply Qlt_bool_iff in E2. lra.
Qed.

Lemma final_clamp_within (previous ema : Q) :
  0 < previous <= 3600 -> 0 <= ema <= 3600 ->
  0 <= (if Qlt_bool (previous * (5 # 100)) (Qabs (ema - previous)) then
          if Qlt_bool ema previous then previous - previous * (5 # 100)
          else previous + previous * (5 # 100)
        else ema) <= 3600.
Proof.
  intros Hp He.
  destruct (Qlt_bool (previous * (5 # 100)) (Qabs (ema - previous))) eqn:E;
    [| lra].
  destruct (Qlt_bool ema previous) eqn:E2; [lra |].
  apply Qlt_bool_false in E2. apply Qlt_bool_iff in E.
  rewrite Qabs_pos in E by lra. lra.
Qed.

Lemma smoothETA_within state rawETA smoothedSpeed distance :
  etaWithin state ->
  etaWithin (Some (smoothETA state rawETA smoothedSpeed distance)).
Proof.
  intros Hok.
  assert (Hkeep : etaWithin (Some match state with
                                  | Some st => st
                                  | None => {| eta := 0; etaFilter := None;
                                               etaEMA := 0 |}
                                  end)).
  { destruct state; [exact Hok |]. simpl. repeat split; lra. }
  unfold smoothETA. destruct rawETA as [r|]; [| exact Hkeep].
  destruct (Qlt_bool r 0) eqn:Er; [exact Hkeep |].
  pose proof (clamp_within 3600 r ltac:(lra)) as Hc.
  set (clamped := Math_max 0 (Math_min 3600 r)) in *. clearbody clamped.
  destruct state as [[e f p]|];
    unfold etaWithin in *;
    cbn [etaEMA etaFilter eta exponentialMovingAverage] in *.
  - destruct Hok as (_ & Hp & Hf).
    destruct (Qlt_bool 0 p) eqn:Epos.
    + apply Qlt_bool_iff in Epos.
      pose proof (target_within p clamped ltac:(lra) Hc) as Ht.
      set (target := if Qlt_bool clamped _ then _ else _) in *.
      clearbody target.
      pose proof (kalman_within 3600 f target 1 15 ltac:(lra) ltac:(lra)
                    Hf Ht) as Hk.
      set (k := kalmanFilter1D f target 1 15) in *. clearbody k.
      assert (He : 0 <= (5 # 100) * value k + (1 - (5 # 100)) * p <= 3600).
      { destruct Hk as [Hv _]. lra. }
      set (ema := (5 # 100) * value k + (1 - (5 # 100)) * p) in *.
      clearbody ema.
      pose proof (final_clamp_within p ema ltac:(lra) He) as Ha.
      set (adjusted := if Qlt_bool (p * (5 # 100)) (Qabs (ema - p))
                       then _ else _) in *.
      clearbody adjusted.
      rewrite (Math_max_within 3600 adjusted Ha). auto.
    + pose proof (kalman_within 3600 f clamped 1 15 ltac:(lra) ltac:(lra)
                    Hf Hc) as Hk.
      set (k := kalmanFilter1D f clamped 1 15) in *. clearbody k.
      assert (He : 0 <= (5 # 100) * value k + (1 - (5 # 100)) * p <= 3600).
      { destruct Hk as [Hv _]. lra. }
      rewrite (Math_max_within 3600 _ He). auto.
  - unfold filterWithin, kalmanFilter1D. cbn [value errorCovariance].
    assert (He : 0 <= (5 # 100) * clamped + (1 - (5 # 100)) * clamped
                 <= 3600) by lra.
    rewrite (Math_max_within 3600 _ He).
    split; [exact He |]. split; [exact He |]. split; lra.
Qed.

Lemma reachable_within state : reachable state -> etaWithin state.
Proof.
  induction 1 as [| state rawETA smoothedSpeed distance _ IH]; [exact I |].
  now apply smoothETA_within.
Qed.

Lemma smoothETA_invalid st rawETA smoothedSpeed distance :
  validETA rawETA = false ->
  smoothETA (Some st) rawETA smoothedSpeed distance = st.
Proof.
  unfold validETA, smoothETA. destruct rawETA as [r|]; [| reflexivity].
  rewrite negb_false_iff. now intros ->.
Qed.

Lemma between_refl_r (x y : Q) : between x y y.
Proof. unfold between. split; intros H; lra. Qed.

Lemma smoothPosition_within state newPosition :
  positionWithin state ->
  positionWithin (BusSmoothing.smoothPosition state newPosition).
Proof.
  intros Hok. unfold BusSmoothing.smoothPosition.
  destruct newPosition as [[[| [| latq]] [| [| lngq]]]|]; try exact Hok.
  destruct (isZero latq || isZero lngq); [exact Hok |].
  unfold positionWithin.
  cbn [BusSmoothing.PositionState.position
       BusSmoothing.PositionState.positionFilter].
  split; [reflexivity |].
  unfold BusSmoothing.kalmanFilter2D.
  destruct state as [st|];
    [| cbn [BusSmoothing.PositionFilter.latError
            BusSmoothing.PositionFilter.lngError]; lra].
  destruct (isZero _ || isZero _);
    [cbn [BusSmoothing.PositionFilter.latError
          BusSmoothing.PositionFilter.lngError]; lra |].
  cbn [BusSmoothing.PositionFilter.latError
       BusSmoothing.PositionFilter.lngError].
  destruct Hok as (_ & Hlat & Hlng).
  split.
  - apply (kalman_step _ _ latq (1 # 100000) (1 # 10000) Hlat); lra.
  - apply (kalman_step _ _ lngq (1 # 100000) (1 # 10000) Hlng); lra.
Qed.

Lemma positionReachable_within state :
  BusSmoothing.positionReachable state -> positionWithin state.
Proof.
  induction 1 as [| state newPosition _ IH]; [exact I |].
  now apply smoothPosition_within.
Qed.

Lemma smoothPosition_none state lat lng :
  BusSmoothing.smoothPosition state
    (Some {| BusSmoothing.RawPosition.lat := lat;
             BusSmoothing.RawPosition.lng := lng |}) = None
  <-> state = None
      /\ BusSmoothing.falsy lat || BusSmoothing.falsy lng = true.
Proof.
  unfold BusSmoothing.smoothPosition, BusSmoothing.falsy.
  destruct lat as [| [| latq]], lng as [| [| lngq]];
    try (rewrite ?orb_true_r; cbn [orb]; tauto).
  destruct (isZero latq || isZero lngq); [tauto |].
  split; [discriminate | intros [_ H]; discriminate].
Qed.

Lemma update_outcome this device destination haversineDistance now
    updatedAt :
  match BusSmoothing.update this device destination haversineDistance now
          updatedAt with
  | BusSmoothing.Threw _ =>
      BusSmoothing.smoothPosition (BusSmoothing.positionState this)
        (Some {| BusSmoothing.RawPosition.lat :=
                   BusSmoothing.Reading.last_lat device;
                 BusSmoothing.RawPosition.lng :=
                   BusSmoothing.Reading.last_lon device |}) = None
  | BusSmoothing.Returned this' result =>
      let pushed :=
        BusSmoothing.history this
        ++ [ {| BusSmoothing.HistoryEntry.position :=
                  BusSmoothing.Smoothed.position result;
                BusSmoothing.HistoryEntry.timestamp := now;
                BusSmoothing.HistoryEntry.speed :=
                  BusSmoothing.Smoothed.speed result |} ] in
      BusSmoothing.smoothPosition (BusSmoothing.positionState this)
        (Some {| BusSmoothing.RawPosition.lat :=
                   BusSmoothing.Reading.last_lat device;
                 BusSmoothing.RawPosition.lng :=
                   BusSmoothing.Reading.last_lon device |}) <> None
      /\ BusSmoothing.history this'
         = (if (5 <? length pushed)%nat then tail pushed else pushed)
      /\ (exists sp,
            BusSmoothing.speedState this' = Some sp
            /\ BusSmoothing.Smoothed.speed result
               = BusSmoothing.SpeedState.speed sp)
      /\ (exists es,
            BusSmoothing.etaState this' = Some es
            /\ BusSmoothing.Smoothed.eta result = Smoothing.eta es)
  end.
Proof.
  unfold BusSmoothing.update.
  destruct (BusSmoothing.smoothPosition _ _) as [ps|].
  - cbv zeta.
    cbn [BusSmoothing.history BusSmoothing.speedState BusSmoothing.etaState
         BusSmoothing.Smoothed.position BusSmoothing.Smoothed.speed
         BusSmoothing.Smoothed.eta].
    split; [discriminate |]. split; [reflexivity |].
    split; eexists; split; reflexivity.
  - destruct destination as [d|]; [| reflexivity].
    destruct (negb _ && negb _); reflexivity.
Qed.

Lemma update_within this device destination haversineDistance now
    updatedAt :
  busWithin this ->
  busWithin
    (BusSmoothing.stateOf
       (BusSmoothing.update this device destination haversineDistance now
          updatedAt)).
Proof.
  intros (Hh & Hs & He). unfold BusSmoothing.update.
  pose proof (smoothSpeed_within _ (BusSmoothing.Reading.last_speed device)
                Hs) as Hs'.
  set (sp := BusSmoothing.smoothSpeed _ _) in *. clearbody sp.
  destruct (BusSmoothing.smoothPosition _ _) as [ps|].
  - cbv zeta. unfold busWithin.
    cbn [BusSmoothing.stateOf BusSmoothing.history BusSmoothing.speedState
         BusSmoothing.etaState].
    split; [| split; [exact Hs' | now apply smoothETA_within]].
    destruct (BusSmoothing.history this) as [| h t].
    + cbn. lia.
    + cbn [app length] in *. rewrite length_app in *. cbn [length] in *.
      destruct (Nat.ltb_spec 5 (S (length t + 1))).
      * cbn [tail]. rewrite length_app. cbn [length]. lia.
      * cbn [length]. rewrite length_app. cbn [length]. lia.
  - destruct destination as [d|].
    + destruct (negb _ && negb _); cbv zeta; unfold busWithin;
        cbn [BusSmoothing.stateOf BusSmoothing.history
             BusSmoothing.speedState BusSmoothing.etaState];
        (split; [exact Hh |]); (split; [exact Hs' |]);
        [exact He | now apply smoothETA_within].
    + cbv zeta. unfold busWithin.
      cbn [BusSmoothing.stateOf BusSmoothing.history
           BusSmoothing.speedState BusSmoothing.etaState].
      split; [exact Hh |]. split; [exact Hs' |].
      now apply smoothETA_within.
Qed.

Lemma reachable_bus_within this :
  BusSmoothing.reachable this -> busWithin this.
Proof.
  induction 1 as [busId | this device destination haversineDistance now
                            updatedAt _ IH].
  - unfold busWithin, BusSmoothing.create. cbn. split; [lia |].
    split; exact I.
  - now apply update_within.
Qed.

End BusSmoothingFacts.

(** X15: one step of the one-dimensional Kalman filter never overshoots:
    with a non-negative error covariance and process noise and a positive
    measurement noise, the new value lies between the old value and the
    measurement, and the new error covariance is not negative, below the
    measurement noise, and at most the predicted covariance. *)
Theorem kalmanFilter1D_between (v p m q r : Q) :
  0 <= p -> 0 <= q -> 0 < r ->
  let k :=
    Smoothing.kalmanFilter1D
      (Some {| Smoothing.value := v; Smoothing.errorCovariance := p |})
      m q r in
  Bounds.between v m (Smoothing.value k)
  /\ 0 <= Smoothing.errorCovariance k
  /\ Smoothing.errorCovariance k < r
  /\ Smoothing.errorCovariance k <= p + q.
Proof. apply BusSmoothingFacts.kalman_step. Qed.

Lemma kalmanFilter1D_between_witness :
  0 <= 1 /\ 0 <= 1 /\ 0 < 15
  /\ Bounds.between 100 10
       (Smoothing.value
          (Smoothing.kalmanFilter1D
             (Some {| Smoothing.value := 100;
                      Smoothing.errorCovariance := 1 |}) 10 1 15)).
Proof.
  assert (H1 : 0 <= 1) by lra. assert (H2 : 0 < 15) by lra.
  split; [exact H1 |]. split; [exact H1 |]. split; [exact H2 |].
  exact (proj1 (kalmanFilter1D_between 100 1 10 1 15 H1 H1 H2)).
Defined.

(** X16: the exponential moving average with a factor between 0 and 1
    lies between the previous value and the new one. *)
Theorem exponentialMovingAverage_between (previous new alpha : Q) :
  0 <= alpha <= 1 ->
  Bounds.between previous new
    (Smoothing.exponentialMovingAverage (Some previous) new alpha).
Proof. apply BusSmoothingFacts.ema_step. Qed.

Lemma exponentialMovingAverage_between_witness :
  0 <= 3 # 10 <= 1
  /\ Bounds.between 40 50
       (Smoothing.exponentialMovingAverage (Some 40) 50 (3 # 10)).
Proof.
  assert (H : 0 <= 3 # 10 <= 1) by lra.
  split; [exact H |].
  exact (exponentialMovingAverage_between 40 50 (3 # 10) H).
Defined.

(** X17: whatever speeds are reported, valid or not, the smoothed speed
    that [smoothSpeed] has reached from a [null] state lies between 0 and
    120 km/h. *)
Theorem smoothSpeed_range (state : option BusSmoothing.SpeedState.t) :
  BusSmoothing.speedReachable state ->
  match state with
  | Some st => 0 <= BusSmoothing.SpeedState.speed st <= 120
  | None => True
  end.
Proof.
  intros H. apply BusSmoothingFacts.speedReachable_within in H.
  destruct state as [st|]; [apply H | exact I].
Qed.

Lemma smoothSpeed_range_witness :
  let state :=
    Some (BusSmoothing.smoothSpeed
            (Some (BusSmoothing.smoothSpeed None
                     (BusSmoothing.Num (Fin 500))))
            (BusSmoothing.Num (Fin (-20)))) in
  BusSmoothing.speedReachable state
  /\ 0 <= BusSmoothing.SpeedState.speed
            (BusSmoothing.smoothSpeed
               (Some (BusSmoothing.smoothSpeed None
                        (BusSmoothing.Num (Fin 500))))
               (BusSmoothing.Num (Fin (-20)))) <= 120.
Proof.
  intros state.
  assert (H : BusSmoothing.speedReachable state)
    by (repeat apply BusSmoothing.speedReachable_step;
        apply BusSmoothing.speedReachable_init).
  split; [exact H |].
  exact (smoothSpeed_range state H).
Defined.

(** X18: whatever raw ETAs are reported, valid or not, the smoothed ETA
    that [smoothETA] has reached from a [null] state lies between 0 and
    3600 seconds. *)
Theorem smoothETA_range (state : option Smoothing.EtaState) :
  Smoothing.reachable state ->
  match state with
  | Some st => 0 <= Smoothing.eta st <= 3600
  | None => True
  end.
Proof.
  intros H. apply BusSmoothingFacts.reachable_within in H.
  destruct state as [st|]; [apply H | exact I].
Qed.

Lemma smoothETA_range_witness :
  let state :=
    Some (Smoothing.smoothETA
            (Some (Smoothing.smoothETA None (Some 100000) 40 4000))
            (Some 10) 40 4000) in
  Smoothing.reachable state
  /\ 0 <= Smoothing.eta
            (Smoothing.smoothETA
               (Some (Smoothing.smoothETA None (Some 100000) 40 4000))
               (Some 10) 40 4000) <= 3600.
Proof.
  intros state.
  assert (H : Smoothing.reachable state)
    by (repeat apply Smoothing.reachable_step;
        apply Smoothing.reachable_init).
  split; [exact H |].
  exact (smoothETA_range state H).
Defined.

(** X19: once there is a state, raw ETAs that [smoothETA] rejects
    ([null], [NaN], negative) leave no trace: a sequence of raw ETAs gives
    the same state as the sequence without the rejected ones. *)
Theorem smoothETA_skips_invalid smoothedSpeed distance
    (st : Smoothing.EtaState) (raws : list (option Q)) :
  Bounds.smoothEach smoothedSpeed distance (Some st) raws
  = Bounds.smoothEach smoothedSpeed distance (Some st)
      (List.filter Bounds.validETA raws).
Proof.
  unfold Bounds.smoothEach. revert st.
  induction raws as [| rawETA raws IH]; intros st; [reflexivity |].
  cbn [fold_left List.filter].
  destruct (Bounds.validETA rawETA) eqn:E.
  - cbn [fold_left]. apply IH.
  - rewrite (BusSmoothingFacts.smoothETA_invalid st rawETA _ _ E). apply IH.
Qed.

(** X20: a rejected first raw ETA is not harmless.  When the first call of
    [smoothETA], on a [null] state, gets a raw ETA it rejects, the state it
    returns holds an average of 0, and the next accepted raw ETA is reported
    as one twentieth of its clamped value. *)
Theorem smoothETA_after_rejected_first (rejected : option Q) (rawETA : Q)
    smoothedSpeed distance smoothedSpeed' distance' :
  Bounds.validETA rejected = false ->
  0 <= rawETA ->
  Smoothing.eta
    (Smoothing.smoothETA
       (Some (Smoothing.smoothETA None rejected smoothedSpeed distance))
       (Some rawETA) smoothedSpeed' distance')
  == (5 # 100) * Math_max 0 (Math_min 3600 rawETA).
Proof.
  intros Hrej Hraw.
  assert (H0 : Smoothing.smoothETA None rejected smoothedSpeed distance
               = {| Smoothing.eta := 0; Smoothing.etaFilter := None;
                    Smoothing.etaEMA := 0 |}).
  { unfold Bounds.validETA in Hrej. unfold Smoothing.smoothETA.
    destruct rejected as [r|]; [| reflexivity].
    apply negb_false_iff in Hrej. now rewrite Hrej. }
  rewrite H0. unfold Smoothing.smoothETA.
  assert (Hr : Qlt_bool rawETA 0 = false) by (apply Qlt_bool_false; lra).
  rewrite Hr.
  pose proof (BusSmoothingFacts.clamp_within 3600 rawETA ltac:(lra)) as Hc.
  set (clamped := Math_max 0 (Math_min 3600 rawETA)) in *.
  clearbody clamped.
  cbn [Smoothing.etaEMA Smoothing.etaFilter Smoothing.eta].
  assert (Hz : Qlt_bool 0 0 = false) by reflexivity.
  rewrite Hz.
  unfold Smoothing.kalmanFilter1D, Smoothing.exponentialMovingAverage.
  cbn [Smoothing.value].
  assert (He : 0 <= (5 # 100) * clamped + (1 - (5 # 100)) * 0 <= 3600)
    by lra.
  rewrite (BusSmoothingFacts.Math_max_within 3600 _ He). lra.
Qed.

Lemma smoothETA_after_rejected_first_witness :
  Bounds.validETA None = false /\ 0 <= 1000
  /\ Smoothing.eta
       (Smoothing.smoothETA
          (Some (Smoothing.smoothETA None None 40 4000))
          (Some 1000) 40 4000)
     == 50.
Proof.
  assert (H1 : Bounds.validETA None = false) by reflexivity.
  assert (H2 : 0 <= 1000) by lra.
  split; [exact H1 |]. split; [exact H2 |].
  rewrite (smoothETA_after_rejected_first None 1000 40 4000 40 4000 H1 H2).
  reflexivity.
Defined.

(** X21: the smoothed position never overshoots.  On a position state
    reached from [null], an accepted GPS fix moves each coordinate of the
    smoothed position to a value between the previous smoothed coordinate
    and the measured one. *)
Theorem smoothPosition_never_overshoots
    (st : BusSmoothing.PositionState.t) (latq lngq : Q) :
  BusSmoothing.positionReachable (Some st) ->
  ~ latq == 0 -> ~ lngq == 0 ->
  exists st',
    BusSmoothing.smoothPosition (Some st)
      (Some {| BusSmoothing.RawPosition.lat := BusSmoothing.Num (Fin latq);
               BusSmoothing.RawPosition.lng := BusSmoothing.Num (Fin lngq)
            |})
    = Some st'
    /\ Bounds.between (lat (BusSmoothing.PositionState.position st)) latq
         (lat (BusSmoothing.PositionState.position st'))
    /\ Bounds.between (lng (BusSmoothing.PositionState.position st)) lngq
         (lng (BusSmoothing.PositionState.position st')).
Proof.
  intros Hreach Hlat Hlng.
  apply BusSmoothingFacts.positionReachable_within in Hreach.
  destruct Hreach as (Hpos & Helat & Helng). cbv zeta in Hpos, Helat, Helng.
  unfold BusSmoothing.smoothPosition.
  apply isZero_false in Hlat. apply isZero_false in Hlng.
  rewrite Hlat, Hlng. cbn [orb]. eexists. split; [reflexivity |].
  cbn [BusSmoothing.PositionState.position lat lng].
  rewrite Hpos. cbn [lat lng].
  unfold BusSmoothing.kalmanFilter2D.
  destruct (isZero _ || isZero _).
  - cbn [BusSmoothing.PositionFilter.lat BusSmoothing.PositionFilter.lng
         lat lng].
    split; apply BusSmoothingFacts.between_refl_r.
  - cbn [BusSmoothing.PositionFilter.lat BusSmoothing.PositionFilter.lng
         lat lng].
    split.
    + apply (BusSmoothingFacts.kalman_step _ _ latq (1 # 100000)
               (1 # 10000) Helat); lra.
    + apply (BusSmoothingFacts.kalman_step _ _ lngq (1 # 100000)
               (1 # 10000) Helng); lra.
Qed.

Lemma smoothPosition_never_overshoots_witness :
  let fix1 :=
    Some {| BusSmoothing.RawPosition.lat := BusSmoothing.Num (Fin 1);
            BusSmoothing.RawPosition.lng := BusSmoothing.Num (Fin 30) |} in
  let st :=
    {| BusSmoothing.PositionState.position := {| lat := 1; lng := 30 |};
       BusSmoothing.PositionState.positionFilter :=
         {| BusSmoothing.PositionFilter.lat := 1;
            BusSmoothing.PositionFilter.lng := 30;
            BusSmoothing.PositionFilter.latError := 1 # 10000;
            BusSmoothing.PositionFilter.lngError := 1 # 10000 |} |} in
  BusSmoothing.smoothPosition None fix1 = Some st
  /\ BusSmoothing.positionReachable (Some st)
  /\ ~ 2 == 0 /\ ~ 31 == 0
  /\ exists st',
       BusSmoothing.smoothPosition (Some st)
         (Some {| BusSmoothing.RawPosition.lat := BusSmoothing.Num (Fin 2);
                  BusSmoothing.RawPosition.lng := BusSmoothing.Num (Fin 31)
               |})
       = Some st'
       /\ Bounds.between 1 2 (lat (BusSmoothing.PositionState.position st'))
       /\ Bounds.between 30 31
            (lng (BusSmoothing.PositionState.position st')).
Proof.
  intros fix1 st.
  assert (H0 : BusSmoothing.smoothPosition None fix1 = Some st)
    by reflexivity.
  assert (H1 : BusSmoothing.positionReachable (Some st)).
  { rewrite <- H0. apply BusSmoothing.positionReachable_step.
    apply BusSmoothing.positionReachable_init. }
  assert (H2 : ~ 2 == 0) by (intros H; discriminate H).
  assert (H3 : ~ 31 == 0) by (intros H; discriminate H).
  split; [exact H0 |]. split; [exact H1 |]. split; [exact H2 |].
  split; [exact H3 |].
  exact (smoothPosition_never_overshoots st 2 31 H1 H2 H3).
Defined.

(** X22: [update] throws exactly when the bus has no accepted position
    yet and the reading brings none: the object holds no position state and
    the latitude or the longitude of the reading is missing, [NaN] or 0. *)
Theorem update_throws_iff_no_position
    (this : BusSmoothing.BusSmoothingState) (device : BusSmoothing.Reading.t)
    destination haversineDistance now updatedAt :
  (exists this',
     BusSmoothing.update this device destination haversineDistance now
       updatedAt
     = BusSmoothing.Threw this')
  <-> BusSmoothing.positionState this = None
      /\ BusSmoothing.falsy (BusSmoothing.Reading.last_lat device)
         || BusSmoothing.falsy (BusSmoothing.Reading.last_lon device)
         = true.
Proof.
  rewrite <- BusSmoothingFacts.smoothPosition_none.
  pose proof (BusSmoothingFacts.update_outcome this device destination
                haversineDistance now updatedAt) as H.
  destruct (BusSmoothing.update _ _ _ _ _ _) as [this' result | this'].
  - cbv zeta in H. destruct H as (Hsome & _).
    split; [intros [x Hx]; discriminate Hx | intros Hn; now elim Hsome].
  - split; [intros _; exact H | intros _; now exists this'].
Qed.

(** X23: whatever readings a bus's smoothing object has been fed since it
    was created, a call of [update] that returns reports a speed between 0
    and 120 km/h and an ETA between 0 and 3600 seconds. *)
Theorem update_result_ranges
    (this this' : BusSmoothing.BusSmoothingState)
    (device : BusSmoothing.Reading.t) destination haversineDistance now
    updatedAt (result : BusSmoothing.Smoothed.t) :
  BusSmoothing.reachable this ->
  BusSmoothing.update this device destination haversineDistance now
    updatedAt
  = BusSmoothing.Returned this' result ->
  0 <= BusSmoothing.Smoothed.speed result <= 120
  /\ 0 <= BusSmoothing.Smoothed.eta result <= 3600.
Proof.
  intros Hreach Hupd.
  pose proof (BusSmoothingFacts.update_within this device destination
                haversineDistance now updatedAt
                (BusSmoothingFacts.reachable_bus_within this Hreach)) as Hw.
  pose proof (BusSmoothingFacts.update_outcome this device destination
                haversineDistance now updatedAt) as Ho.
  rewrite Hupd in Hw, Ho. cbn [BusSmoothing.stateOf] in Hw.
  cbv zeta in Ho.
  destruct Ho as (_ & _ & (sp & Hsp & Hspeed) & (es & Hes & Heta)).
  destruct Hw as (_ & Hs & He).
  rewrite Hsp in Hs. rewrite Hes in He.
  rewrite Hspeed, Heta. split; [apply Hs | apply He].
Qed.

(** X24: the history of a bus's smoothing object holds the last five
    returned positions.  After a call of [update] that returns, the history
    is the previous history followed by the new entry (the returned
    position and speed, stamped with the current time), cut to its last
    five entries. *)
Theorem update_history_last_five
    (this this' : BusSmoothing.BusSmoothingState)
    (device : BusSmoothing.Reading.t) destination haversineDistance now
    updatedAt (result : BusSmoothing.Smoothed.t) :
  BusSmoothing.reachable this ->
  BusSmoothing.update this device destination haversineDistance now
    updatedAt
  = BusSmoothing.Returned this' result ->
  let pushed :=
    BusSmoothing.history this
    ++ [ {| BusSmoothing.HistoryEntry.position :=
              BusSmoothing.Smoothed.position result;
            BusSmoothing.HistoryEntry.timestamp := now;
            BusSmoothing.HistoryEntry.speed :=
              BusSmoothing.Smoothed.speed result |} ] in
  BusSmoothing.history this' = skipn (length pushed - 5) pushed
  /\ (length (BusSmoothing.history this') <= 5)%nat.
Proof.
  intros Hreach Hupd pushed.
  pose proof (BusSmoothingFacts.reachable_bus_within this Hreach)
    as (Hlen & _).
  pose proof (BusSmoothingFacts.update_within this device destination
                haversineDistance now updatedAt
                (BusSmoothingFacts.reachable_bus_within this Hreach)) as Hw.
  pose proof (BusSmoothingFacts.update_outcome this device destination
                haversineDistance now updatedAt) as Ho.
  rewrite Hupd in Hw, Ho. cbn [BusSmoothing.stateOf] in Hw.
  cbv zeta in Ho. destruct Ho as (_ & Hhist & _).
  split; [| apply Hw].
  rewrite Hhist. fold pushed.
  assert (Hp : length pushed = S (length (BusSmoothing.history this))).
  { unfold pushed. rewrite length_app. cbn [length]. lia. }
  destruct (Nat.ltb_spec 5 (length pushed)) as [Hlt | Hge].
  - assert (E : (length pushed - 5 = 1)%nat) by lia. rewrite E.
    now destruct pushed.
  - assert (E : (length pushed - 5 = 0)%nat) by lia. rewrite E.
    reflexivity.
Qed.

(** X25: [moveTowards] never leaves the segment and never passes the
    destination.  For a distance function that is not negative and a step
    that is not negative, each coordinate of the result lies between that
    of [from] and that of [to]. *)
Theorem moveTowards_stays_on_segment
    (distanceMeters : Position -> Position -> Q) (from to : Position)
    (meters : Q) :
  0 <= meters -> 0 <= distanceMeters from to ->
  Bounds.between (lat from) (lat to)
    (lat (moveTowards distanceMeters from to meters))
  /\ Bounds.between (lng from) (lng to)
       (lng (moveTowards distanceMeters from to meters)).
Proof.
  intros Hm Hd. unfold moveTowards. cbv zeta.
  set (dist := distanceMeters from to) in *. clearbody dist.
  destruct (isZero dist) eqn:Ez;
    [cbn [orb]; split; apply BusSmoothingFacts.between_refl_r |].
  destruct (Qle_bool dist meters) eqn:El;
    [cbn [orb]; split; apply BusSmoothingFacts.between_refl_r |].
  cbn [orb lat lng].
  apply isZero_false in Ez. apply Qle_bool_false in El.
  assert (Hr : meters / dist * dist == meters) by (field; exact Ez).
  set (r := meters / dist) in *. clearbody r.
  assert (Hr0 : 0 <= r) by nra.
  assert (Hr1 : r <= 1) by nra.
  unfold Bounds.between.
  split; (split; intros H; split; nra).
Qed.

Lemma moveTowards_stays_on_segment_witness :
  0 <= 1000 /\ 0 <= Sample.distanceMeters Sample.kigali
                      {| lat := -2; lng := 30 |}
  /\ Bounds.between (lat Sample.kigali) (-2)
       (lat (moveTowards Sample.distanceMeters Sample.kigali
               {| lat := -2; lng := 30 |} 1000)).
Proof.
  assert (H1 : 0 <= 1000) by lra.
  assert (H2 : 0 <= Sample.distanceMeters Sample.kigali
                      {| lat := -2; lng := 30 |})
    by (vm_compute; discriminate).
  split; [exact H1 |]. split; [exact H2 |].
  exact (proj1 (moveTowards_stays_on_segment Sample.distanceMeters
                  Sample.kigali {| lat := -2; lng := 30 |} 1000 H1 H2)).
Defined.

Lemma update_result_ranges_witness :
  BusSmoothing.reachable BusSample.afterOne
  /\ match BusSmoothing.update BusSample.afterOne BusSample.reading
             (Some BusSample.destination) BusSample.haversineDistance
             (Sample.t0 + 5000) (Sample.t0 + 5000) with
     | BusSmoothing.Returned _ result =>
         0 <= BusSmoothing.Smoothed.speed result <= 120
         /\ 0 <= BusSmoothing.Smoothed.eta result <= 3600
     | BusSmoothing.Threw _ => False
     end.
Proof.
  assert (Hr : BusSmoothing.reachable BusSample.afterOne)
    by (apply BusSmoothing.reachable_update,
          BusSmoothing.reachable_create).
  split; [exact Hr |].
  destruct (BusSmoothing.update BusSample.afterOne BusSample.reading
              (Some BusSample.destination) BusSample.haversineDistance
              (Sample.t0 + 5000) (Sample.t0 + 5000))
    as [this' result | this'] eqn:E.
  - exact (update_result_ranges _ _ _ _ _ _ _ _ Hr E).
  - vm_compute in E. discriminate E.
Defined.

Lemma update_history_last_five_witness :
  BusSmoothing.reachable BusSample.afterOne
  /\ match BusSmoothing.update BusSample.afterOne BusSample.reading
             (Some BusSample.destination) BusSample.haversineDistance
             (Sample.t0 + 5000) (Sample.t0 + 5000) with
     | BusSmoothing.Returned this' _ =>
         (length (BusSmoothing.history this') <= 5)%nat
     | BusSmoothing.Threw _ => False
     end.
Proof.
  assert (Hr : BusSmoothing.reachable BusSample.afterOne)
    by (apply BusSmoothing.reachable_update,
          BusSmoothing.reachable_create).
  split; [exact Hr |].
  destruct (BusSmoothing.update BusSample.afterOne BusSample.reading
              (Some BusSample.destination) BusSample.haversineDistance
              (Sample.t0 + 5000) (Sample.t0 + 5000))
    as [this' result | this'] eqn:E.
  - exact (proj2 (update_history_last_five _ _ _ _ _ _ _ _ Hr E)).
  - vm_compute in E. discriminate E.
Defined.
